(** * DXCC Analyzer: the log analysis engine of [DXCCAnalyzer.jsx]

    A shallow embedding of the ADIF parser, the confirmation and mode
    classifiers, the aggregation fold [analyzeQSOs] and the display
    accessors of the component, followed by the properties the design
    document states about them.

    Conventions of the embedding.
    - A JavaScript string is a [string]: a sequence of 8-bit code units.
      [toUpperCase] and [toLowerCase] map the ASCII letters and leave every
      other code unit as it is: they are the source's case mapping on ASCII
      text.  On letters beyond ASCII (accented letters, the sharp s) the
      source's mapping differs; the case-sensitive steps of the embedding
      describe ASCII text.
    - A QSO object (built by [parseADIF], keys are upper-case field names)
      is a [gmap string string]; a missing property reads as [None]
      ([undefined] in the source).
    - [dxccData], [contMap] and the four per-band objects of an entry are
      plain objects used as string-keyed maps: a [gmap string _] holds their
      own properties.  Under a key that comes from the log, [obj[key]] also
      finds the members every plain object inherits from [Object.prototype]
      ([inherited]); a run starts with the standard members only.
    - Reading a property of [undefined] raises a [TypeError]: a function
      that can raise returns an [option], [None] for the exception.
    - Counters are JavaScript numbers that only ever grow by one: [nat].
    - The entity table [../utils/dxccEntities] is consumed through
      [lookupDXCC] only and is a parameter of the development. *)

From Stdlib Require Import String Ascii List Arith Bool Lia.
From Stdlib Require Import Permutation.
From stdpp Require Import gmap strings list fin_maps sorting.

Open Scope string_scope.

Set Default Proof Using "Type".

(** ** Strings *)

Module Str.

Definition isLower (c : ascii) : bool :=
  let n := nat_of_ascii c in (97 <=? n)%nat && (n <=? 122)%nat.

Definition isUpper (c : ascii) : bool :=
  let n := nat_of_ascii c in (65 <=? n)%nat && (n <=? 90)%nat.

Definition isDigit (c : ascii) : bool :=
  let n := nat_of_ascii c in (48 <=? n)%nat && (n <=? 57)%nat.

(** [\w] of the regular expression: letters, digits and underscore. *)
Definition isWord (c : ascii) : bool :=
  isLower c || isUpper c || isDigit c || (nat_of_ascii c =? 95)%nat.

(** White space removed by [String.prototype.trim], among the code
    units below 256: TAB, LF, VT, FF, CR, SP and NBSP. *)
Definition isSpace (c : ascii) : bool :=
  let n := nat_of_ascii c in
  ((9 <=? n)%nat && (n <=? 13)%nat) || (n =? 32)%nat || (n =? 160)%nat.

Definition upperChar (c : ascii) : ascii :=
  if isLower c then ascii_of_nat (nat_of_ascii c - 32) else c.

Definition lowerChar (c : ascii) : ascii :=
  if isUpper c then ascii_of_nat (nat_of_ascii c + 32) else c.

Fixpoint map (f : ascii -> ascii) (s : string) : string :=
  match s with
  | EmptyString => EmptyString
  | String c s' => String (f c) (map f s')
  end.

Definition toUpperCase : string -> string := map upperChar.
Definition toLowerCase : string -> string := map lowerChar.

Fixpoint trimStart (s : string) : string :=
  match s with
  | EmptyString => EmptyString
  | String c s' => if isSpace c then trimStart s' else s
  end.

Fixpoint trimEnd (s : string) : string :=
  match s with
  | EmptyString => EmptyString
  | String c s' =>
      match trimEnd s' with
      | EmptyString => if isSpace c then EmptyString else String c EmptyString
      | r => String c r
      end
  end.

Definition trim (s : string) : string := trimEnd (trimStart s).

(** [s.substring(0, n)] *)
Definition take (n : nat) (s : string) : string := String.substring 0 n s.

(** [hay.startsWith(needle)] *)
Definition startsWith (hay needle : string) : bool := String.prefix needle hay.

(** [hay.includes(needle)] *)
Fixpoint includes (hay needle : string) : bool :=
  String.prefix needle hay ||
  match hay with
  | EmptyString => false
  | String _ h => includes h needle
  end.

(** The longest prefix of [s] whose characters satisfy [p], and the rest. *)
Fixpoint span (p : ascii -> bool) (s : string) : string * string :=
  match s with
  | EmptyString => (EmptyString, EmptyString)
  | String c s' =>
      if p c then let '(a, b) := span p s' in (String c a, b)
      else (EmptyString, s)
  end.

(** [parseInt(ds, 10)] on a run of decimal digits. *)
Fixpoint parseDigits (acc : nat) (ds : string) : nat :=
  match ds with
  | EmptyString => acc
  | String c ds' => parseDigits (10 * acc + (nat_of_ascii c - 48)) ds'
  end.

Definition parseInt (ds : string) : nat := parseDigits 0 ds.

(** [Array.prototype.includes] on an array of strings. *)
Definition member (x : string) (l : list string) : bool :=
  existsb (String.eqb x) l.

End Str.

(** ** Records *)

(** A QSO as [parseADIF] builds it. *)
Abbreviation Qso := (gmap string string).

(** [a || b] on a possibly missing string: the empty string is falsy. *)
Definition truthy (o : option string) : option string :=
  match o with
  | Some EmptyString => None
  | other => other
  end.

Definition orElse (o : option string) (d : string) : string :=
  match truthy o with
  | Some s => s
  | None => d
  end.

(** ** Classifiers *)

(** [['Y', 'V'].includes(v?.toUpperCase())] *)
Definition isYV (o : option string) : bool :=
  match o with
  | Some v => Str.member (Str.toUpperCase v) ["Y"; "V"]
  | None => false
  end.

Definition confirmFields : list string :=
  [ "LOTW_QSL_RCVD"; "EQSL_QSL_RCVD"; "QSL_RCVD";
    "QRZCOM_QSL_RCVD"; "QRZ_QSL_RCVD"; "QRZCOM_QSO_DOWNLOAD_STATUS" ].

Definition isConfirmed (qso : Qso) : bool :=
  existsb (fun field => isYV (qso !! field)) confirmFields.

Definition MODE_ssb : list string := [ "SSB"; "USB"; "LSB"; "AM" ].
Definition MODE_cw : list string := [ "CW" ].
Definition MODE_digital : list string :=
  [ "FT8"; "FT4"; "JT65"; "JT9"; "JT4"; "WSPR"; "Q65";
    "RTTY"; "PSK"; "PSK31"; "PSK63"; "PSK125"; "QPSK"; "BPSK";
    "MFSK"; "OLIVIA"; "CONTESTIA"; "HELL"; "MT63"; "DOMINO"; "THROB";
    "VARA"; "WINMOR"; "ARDOP"; "PACTOR";
    "PACKET"; "APRS"; "AX25";
    "FSK"; "AFSK" ].

Definition categorizeMode (mode : option string) : string :=
  match truthy mode with
  | None => "unknown"
  | Some m =>
      let upperMode := Str.trim (Str.toUpperCase m) in
      if existsb (fun digitalMode =>
                    String.eqb upperMode digitalMode
                    || Str.startsWith upperMode (digitalMode ++ " ")
                    || Str.includes upperMode digitalMode) MODE_digital
      then "digital"
      else if String.eqb upperMode "CW" || Str.startsWith upperMode "CW "
      then "cw"
      else if existsb (fun ssbMode =>
                         String.eqb upperMode ssbMode
                         || Str.startsWith upperMode (ssbMode ++ " ")) MODE_ssb
      then "ssb"
      else "unknown"
  end.

(** ** The ADIF parser *)

(** One match of [adifTagRegex]: an opening angle bracket, a run of word
    characters (group 1), a colon, a run of digits (group 2), optionally a
    colon and one word character (group 3, never read), a closing angle
    bracket, and the longest run of characters other than an opening angle
    bracket (group 4). *)
Record Tag := mkTag {
  tagName : string;     (* match[1] *)
  tagDigits : string;   (* match[2] *)
  tagRaw : string       (* match[4] *)
}.

Definition notLt (c : ascii) : bool := negb (Ascii.eqb c "<").

(** The regular expression anchored at the head of [s]: the tag and the
    number of characters the match spans.  Every quantifier is greedy over
    a character class that excludes the character required next, so the
    match is the one found without backtracking. *)
Definition matchTagAt (s : string) : option (Tag * nat) :=
  match s with
  | String "<" s1 =>
      let '(name, s2) := Str.span Str.isWord s1 in
      match name, s2 with
      | String _ _, String ":" s3 =>
          let '(digits, s4) := Str.span Str.isDigit s3 in
          let head := 1 + String.length name + 1 + String.length digits in
          match digits, s4 with
          | String _ _, String ">" s5 =>
              let '(raw, _) := Str.span notLt s5 in
              Some (mkTag name digits raw, head + 1 + String.length raw)
          | String _ _, String ":" (String ty (String ">" s5)) =>
              if Str.isWord ty then
                let '(raw, _) := Str.span notLt s5 in
                Some (mkTag name digits raw, head + 3 + String.length raw)
              else None
          | _, _ => None
          end
      | _, _ => None
      end
  | _ => None
  end.

(** The loop [while ((match = adifTagRegex.exec(record)) !== null)]: all
    matches from left to right, each search resuming where the previous
    match ended ([skip] counts the characters of the current match still
    to pass over). *)
Fixpoint execAll (skip : nat) (record : string) : list Tag :=
  match record with
  | EmptyString => []
  | String _ rest =>
      match skip with
      | S k => execAll k rest
      | O =>
          match matchTagAt record with
          | Some (t, n) => t :: execAll (n - 1) rest
          | None => execAll 0 rest
          end
      end
  end.

(** The value stored for a tag. *)
Definition fieldValue (t : Tag) : string :=
  let declaredLength := Str.parseInt (tagDigits t) in
  let rawValue := tagRaw t in
  if (0 <? declaredLength)%nat && (declaredLength <? String.length rawValue)%nat
  then Str.trim (Str.take declaredLength rawValue)
  else Str.trim rawValue.

Definition storeTag (qso : Qso) (t : Tag) : Qso :=
  <[Str.toUpperCase (tagName t) := fieldValue t]> qso.

Definition buildQso (tags : list Tag) : Qso := fold_left storeTag tags ∅.

(** [/<eor>/i] at the head of [s]. *)
Definition startsEOR (s : string) : bool :=
  match s with
  | String "<" (String e (String o (String r (String ">" _)))) =>
      Ascii.eqb (Str.upperChar e) "E" && Ascii.eqb (Str.upperChar o) "O"
      && Ascii.eqb (Str.upperChar r) "R"
  | _ => false
  end.

(** [content.split(/<eor>/i)] *)
Fixpoint splitEOR (content : string) : list string :=
  match content with
  | EmptyString => [EmptyString]
  | String c rest =>
      if startsEOR content then
        match rest with
        | String _ (String _ (String _ (String _ after))) =>
            EmptyString :: splitEOR after
        | _ => [EmptyString]
        end
      else
        match splitEOR rest with
        | chunk :: more => String c chunk :: more
        | [] => [String c EmptyString]
        end
  end.

(** The body of [records.forEach]: the record pushed for one chunk, if any. *)
Definition parseRecord (record : string) : option Qso :=
  if String.eqb (Str.trim record) "" then None
  else
    let qso := buildQso (execAll 0 record) in
    if (0 <? size qso)%nat then Some qso else None.

Definition parseADIF (content : string) : list Qso :=
  omap parseRecord (splitEOR content).

(** ** The aggregation engine *)

Definition BANDS : list string :=
  [ "160m"; "80m"; "40m"; "30m"; "20m"; "17m"; "15m"; "12m"; "10m"; "6m" ].

(** A band status: ['C'] or ['W']; [null] is [None]. *)
Inductive Status := C | W.

(** An entry of the entity table, as [lookupDXCC] returns it. *)
Record DxccEntity := mkEntity {
  name : string;
  entCont : string;
  entDeleted : bool
}.

(** [{ lotw, eqsl, qrz, qsl }] of booleans: an entry of [bandConfirmations]. *)
Record Flags := mkFlags {
  bc_lotw : bool; bc_eqsl : bool; bc_qrz : bool; bc_qsl : bool
}.

(** [{ lotw, eqsl, qrz, qsl }] of counters: [platformQsos] and the entries
    of [bandPlatformQsos]. *)
Record Counts := mkCounts {
  pq_lotw : nat; pq_eqsl : nat; pq_qrz : nat; pq_qsl : nat
}.

(** An entry of [dxccData]. *)
Record Aggregate := mkAggregate {
  country : string;
  cont : string;
  deleted : bool;
  total : nat;
  lotw : bool;
  eqsl : bool;
  qrz : bool;
  qsl : bool;
  bands : gmap string (option Status);
  bandQsos : gmap string nat;
  bandConfirmations : gmap string Flags;
  platformQsos : Counts;
  bandPlatformQsos : gmap string Counts
}.

Abbreviation DxccData := (gmap string Aggregate).

(** The four platform tests of one QSO: [isLotw], [isEqsl], [isQsl], [isQrz]. *)
Record Platforms := mkPlatforms {
  isLotw : bool; isEqsl : bool; isQsl : bool; isQrz : bool
}.

Definition platformsOf (qso : Qso) : Platforms :=
  {| isLotw := isYV (qso !! "LOTW_QSL_RCVD");
     isEqsl := isYV (qso !! "EQSL_QSL_RCVD");
     isQsl := isYV (qso !! "QSL_RCVD");
     isQrz := existsb (fun f => isYV (qso !! f))
                [ "QRZCOM_QSL_RCVD"; "QRZ_QSL_RCVD"; "QRZCOM_QSO_DOWNLOAD_STATUS" ] |}.

Definition bump (b : bool) (n : nat) : nat := if b then S n else n.

(** [if (isX) { bc.x = true; bpq.x++ }], for the four platforms. *)
Definition markFlags (p : Platforms) (f : Flags) : Flags :=
  {| bc_lotw := isLotw p || bc_lotw f;
     bc_eqsl := isEqsl p || bc_eqsl f;
     bc_qrz := isQrz p || bc_qrz f;
     bc_qsl := isQsl p || bc_qsl f |}.

Definition markCounts (p : Platforms) (c : Counts) : Counts :=
  {| pq_lotw := bump (isLotw p) (pq_lotw c);
     pq_eqsl := bump (isEqsl p) (pq_eqsl c);
     pq_qrz := bump (isQrz p) (pq_qrz c);
     pq_qsl := bump (isQsl p) (pq_qsl c) |}.

Definition noFlags : Flags := mkFlags false false false false.
Definition noCounts : Counts := mkCounts 0 0 0 0.

(** The entry created on first sight of an identifier, after
    [BANDS.forEach] has filled the four per-band objects. *)
Definition newEntry (country cont : string) (deleted : bool) : Aggregate :=
  {| country := country;
     cont := cont;
     deleted := deleted;
     total := 0;
     lotw := false; eqsl := false; qrz := false; qsl := false;
     bands := fold_left (fun m b => <[b := None]> m) BANDS ∅;
     bandQsos := fold_left (fun m b => <[b := 0]> m) BANDS ∅;
     bandConfirmations := fold_left (fun m b => <[b := noFlags]> m) BANDS ∅;
     platformQsos := noCounts;
     bandPlatformQsos := fold_left (fun m b => <[b := noCounts]> m) BANDS ∅ |}.

(** [dxccData[dxccId].total++] *)
Definition countQso (d : Aggregate) : Aggregate :=
  {| country := country d; cont := cont d; deleted := deleted d;
     total := S (total d);
     lotw := lotw d; eqsl := eqsl d; qrz := qrz d; qsl := qsl d;
     bands := bands d; bandQsos := bandQsos d;
     bandConfirmations := bandConfirmations d;
     platformQsos := platformQsos d;
     bandPlatformQsos := bandPlatformQsos d |}.

(** The four lines [if (isX) { entry.x = true; entry.platformQsos.x++ }]. *)
Definition markPlatforms (p : Platforms) (d : Aggregate) : Aggregate :=
  {| country := country d; cont := cont d; deleted := deleted d;
     total := total d;
     lotw := isLotw p || lotw d;
     eqsl := isEqsl p || eqsl d;
     qrz := isQrz p || qrz d;
     qsl := isQsl p || qsl d;
     bands := bands d; bandQsos := bandQsos d;
     bandConfirmations := bandConfirmations d;
     platformQsos := markCounts p (platformQsos d);
     bandPlatformQsos := bandPlatformQsos d |}.

(** [!currentStatus]: a missing property and [null] are both falsy. *)
Definition noStatus (s : option (option Status)) : bool :=
  match s with
  | Some (Some _) => false
  | _ => true
  end.

(** The block guarded by [BANDS.includes(band.toLowerCase())].  The four
    per-band objects hold every band of [BANDS] from [newEntry] on, so
    the in-place updates ([++], [bc.x = true]) find their slot. *)
Definition markBand (normalizedBand : string) (confirmed : bool)
    (p : Platforms) (d : Aggregate) : Aggregate :=
  let currentStatus := bands d !! normalizedBand in
  {| country := country d; cont := cont d; deleted := deleted d;
     total := total d;
     lotw := lotw d; eqsl := eqsl d; qrz := qrz d; qsl := qsl d;
     bands :=
       if confirmed then <[normalizedBand := Some C]> (bands d)
       else if noStatus currentStatus then <[normalizedBand := Some W]> (bands d)
       else bands d;
     bandQsos := alter S normalizedBand (bandQsos d);
     bandConfirmations := alter (markFlags p) normalizedBand (bandConfirmations d);
     platformQsos := platformQsos d;
     bandPlatformQsos := alter (markCounts p) normalizedBand (bandPlatformQsos d) |}.

(** [if (band && BANDS.includes(band.toLowerCase())) { ... }] *)
Definition updateBand (band : option string) (confirmed : bool)
    (p : Platforms) (d : Aggregate) : Aggregate :=
  match truthy band with
  | Some b =>
      if Str.member (Str.toLowerCase b) BANDS
      then markBand (Str.toLowerCase b) confirmed p d
      else d
  | None => d
  end.

(** What one record does to the entry of its entity. *)
Definition nextEntry (q : Qso) (d : Aggregate) : Aggregate :=
  updateBand (q !! "BAND") (isConfirmed q) (platformsOf q)
    (markPlatforms (platformsOf q) (countQso d)).

(** The pre-aggregation filters of [analyzeQSOs]. *)
Definition filterQsos (qsos : list Qso) (modeFilter operatorFilter : string)
  : list Qso :=
  let filteredQsos :=
    if String.eqb modeFilter "all" then qsos
    else List.filter
           (fun qso => String.eqb (categorizeMode (qso !! "MODE")) modeFilter) qsos in
  if negb (String.eqb operatorFilter "all") then
    List.filter
      (fun qso =>
         let call :=
           Str.toUpperCase
             (orElse (qso !! "STATION_CALLSIGN") (orElse (qso !! "OPERATOR") "")) in
         String.eqb call operatorFilter)
      filteredQsos
  else filteredQsos.

(** ** Plain objects as maps *)

(** The property names a plain object inherits from [Object.prototype].
    For a key among them [obj[key]] is the inherited member, a function (the
    prototype itself for [__proto__]), whether or not [obj] has properties
    of its own: it is truthy, and none of the properties the fold reads
    from an entry is defined on it. *)
Definition objectPrototype : list string :=
  [ "constructor"; "__defineGetter__"; "__defineSetter__"; "hasOwnProperty";
    "__lookupGetter__"; "__lookupSetter__"; "isPrototypeOf";
    "propertyIsEnumerable"; "toString"; "valueOf"; "__proto__";
    "toLocaleString" ].

Definition inherited (key : string) : bool := Str.member key objectPrototype.

(** [list.forEach(callback)] on a threaded state: an exception raised by
    the callback ends the loop and the run, [None]. *)
Definition forEach {St A : Type} (callback : St -> A -> option St)
    (l : list A) (st : St) : option St :=
  fold_left (fun outcome x => outcome ≫= fun st' => callback st' x) l (Some st).

(** [band && BANDS.includes(band.toLowerCase())] *)
Definition onKnownBand (band : option string) : bool :=
  match truthy band with
  | Some b => Str.member (Str.toLowerCase b) BANDS
  | None => false
  end.

Section Aggregation.

(** The lookup contract of the entity table. *)
Variable lookupDXCC : string -> option DxccEntity.

Definition resolveCountry (qso : Qso) (dxccId : string) : string :=
  orElse (qso !! "COUNTRY") (orElse (name <$> lookupDXCC dxccId) "Unknown").

Definition resolveContinent (qso : Qso) (dxccId : string) : string :=
  orElse (qso !! "CONT") (orElse (entCont <$> lookupDXCC dxccId) "").

Definition resolveDeleted (dxccId : string) : bool :=
  match lookupDXCC dxccId with
  | Some e => entDeleted e
  | None => false
  end.

(** The callback of [filteredQsos.forEach]: one QSO folded into [dxccData].

    For an identifier that names an inherited member, [!dxccData[dxccId]]
    is false and no entry is created; [total++] and the flag assignments
    land on that member and leave [dxccData] as it is, while
    [.platformQsos.lotw++] (and its three siblings) and [.bands[...]] read
    a property of [undefined] and raise. *)
Definition foldQso (dxccData : DxccData) (qso : Qso) : option DxccData :=
  match truthy (qso !! "DXCC") with
  | None => Some dxccData
  | Some dxccId =>
      let band := qso !! "BAND" in
      let confirmed := isConfirmed qso in
      let country := resolveCountry qso dxccId in
      let continent := resolveContinent qso dxccId in
      let deleted := resolveDeleted dxccId in
      let p := platformsOf qso in
      if inherited dxccId then
        if isLotw p || isEqsl p || isQsl p || isQrz p || onKnownBand band
        then None
        else Some dxccData
      else
        let entry :=
          match dxccData !! dxccId with
          | Some d => d
          | None => newEntry country continent deleted
          end in
        Some (<[dxccId := updateBand band confirmed p (markPlatforms p (countQso entry))]>
                dxccData)
  end.

Definition analyzeQSOs (qsos : list Qso) (modeFilter operatorFilter : string)
  : option DxccData :=
  forEach foldQso (filterQsos qsos modeFilter operatorFilter) ∅.

End Aggregation.

(** [outcome !! dxccId]: the entry under [dxccId] of the object a run
    returned; [None] when there is no such entry, and for a run that
    raised. *)
#[global] Instance outcome_lookup : Lookup string Aggregate (option DxccData) :=
  fun dxccId outcome => outcome ≫= (.!! dxccId).

(** [stats.totalQSOs]: the [total] fields of all entries, summed. *)
Definition totalQSOs (dxccData : DxccData) : nat :=
  map_fold (fun _ data sum => sum + total data) 0 dxccData.

(** ** Display accessors *)

Definition flagOf (platform : string) (f : Flags) : option bool :=
  if String.eqb platform "lotw" then Some (bc_lotw f)
  else if String.eqb platform "eqsl" then Some (bc_eqsl f)
  else if String.eqb platform "qrz" then Some (bc_qrz f)
  else if String.eqb platform "qsl" then Some (bc_qsl f)
  else None.

(** [data.bandConfirmations[band]?.[platform]], as a condition. *)
Definition bandConfirmedBy (data : Aggregate) (band platform : string) : bool :=
  match bandConfirmations data !! band with
  | Some f => match flagOf platform f with Some b => b | None => false end
  | None => false
  end.

(** [getDisplayBandStatus], with the [filterConfirmation] state it reads
    as a parameter. *)
Definition getDisplayBandStatus (filterConfirmation : string)
    (data : Aggregate) (band : string) : option Status :=
  let status := bands data !! band in
  if noStatus status then None
  else if negb (String.eqb filterConfirmation "all") then
    if bandConfirmedBy data band filterConfirmation then Some C
    else
      match bandQsos data !! band with
      | Some (S _) => Some W
      | _ => None
      end
  else default None status.

(** ** Contacts of a record list

    What a list of folded records says about one entity and one band,
    read off the records alone.  The fold is compared with these. *)

(** The record is grouped under [dxccId]: its DXCC field is that
    non-empty string. *)
Definition forEntity (dxccId : string) (qso : Qso) : bool :=
  match truthy (qso !! "DXCC") with
  | Some id => String.eqb id dxccId
  | None => false
  end.

(** The record's BAND field normalizes to the recognized band [band]. *)
Definition hitsBand (band : string) (qso : Qso) : bool :=
  match truthy (qso !! "BAND") with
  | Some b =>
      Str.member (Str.toLowerCase b) BANDS && String.eqb (Str.toLowerCase b) band
  | None => false
  end.

(** The record has a grouping key: a DXCC field that is not empty. *)
Definition hasKey (qso : Qso) : bool :=
  match truthy (qso !! "DXCC") with
  | Some _ => true
  | None => false
  end.

(** The record has a grouping key that is not the name of an inherited
    member. *)
Definition ownKey (qso : Qso) : bool :=
  match truthy (qso !! "DXCC") with
  | Some dxccId => negb (inherited dxccId)
  | None => false
  end.

(** The callback raises on the record: its key names an inherited member
    and it has a platform confirmation or a recognized band. *)
Definition raises (qso : Qso) : bool :=
  hasKey qso && negb (ownKey qso)
  && (isLotw (platformsOf qso) || isEqsl (platformsOf qso) || isQsl (platformsOf qso)
      || isQrz (platformsOf qso) || onKnownBand (qso !! "BAND")).

Definition onBand (dxccId band : string) (qso : Qso) : bool :=
  forEntity dxccId qso && hitsBand band qso.

Definition statusOf (l : list Qso) (dxccId band : string) : option Status :=
  if existsb (fun q => onBand dxccId band q && isConfirmed q) l then Some C
  else if existsb (onBand dxccId band) l then Some W
  else None.

Definition qsosOn (l : list Qso) (dxccId band : string) : nat :=
  length (List.filter (onBand dxccId band) l).

Definition flagsOf (l : list Qso) (dxccId band : string) : Flags :=
  {| bc_lotw := existsb (fun q => onBand dxccId band q && isLotw (platformsOf q)) l;
     bc_eqsl := existsb (fun q => onBand dxccId band q && isEqsl (platformsOf q)) l;
     bc_qrz := existsb (fun q => onBand dxccId band q && isQrz (platformsOf q)) l;
     bc_qsl := existsb (fun q => onBand dxccId band q && isQsl (platformsOf q)) l |}.

(** The per-band objects of the entry of [dxccId] agree with the records
    [l], and its [total] counts the records of [l] grouped under it. *)
Record entryFor (l : list Qso) (dxccId : string) (d : Aggregate) : Prop := {
  ef_bands : forall b,
    bands d !! b = if Str.member b BANDS then Some (statusOf l dxccId b) else None;
  ef_qsos : forall b,
    bandQsos d !! b = if Str.member b BANDS then Some (qsosOn l dxccId b) else None;
  ef_conf : forall b,
    bandConfirmations d !! b
    = if Str.member b BANDS then Some (flagsOf l dxccId b) else None;
  ef_total : total d = length (List.filter (forEntity dxccId) l)
}.

(** [dxccData] holds an entry exactly for the identifiers met in [l] that
    do not name an inherited member, and each entry agrees with [l]. *)
Definition aggregates (l : list Qso) (dxccData : DxccData) : Prop :=
  forall dxccId,
    match dxccData !! dxccId with
    | Some d =>
        existsb (forEntity dxccId) l && negb (inherited dxccId) = true
        /\ entryFor l dxccId d
    | None => existsb (forEntity dxccId) l && negb (inherited dxccId) = false
    end.

(** ** Platform confirmations of a record list *)

(** The records of [l] grouped under [dxccId] that a platform test accepts,
    counted; [sel] is one of [isLotw], [isEqsl], [isQsl], [isQrz]. *)
Definition platformQsosOf (l : list Qso) (dxccId : string) (sel : Platforms -> bool)
  : nat :=
  length (List.filter (fun q => forEntity dxccId q && sel (platformsOf q)) l).

Definition bandPlatformQsosOf (l : list Qso) (dxccId band : string)
    (sel : Platforms -> bool) : nat :=
  length (List.filter (fun q => onBand dxccId band q && sel (platformsOf q)) l).

Definition countsOf (l : list Qso) (dxccId : string) : Counts :=
  {| pq_lotw := platformQsosOf l dxccId isLotw;
     pq_eqsl := platformQsosOf l dxccId isEqsl;
     pq_qrz := platformQsosOf l dxccId isQrz;
     pq_qsl := platformQsosOf l dxccId isQsl |}.

Definition bandCountsOf (l : list Qso) (dxccId band : string) : Counts :=
  {| pq_lotw := bandPlatformQsosOf l dxccId band isLotw;
     pq_eqsl := bandPlatformQsosOf l dxccId band isEqsl;
     pq_qrz := bandPlatformQsosOf l dxccId band isQrz;
     pq_qsl := bandPlatformQsosOf l dxccId band isQsl |}.

(** The platform fields of the entry of [dxccId] agree with the records [l]. *)
Record platformsFor (l : list Qso) (dxccId : string) (d : Aggregate) : Prop := {
  pf_lotw : lotw d = existsb (fun q => forEntity dxccId q && isLotw (platformsOf q)) l;
  pf_eqsl : eqsl d = existsb (fun q => forEntity dxccId q && isEqsl (platformsOf q)) l;
  pf_qrz : qrz d = existsb (fun q => forEntity dxccId q && isQrz (platformsOf q)) l;
  pf_qsl : qsl d = existsb (fun q => forEntity dxccId q && isQsl (platformsOf q)) l;
  pf_counts : platformQsos d = countsOf l dxccId;
  pf_band : forall b,
    bandPlatformQsos d !! b
    = if Str.member b BANDS then Some (bandCountsOf l dxccId b) else None
}.

(** The records of [l] grouped under [dxccId] whose BAND is missing or is
    not a recognized band. *)
Definition offBand (dxccId : string) (qso : Qso) : bool :=
  forEntity dxccId qso && negb (existsb (fun b => hitsBand b qso) BANDS).

(** The identifiers met in [l], each once. *)
Definition keysOf (l : list Qso) : list string :=
  remove_dups (omap (fun q => truthy (q !! "DXCC")) l).

(** ** Display accessors and the table filter *)

Definition PLATFORMS : list string := [ "lotw"; "eqsl"; "qrz"; "qsl" ].

(** [counts[platform]] on one of the count objects. *)
Definition countOf (platform : string) (c : Counts) : option nat :=
  if String.eqb platform "lotw" then Some (pq_lotw c)
  else if String.eqb platform "eqsl" then Some (pq_eqsl c)
  else if String.eqb platform "qrz" then Some (pq_qrz c)
  else if String.eqb platform "qsl" then Some (pq_qsl c)
  else None.

(** [data[platform]] for a platform name: the entity-wide flag.  The
    callers pass the four platform names only. *)
Definition entityFlag (platform : string) (data : Aggregate) : bool :=
  if String.eqb platform "lotw" then lotw data
  else if String.eqb platform "eqsl" then eqsl data
  else if String.eqb platform "qrz" then qrz data
  else if String.eqb platform "qsl" then qsl data
  else false.

(** [getDisplayQsos], with the [filterBand] and [filterConfirmation] state
    it reads as parameters; [x || 0] reads a missing count as zero. *)
Definition getDisplayQsos (filterBand filterConfirmation : string)
    (data : Aggregate) : nat :=
  if negb (String.eqb filterBand "all") && negb (String.eqb filterConfirmation "all")
  then
    match bandPlatformQsos data !! filterBand with
    | Some c => default 0 (countOf filterConfirmation c)
    | None => 0
    end
  else if negb (String.eqb filterBand "all")
  then default 0 (bandQsos data !! filterBand)
  else if negb (String.eqb filterConfirmation "all")
  then default 0 (countOf filterConfirmation (platformQsos data))
  else total data.

(** [getDisplayConfirmation], with the [filterBand] state as a parameter. *)
Definition getDisplayConfirmation (filterBand : string) (data : Aggregate)
    (platform : string) : bool :=
  if negb (String.eqb filterBand "all") then bandConfirmedBy data filterBand platform
  else entityFlag platform data.

(** [data.bands[band] === s] *)
Definition hasStatus (s : Status) (data : Aggregate) (band : string) : bool :=
  match bands data !! band with
  | Some (Some C) => match s with C => true | W => false end
  | Some (Some W) => match s with C => false | W => true end
  | _ => false
  end.

(** [bandsToCheck]: the selected band alone, or all of them. *)
Definition bandsToCheck (filterBand : string) : list string :=
  if negb (String.eqb filterBand "all") then [filterBand] else BANDS.

(** The post-aggregation filter state read by [filteredData]. *)
Record Filters := mkFilters {
  searchTerm : string;
  filterStatus : string;
  filterContinent : string;
  filterConfirmation : string;
  filterBand : string
}.

Abbreviation Entry := (string * Aggregate)%type.

(** [filteredData] up to its final sort: the five filter stages applied in
    order to the entries of [analyzedData]. *)
Definition filteredEntries (f : Filters) (entries : list Entry) : list Entry :=
  let e1 :=
    if negb (String.eqb (searchTerm f) "") then
      let term := Str.toLowerCase (searchTerm f) in
      List.filter
        (fun e => Str.includes (Str.toLowerCase (country (snd e))) term
                  || Str.includes (fst e) term) entries
    else entries in
  let e2 :=
    if negb (String.eqb (filterContinent f) "all") then
      List.filter (fun e => String.eqb (cont (snd e)) (filterContinent f)) e1
    else e1 in
  let e3 :=
    if negb (String.eqb (filterBand f) "all") then
      List.filter
        (fun e => hasStatus C (snd e) (filterBand f) || hasStatus W (snd e) (filterBand f))
        e2
    else e2 in
  let e4 :=
    if negb (String.eqb (filterConfirmation f) "all") then
      if negb (String.eqb (filterBand f) "all") then
        List.filter
          (fun e => bandConfirmedBy (snd e) (filterBand f) (filterConfirmation f)) e3
      else
        List.filter (fun e => entityFlag (filterConfirmation f) (snd e)) e3
    else e3 in
  if String.eqb (filterStatus f) "confirmed" then
    List.filter
      (fun e => existsb (hasStatus C (snd e)) (bandsToCheck (filterBand f))) e4
  else if String.eqb (filterStatus f) "worked" then
    List.filter
      (fun e => forallb (fun band => negb (hasStatus C (snd e) band))
                  (bandsToCheck (filterBand f))
                && existsb (hasStatus W (snd e)) (bandsToCheck (filterBand f))) e4
  else e4.

(** [stats.confirmed] and [filteredStats.confirmed]: the entries with a
    Confirmed band among the bands under consideration. *)
Definition confirmedCount (filterBand : string) (entries : list Entry) : nat :=
  length (List.filter
            (fun e => existsb (hasStatus C (snd e)) (bandsToCheck filterBand)) entries).

(** [filteredStats.totalQSOs] *)
Definition displayTotal (filterBand filterConfirmation : string)
    (entries : list Entry) : nat :=
  fold_left (fun sum e => sum + getDisplayQsos filterBand filterConfirmation (snd e))
    entries 0.

(** The test of [platformsOf] behind a platform name. *)
Definition platformTest (platform : string) (p : Platforms) : bool :=
  if String.eqb platform "lotw" then isLotw p
  else if String.eqb platform "eqsl" then isEqsl p
  else if String.eqb platform "qrz" then isQrz p
  else if String.eqb platform "qsl" then isQsl p
  else false.

(** The filter state [f] with another status mode. *)
Definition withStatus (status : string) (f : Filters) : Filters :=
  {| searchTerm := searchTerm f;
     filterStatus := status;
     filterContinent := filterContinent f;
     filterConfirmation := filterConfirmation f;
     filterBand := filterBand f |}.

(** No status at all on [band]: neither ['C'] nor ['W']. *)
Definition blank (data : Aggregate) (band : string) : bool :=
  negb (hasStatus C data band) && negb (hasStatus W data band).

(** The five stages of [filteredEntries] as one test on an entry. *)
Definition shownBase (f : Filters) (e : Entry) : bool :=
  (String.eqb (searchTerm f) ""
   || Str.includes (Str.toLowerCase (country (snd e))) (Str.toLowerCase (searchTerm f))
   || Str.includes (fst e) (Str.toLowerCase (searchTerm f)))
  && (String.eqb (filterContinent f) "all"
      || String.eqb (cont (snd e)) (filterContinent f))
  && (String.eqb (filterBand f) "all"
      || hasStatus C (snd e) (filterBand f) || hasStatus W (snd e) (filterBand f))
  && (String.eqb (filterConfirmation f) "all"
      || (if negb (String.eqb (filterBand f) "all")
          then bandConfirmedBy (snd e) (filterBand f) (filterConfirmation f)
          else entityFlag (filterConfirmation f) (snd e))).

Definition shownStatus (f : Filters) (e : Entry) : bool :=
  if String.eqb (filterStatus f) "confirmed" then
    existsb (hasStatus C (snd e)) (bandsToCheck (filterBand f))
  else if String.eqb (filterStatus f) "worked" then
    forallb (fun band => negb (hasStatus C (snd e) band)) (bandsToCheck (filterBand f))
    && existsb (hasStatus W (snd e)) (bandsToCheck (filterBand f))
  else true.

Definition shown (f : Filters) (e : Entry) : bool := shownBase f e && shownStatus f e.

(** ** The filter menus *)

(** The order of [Array.prototype.sort] without a comparator: strings
    compared code unit by code unit, a proper prefix first. *)
Fixpoint strLeb (a b : string) : bool :=
  match a, b with
  | EmptyString, _ => true
  | String _ _, EmptyString => false
  | String x a', String y b' =>
      if (nat_of_ascii x <? nat_of_ascii y)%nat then true
      else if (nat_of_ascii y <? nat_of_ascii x)%nat then false
      else strLeb a' b'
  end.

Definition strLe (a b : string) : Prop := strLeb a b = true.

#[global] Instance strLe_dec : RelDecision strLe :=
  fun a b => decide (strLeb a b = true).

(** [[...set].sort()]: the result of the sort is the one ascending
    arrangement of the set's members, here computed by a merge sort. *)
Definition sortStrings (l : list string) : list string := merge_sort strLe l.

(** [qso.STATION_CALLSIGN || qso.OPERATOR], when truthy. *)
Definition callOf (qso : Qso) : option string :=
  match truthy (qso !! "STATION_CALLSIGN") with
  | Some c => Some c
  | None => truthy (qso !! "OPERATOR")
  end.

(** [availableOperators]: the upper-cased callsigns of the log, as a
    sorted set. *)
Definition availableOperators (qsos : list Qso) : list string :=
  sortStrings (remove_dups (omap (fun q => Str.toUpperCase <$> callOf q) qsos)).

(** [availableContinents]: the non-empty continents of the entries, as a
    sorted set. *)
Definition availableContinents (dxccData : DxccData) : list string :=
  sortStrings
    (remove_dups (omap (fun e : Entry => truthy (Some (cont (snd e))))
                    (map_to_list dxccData))).

(** The filter state with a continent selected and nothing else. *)
Definition continentOnly (c : string) : Filters :=
  {| searchTerm := ""; filterStatus := "all"; filterContinent := c;
     filterConfirmation := "all"; filterBand := "all" |}.

(** ** Pagination *)

(** [totalPages]: one page when all entries are shown ([itemsPerPage] is 0),
    else the number of entries divided by the page size, rounded up. *)
Definition totalPages (itemsPerPage len : nat) : nat :=
  if (itemsPerPage =? 0)%nat then 1
  else (len + itemsPerPage - 1) / itemsPerPage.

(** [l.slice(start, stop)] for [0 <= start <= stop]. *)
Definition slice {A} (start stop : nat) (l : list A) : list A :=
  take (stop - start) (drop start l).

(** [paginatedData] *)
Definition paginatedData {A} (itemsPerPage currentPage : nat) (filteredData : list A)
  : list A :=
  if (itemsPerPage =? 0)%nat then filteredData
  else slice ((currentPage - 1) * itemsPerPage) (currentPage * itemsPerPage) filteredData.

(** ** Character classes of a string *)

(** Every character of [s] satisfies [p]. *)
Fixpoint allChars (p : ascii -> bool) (s : string) : bool :=
  match s with
  | EmptyString => true
  | String c s' => p c && allChars p s'
  end.

(** ** Chart aggregation *)

(** A row of [contMap]: the [worked] and [confirmed] counters of a
    continent. *)
Record ContCounts := mkContCounts { cc_worked : nat; cc_confirmed : nat }.

(** One pass of the [forEach] that fills [contMap], with the [filterBand]
    state as a parameter; [data.cont || 'Unknown'] names the row.  Under
    the name of an inherited member [!contMap[cont]] is false: no row is
    created, and the two increments land on that member. *)
Definition contStep (filterBand : string) (contMap : gmap string ContCounts)
    (e : Entry) : gmap string ContCounts :=
  let row := orElse (Some (cont (snd e))) "Unknown" in
  if inherited row then contMap
  else
    let counts := default (mkContCounts 0 0) (contMap !! row) in
    let worked := S (cc_worked counts) in
    let confirmed :=
      if existsb (hasStatus C (snd e)) (bandsToCheck filterBand)
      then S (cc_confirmed counts) else cc_confirmed counts in
    <[row := mkContCounts worked confirmed]> contMap.

(** The entry gets a row of [contMap]: its row name is not the name of an
    inherited member. *)
Definition charted (e : Entry) : bool :=
  negb (inherited (orElse (Some (cont (snd e))) "Unknown")).

Definition contMap (filterBand : string) (filteredData : list Entry)
    : gmap string ContCounts :=
  fold_left (contStep filterBand) filteredData ∅.

(** The sum of a counter over the rows of [contMap]. *)
Definition sumRows (g : ContCounts -> nat) (m : gmap string ContCounts) : nat :=
  map_fold (fun _ counts sum => g counts + sum) 0 m.

(** A row of [bandData]: the [confirmed] and [workedOnly] counters of a
    band, counted over the displayed status of the entries. *)
Definition bandRow (filterConfirmation : string) (filteredData : list Entry)
    (band : string) : nat * nat :=
  fold_left
    (fun (acc : nat * nat) (e : Entry) =>
       let (confirmed, workedOnly) := acc in
       match getDisplayBandStatus filterConfirmation (snd e) band with
       | Some C => (S confirmed, workedOnly)
       | Some W => (confirmed, S workedOnly)
       | None => (confirmed, workedOnly)
       end)
    filteredData (0, 0).

(** [bandData]: one row for each band of [bandsToShow]. *)
Definition bandData (filterBand filterConfirmation : string)
    (filteredData : list Entry) : list (string * (nat * nat)) :=
  (fun band => (band, bandRow filterConfirmation filteredData band))
    <$> bandsToCheck filterBand.

(** [platformCounts]: for each platform the number of entries with its
    flag, read on the selected band when there is one. *)
Definition platformCounts (filterBand : string) (filteredData : list Entry) : Counts :=
  fold_left
    (fun (c : Counts) (e : Entry) =>
       if negb (String.eqb filterBand "all") then
         {| pq_lotw := bump (bandConfirmedBy (snd e) filterBand "lotw") (pq_lotw c);
            pq_eqsl := bump (bandConfirmedBy (snd e) filterBand "eqsl") (pq_eqsl c);
            pq_qrz := bump (bandConfirmedBy (snd e) filterBand "qrz") (pq_qrz c);
            pq_qsl := bump (bandConfirmedBy (snd e) filterBand "qsl") (pq_qsl c) |}
       else
         {| pq_lotw := bump (lotw (snd e)) (pq_lotw c);
            pq_eqsl := bump (eqsl (snd e)) (pq_eqsl c);
            pq_qrz := bump (qrz (snd e)) (pq_qrz c);
            pq_qsl := bump (qsl (snd e)) (pq_qsl c) |})
    filteredData noCounts.

(** A row counts no more confirmed than worked entries, and is not empty. *)
Definition rowOk (counts : ContCounts) : Prop :=
  cc_confirmed counts <= cc_worked counts /\ 0 < cc_worked counts.

(** ** Sample data *)

(** Three entries in ADIF numbering; 229 is a deleted entity. *)
Definition sampleTable : list (string * DxccEntity) :=
  [ ("291", mkEntity "United States" "NA" false);
    ("5", mkEntity "Aland Islands" "EU" false);
    ("229", mkEntity "German Democratic Republic" "EU" true) ].

Definition sampleLookup (id : string) : option DxccEntity :=
  snd <$> List.find (fun e => String.eqb (fst e) id) sampleTable.

(** The three records of the worked example of the design document. *)
Definition qsoA : Qso := {[ "DXCC" := "291"; "BAND" := "20m" ]}.
Definition qsoB : Qso := {[ "DXCC" := "291"; "BAND" := "20M"; "LOTW_QSL_RCVD" := "Y" ]}.
Definition qsoC : Qso := {[ "DXCC" := "5"; "BAND" := "40m" ]}.
Definition sampleLog : list Qso := [ qsoA; qsoB; qsoC ].

(** The entry of entity 291 after the three records. *)
Definition entry291 : Aggregate :=
  default (newEntry "" "" false) (analyzeQSOs sampleLookup sampleLog "all" "all" !! "291").

(** A record that names its own continent, and one of a deleted entity. *)
Definition qsoEU : Qso := {[ "DXCC" := "291"; "BAND" := "20m"; "CONT" := "EU" ]}.
Definition qsoGDR : Qso := {[ "DXCC" := "229"; "BAND" := "20m" ]}.

(** A filter state with a band and a platform selected, and the entries
    of the sample log. *)
Definition sampleFilters : Filters :=
  {| searchTerm := ""; filterStatus := "all"; filterContinent := "all";
     filterConfirmation := "lotw"; filterBand := "20m" |}.
Definition sampleEntries : list Entry :=
  map_to_list (default ∅ (analyzeQSOs sampleLookup sampleLog "all" "all")).

(** A record whose identifier names an inherited member, and one that also
    has a recognized band. *)
Definition qsoToString : Qso := {[ "DXCC" := "toString" ]}.
Definition qsoConstructor : Qso := {[ "DXCC" := "constructor"; "BAND" := "20m" ]}.

(** * Properties *)

(** ** Strings *)

Section StringFacts.

Lemma upperChar_Y (c : ascii) :
  Str.upperChar c = "Y"%char <-> c = "Y"%char \/ c = "y"%char.
Proof.
  destruct c as [[] [] [] [] [] [] [] []]; vm_compute;
    (split; [ intros H; try discriminate H; auto
            | intros [H | H]; try discriminate H; reflexivity ]).
Qed.

Lemma upperChar_V (c : ascii) :
  Str.upperChar c = "V"%char <-> c = "V"%char \/ c = "v"%char.
Proof.
  destruct c as [[] [] [] [] [] [] [] []]; vm_compute;
    (split; [ intros H; try discriminate H; auto
            | intros [H | H]; try discriminate H; reflexivity ]).
Qed.

Lemma toUpperCase_single (v : string) (c : ascii) :
  Str.toUpperCase v = String c EmptyString <->
  exists c', v = String c' EmptyString /\ Str.upperChar c' = c.
Proof.
  split.
  - destruct v as [| c' [| c'' v']]; simpl; intros H; try discriminate H.
    injection H as H. eauto.
  - intros (c' & -> & <-). reflexivity.
Qed.

Lemma isYV_Some (v : string) :
  isYV (Some v) = true <-> v = "Y" \/ v = "y" \/ v = "V" \/ v = "v".
Proof.
  unfold isYV, Str.member. simpl. rewrite orb_false_r, orb_true_iff.
  rewrite !String.eqb_eq.
  change "Y" with (String "Y"%char EmptyString).
  change "V" with (String "V"%char EmptyString).
  rewrite !toUpperCase_single. split.
  - intros [(c & -> & Hc) | (c & -> & Hc)].
    + apply upperChar_Y in Hc as [-> | ->]; auto.
    + apply upperChar_V in Hc as [-> | ->]; auto.
  - intros [-> | [-> | [-> | ->]]]; [left | left | right | right];
      eexists; split; reflexivity.
Qed.

Lemma member_spec (x : string) (l : list string) :
  Str.member x l = true <-> x ∈ l.
Proof.
  unfold Str.member. rewrite existsb_exists. split.
  - intros (y & Hy & E). apply String.eqb_eq in E as ->.
    by apply list_elem_of_In.
  - intros H. exists x. split; [by apply list_elem_of_In | apply String.eqb_refl].
Qed.

End StringFacts.

(** ** The confirmation predicate *)

Lemma isConfirmed_spec (qso : Qso) :
  isConfirmed qso = true <->
  exists field v, field ∈ confirmFields /\ qso !! field = Some v /\
                  (v = "Y" \/ v = "y" \/ v = "V" \/ v = "v").
Proof.
  unfold isConfirmed. rewrite existsb_exists. split.
  - intros (f & Hf & H). destruct (qso !! f) as [v |] eqn:E; [| discriminate H].
    exists f, v. split; [by apply list_elem_of_In |]. split; [done |].
    by apply isYV_Some.
  - intros (f & v & Hf & E & Hv). exists f. split; [by apply list_elem_of_In |].
    rewrite E. by apply isYV_Some.
Qed.

(** C5. [isConfirmed] holds exactly when one of the six received-status
    fields carries Y or V in either case, and the upload-status field has no
    influence on it: setting it to any value, or removing it, leaves the
    result as it was. *)
Theorem isConfirmed_six_fields_only (qso : Qso) :
  (isConfirmed qso = true <->
   exists field v,
     field ∈ [ "LOTW_QSL_RCVD"; "EQSL_QSL_RCVD"; "QSL_RCVD";
               "QRZCOM_QSL_RCVD"; "QRZ_QSL_RCVD"; "QRZCOM_QSO_DOWNLOAD_STATUS" ] /\
     qso !! field = Some v /\ (v = "Y" \/ v = "y" \/ v = "V" \/ v = "v"))
  /\ (forall v, isConfirmed (<["QRZCOM_QSO_UPLOAD_STATUS" := v]> qso) = isConfirmed qso)
  /\ isConfirmed (delete "QRZCOM_QSO_UPLOAD_STATUS" qso) = isConfirmed qso.
Proof.
  split; [apply isConfirmed_spec |].
  split; [intros v |]; unfold isConfirmed, confirmFields; simpl;
    by rewrite ?lookup_insert_ne, ?lookup_delete_ne by done.
Qed.

(** ** The parser *)

Section ParserFacts.

Lemma matchTagAt_head (c : ascii) (s : string) (r : Tag * nat) :
  matchTagAt (String c s) = Some r -> c = "<"%char.
Proof.
  destruct c as [[] [] [] [] [] [] [] []]; intros H;
    try discriminate H; reflexivity.
Qed.

Lemma trim_empty_cons (c : ascii) (s : string) :
  Str.trim (String c s) = "" -> Str.isSpace c = true /\ Str.trim s = "".
Proof.
  unfold Str.trim. simpl. destruct (Str.isSpace c) eqn:E; [done |].
  simpl. destruct (Str.trimEnd s); [rewrite E |]; discriminate.
Qed.

(** A blank chunk holds no tag. *)
Lemma execAll_blank (record : string) :
  Str.trim record = "" -> forall skip, execAll skip record = [].
Proof.
  induction record as [| c s IH]; [done |].
  intros [Hc Hs]%trim_empty_cons [| k]; cbn [execAll].
  - destruct (matchTagAt (String c s)) as [[t n] |] eqn:E; [| by apply IH].
    apply matchTagAt_head in E. subst c. discriminate Hc.
  - by apply IH.
Qed.

Lemma storeTags_non_empty (tags : list Tag) (qso : Qso) :
  qso ≠ ∅ -> fold_left storeTag tags qso ≠ ∅.
Proof.
  revert qso. induction tags as [| t ts IH]; simpl; [done |].
  intros qso _. apply IH, insert_non_empty.
Qed.

Lemma buildQso_size (tags : list Tag) :
  (0 <? size (buildQso tags))%nat = negb (bool_decide (tags = [])).
Proof.
  destruct tags as [| t ts]; [done |].
  rewrite bool_decide_eq_false_2 by done. simpl. apply Nat.ltb_lt.
  assert (size (buildQso (t :: ts)) ≠ 0); [| lia].
  apply map_size_non_empty_iff. unfold buildQso. cbn [fold_left].
  apply storeTags_non_empty, insert_non_empty.
Qed.

(** A chunk is turned into a record exactly when it holds a tag. *)
Lemma parseRecord_spec (record : string) :
  parseRecord record =
  if bool_decide (execAll 0 record = []) then None
  else Some (buildQso (execAll 0 record)).
Proof.
  unfold parseRecord. destruct (String.eqb_spec (Str.trim record) "") as [E | _].
  - by rewrite (execAll_blank _ E).
  - rewrite buildQso_size. by case_bool_decide.
Qed.

(** A stored field holds the value of the last tag of its name. *)
Lemma storeTags_lookup (tags : list Tag) (qso : Qso) (k v : string) :
  fold_left storeTag tags qso !! k = Some v ->
  (qso !! k = Some v /\ forall t, t ∈ tags -> Str.toUpperCase (tagName t) ≠ k) \/
  exists before t after,
    tags = (before ++ t :: after)%list /\
    Str.toUpperCase (tagName t) = k /\ v = fieldValue t /\
    forall t', t' ∈ after -> Str.toUpperCase (tagName t') ≠ k.
Proof.
  revert qso. induction tags as [| t0 ts IH]; cbn [fold_left]; intros qso H.
  - left. split; [done |]. intros t Ht. inversion Ht.
  - apply IH in H as [[H Hts] | (before & t & after & -> & Hk & Hv & Hafter)].
    + unfold storeTag in H. apply lookup_insert_Some in H as [[Hk <-] | [Hk H]].
      * right. by exists [], t0, ts.
      * left. split; [done |]. intros t [-> | Ht]%elem_of_cons; auto.
    + right. by exists (t0 :: before), t, after.
Qed.

Lemma buildQso_lookup (tags : list Tag) (k v : string) :
  buildQso tags !! k = Some v ->
  exists before t after,
    tags = (before ++ t :: after)%list /\
    Str.toUpperCase (tagName t) = k /\ v = fieldValue t /\
    forall t', t' ∈ after -> Str.toUpperCase (tagName t') ≠ k.
Proof.
  intros [[H _] | H]%storeTags_lookup; [| done]. by rewrite lookup_empty in H.
Qed.

Lemma parseADIF_elem (content : string) (qso : Qso) :
  qso ∈ parseADIF content <->
  exists record, record ∈ splitEOR content /\ execAll 0 record ≠ [] /\
                 qso = buildQso (execAll 0 record).
Proof.
  unfold parseADIF. rewrite list_elem_of_omap. split.
  - intros (record & Hin & H). exists record. split; [done |].
    rewrite parseRecord_spec in H. case_bool_decide; [discriminate H |].
    by injection H as <-.
  - intros (record & Hin & Hne & ->). exists record. split; [done |].
    rewrite parseRecord_spec. by rewrite bool_decide_eq_false_2.
Qed.

End ParserFacts.

(** C6, as amended.  Every field of every record [parseADIF] returns is
    stored by the last tag of that (upper-cased) name in its chunk, and holds
    the captured text cut to the declared length when that length is
    positive and the capture is longer, then trimmed; a declared length of
    zero cuts nothing.  The record [<MODE:3>FT8<BAND:3>20m<DXCC:3>291] parses
    to MODE = FT8, BAND = 20m, DXCC = 291. *)
Theorem parseADIF_value_truncated_trimmed :
  (forall (content : string) (qso : Qso) (k v : string),
      qso ∈ parseADIF content -> qso !! k = Some v ->
      exists record before t after,
        record ∈ splitEOR content /\
        execAll 0 record = (before ++ t :: after)%list /\
        (forall t', t' ∈ after -> Str.toUpperCase (tagName t') ≠ k) /\
        Str.toUpperCase (tagName t) = k /\
        let declaredLength := Str.parseInt (tagDigits t) in
        v = Str.trim
              (if (0 <? declaredLength)%nat
                  && (declaredLength <? String.length (tagRaw t))%nat
               then Str.take declaredLength (tagRaw t)
               else tagRaw t))
  /\ parseADIF "<MODE:3>FT8<BAND:3>20m<DXCC:3>291"
     = [ {[ "MODE" := "FT8"; "BAND" := "20m"; "DXCC" := "291" ]} ].
Proof.
  split; [| by vm_compute].
  intros content qso k v (record & Hrec & _ & ->)%parseADIF_elem
    (before & t & after & Htags & Hk & -> & Hafter)%buildQso_lookup.
  exists record, before, t, after. repeat split; try done.
  unfold fieldValue. simpl. by case_match.
Qed.

Lemma parseADIF_value_truncated_trimmed_witness :
  exists record before t after,
    record ∈ splitEOR "<call:4>W1AW zz<eor>" /\
    execAll 0 record = (before ++ t :: after)%list /\
    (forall t', t' ∈ after -> Str.toUpperCase (tagName t') ≠ "CALL") /\
    Str.toUpperCase (tagName t) = "CALL" /\
    "W1AW" = Str.trim
               (if (0 <? Str.parseInt (tagDigits t))%nat
                   && (Str.parseInt (tagDigits t) <? String.length (tagRaw t))%nat
                then Str.take (Str.parseInt (tagDigits t)) (tagRaw t)
                else tagRaw t).
Proof.
  apply (proj1 parseADIF_value_truncated_trimmed
           "<call:4>W1AW zz<eor>" {[ "CALL" := "W1AW" ]} "CALL" "W1AW").
  - vm_compute. left.
  - vm_compute. reflexivity.
Defined.

(** The reading of C6 that cuts the capture whenever it is longer than the
    declared length fails for a declared length of zero: [<NOTES:0>xyz]
    stores the three captured characters, not the empty string. *)
Lemma parseADIF_zero_length_not_truncated :
  ~ (forall (content : string) (qso : Qso) (k v : string),
        qso ∈ parseADIF content -> qso !! k = Some v ->
        exists record before t after,
          record ∈ splitEOR content /\
          execAll 0 record = (before ++ t :: after)%list /\
          (forall t', t' ∈ after -> Str.toUpperCase (tagName t') ≠ k) /\
          Str.toUpperCase (tagName t) = k /\
          let declaredLength := Str.parseInt (tagDigits t) in
          v = Str.trim
                (if (declaredLength <? String.length (tagRaw t))%nat
                 then Str.take declaredLength (tagRaw t)
                 else tagRaw t)).
Proof.
  intros H.
  destruct (H "<NOTES:0>xyz" {[ "NOTES" := "xyz" ]} "NOTES" "xyz")
    as (record & before & t & after & Hrec & Htags & _ & _ & Hv).
  - vm_compute. left.
  - vm_compute. reflexivity.
  - apply list_elem_of_In in Hrec. destruct Hrec as [<- | []].
    vm_compute in Htags.
    destruct before as [| t0 before].
    + injection Htags as <- _. vm_compute in Hv. discriminate Hv.
    + destruct before; discriminate Htags.
Qed.

(** ** One step of the fold *)

Section BandFacts.

Lemma init_lookup {A} (x : A) (l : list string) (m : gmap string A) (b : string) :
  fold_left (fun m b => <[b := x]> m) l m !! b
  = if Str.member b l then Some x else m !! b.
Proof.
  revert m. induction l as [| a l IH]; intros m; [done |].
  cbn [fold_left]. rewrite IH. unfold Str.member. cbn [existsb].
  destruct (String.eqb_spec b a) as [-> | Hne].
  - rewrite orb_true_l, lookup_insert_eq. by destruct (existsb _ l).
  - rewrite orb_false_l, lookup_insert_ne by done. done.
Qed.

Lemma forEntity_true (k : string) (q : Qso) :
  forEntity k q = true <-> truthy (q !! "DXCC") = Some k.
Proof.
  unfold forEntity. destruct (truthy (q !! "DXCC")) as [id |]; [| done].
  rewrite String.eqb_eq. naive_solver.
Qed.

Lemma forEntity_false (k : string) (q : Qso) :
  forEntity k q = false <-> truthy (q !! "DXCC") ≠ Some k.
Proof. rewrite <- forEntity_true. by destruct (forEntity k q). Qed.

Lemma truthy_Some (o : option string) (v : string) :
  truthy o = Some v <-> o = Some v /\ v ≠ "".
Proof.
  destruct o as [[| c s] |]; simpl; split;
    try discriminate; try (intros [H1 H2]; congruence).
  intros [= <-]. done.
Qed.

Lemma hitsBand_member (b : string) (q : Qso) :
  hitsBand b q = true -> Str.member b BANDS = true.
Proof.
  unfold hitsBand. destruct (truthy (q !! "BAND")) as [v |]; [| done].
  intros [H E]%andb_true_iff. apply String.eqb_eq in E. by subst b.
Qed.

(** On a recognized band, [hitsBand] says that the BAND field is there
    and lower-cases to the band. *)
Lemma hitsBand_true (b : string) (q : Qso) :
  b ∈ BANDS ->
  hitsBand b q = true <-> exists v, q !! "BAND" = Some v /\ Str.toLowerCase v = b.
Proof.
  intros Hb. unfold hitsBand. split.
  - destruct (truthy (q !! "BAND")) as [v |] eqn:E; [| done].
    intros [_ Hv%String.eqb_eq]%andb_true_iff.
    apply truthy_Some in E as [E _]. eauto.
  - intros (v & E & <-). destruct v as [| c v].
    + apply member_spec in Hb. discriminate Hb.
    + rewrite E. cbn [truthy]. rewrite String.eqb_refl, andb_true_r.
      by apply member_spec.
Qed.

(** *** The band block *)

Lemma updateBand_bands (q : Qso) (conf : bool) (p : Platforms)
    (d : Aggregate) (b : string) :
  bands (updateBand (q !! "BAND") conf p d) !! b
  = if hitsBand b q then
      if conf then Some (Some C)
      else if noStatus (bands d !! b) then Some (Some W) else bands d !! b
    else bands d !! b.
Proof.
  unfold updateBand, hitsBand.
  destruct (truthy (q !! "BAND")) as [v |]; [| done].
  destruct (Str.member (Str.toLowerCase v) BANDS); [| done]. cbn.
  destruct (String.eqb_spec (Str.toLowerCase v) b) as [-> | Hne].
  - destruct conf; [by rewrite lookup_insert_eq |].
    destruct (noStatus (bands d !! b)); [by rewrite lookup_insert_eq | done].
  - destruct conf; [by rewrite lookup_insert_ne |].
    destruct (noStatus (bands d !! Str.toLowerCase v));
      [by rewrite lookup_insert_ne | done].
Qed.

Lemma updateBand_bandQsos (q : Qso) (conf : bool) (p : Platforms)
    (d : Aggregate) (b : string) :
  bandQsos (updateBand (q !! "BAND") conf p d) !! b
  = if hitsBand b q then S <$> bandQsos d !! b else bandQsos d !! b.
Proof.
  unfold updateBand, hitsBand.
  destruct (truthy (q !! "BAND")) as [v |]; [| done].
  destruct (Str.member (Str.toLowerCase v) BANDS); [| done]. cbn.
  destruct (String.eqb_spec (Str.toLowerCase v) b) as [-> | Hne].
  - by rewrite lookup_alter_eq.
  - by rewrite lookup_alter_ne.
Qed.

Lemma updateBand_bandConfirmations (q : Qso) (conf : bool) (p : Platforms)
    (d : Aggregate) (b : string) :
  bandConfirmations (updateBand (q !! "BAND") conf p d) !! b
  = if hitsBand b q then markFlags p <$> bandConfirmations d !! b
    else bandConfirmations d !! b.
Proof.
  unfold updateBand, hitsBand.
  destruct (truthy (q !! "BAND")) as [v |]; [| done].
  destruct (Str.member (Str.toLowerCase v) BANDS); [| done]. cbn.
  destruct (String.eqb_spec (Str.toLowerCase v) b) as [-> | Hne].
  - by rewrite lookup_alter_eq.
  - by rewrite lookup_alter_ne.
Qed.

Lemma updateBand_frame (band : option string) (conf : bool) (p : Platforms)
    (d : Aggregate) :
  let d' := updateBand band conf p d in
  country d' = country d /\ cont d' = cont d /\ deleted d' = deleted d /\
  total d' = total d.
Proof.
  unfold updateBand. destruct (truthy band) as [v |]; [| done].
  by destruct (Str.member (Str.toLowerCase v) BANDS).
Qed.

End BandFacts.

Section StepFacts.

Variable lookupDXCC : string -> option DxccEntity.

(** *** The entry after one record *)

Lemma outcome_lookup_Some (outcome : option DxccData) (k : string) (d : Aggregate) :
  outcome !! k = Some d <-> exists st, outcome = Some st /\ st !! k = Some d.
Proof.
  destruct outcome as [st |]; cbn.
  - split; [by exists st | by intros (? & [= <-] & ?)].
  - split; [done | by intros (? & ? & ?)].
Qed.

Lemma forEach_raised {St A} (f : St -> A -> option St) (l : list A) :
  fold_left (fun outcome x => outcome ≫= fun st' => f st' x) l None = None.
Proof. by induction l. Qed.

Lemma forEach_cons {St A} (f : St -> A -> option St) (x : A) (l : list A) (st : St) :
  forEach f (x :: l) st = f st x ≫= forEach f l.
Proof.
  unfold forEach. cbn [fold_left mbind option_bind].
  destruct (f st x); cbn; [done | apply forEach_raised].
Qed.

Lemma forEach_app {St A} (f : St -> A -> option St) (l1 l2 : list A) (st : St) :
  forEach f (l1 ++ l2) st = forEach f l1 st ≫= forEach f l2.
Proof.
  unfold forEach. rewrite fold_left_app.
  destruct (fold_left _ l1 (Some st)); cbn; [done | apply forEach_raised].
Qed.

Lemma forEach_app_Some {St A} (f : St -> A -> option St) (l1 l2 : list A)
    (st st2 : St) :
  forEach f (l1 ++ l2) st = Some st2 <->
  exists st1, forEach f l1 st = Some st1 /\ forEach f l2 st1 = Some st2.
Proof.
  rewrite forEach_app. destruct (forEach f l1 st) as [st1 |]; cbn.
  - split; [by exists st1 | by intros (? & [= <-] & ?)].
  - split; [done | by intros (? & ? & ?)].
Qed.

Lemma forEach_snoc_Some {St A} (f : St -> A -> option St) (l : list A) (x : A)
    (st st2 : St) :
  forEach f (l ++ [x]) st = Some st2 <->
  exists st1, forEach f l st = Some st1 /\ f st1 x = Some st2.
Proof.
  rewrite forEach_app_Some. split; intros (st1 & H1 & H2); exists st1;
    (split; [done |]); rewrite forEach_cons in *; cbn in *;
    by destruct (f st1 x).
Qed.

Lemma foldQso_no_key (st : DxccData) (q : Qso) :
  truthy (q !! "DXCC") = None -> foldQso lookupDXCC st q = Some st.
Proof. intros E. unfold foldQso. by rewrite E. Qed.

(** A record under the name of an inherited member leaves [dxccData] as
    it is, when it does not raise. *)
Lemma foldQso_inherited (st st' : DxccData) (q : Qso) (k : string) :
  truthy (q !! "DXCC") = Some k -> inherited k = true ->
  foldQso lookupDXCC st q = Some st' -> st' = st.
Proof.
  intros E Hk. unfold foldQso. rewrite E, Hk.
  destruct (_ || _); [done | by intros [= <-]].
Qed.

Lemma foldQso_own (st : DxccData) (q : Qso) (k : string) :
  truthy (q !! "DXCC") = Some k -> inherited k = false ->
  foldQso lookupDXCC st q
  = Some (<[k := nextEntry q
                   (default (newEntry (resolveCountry lookupDXCC q k)
                                      (resolveContinent lookupDXCC q k)
                                      (resolveDeleted lookupDXCC k))
                            (st !! k))]> st).
Proof.
  intros E Hk. unfold foldQso. rewrite E, Hk. by destruct (st !! k).
Qed.

Lemma foldQso_same (st st' : DxccData) (q : Qso) (k : string) :
  foldQso lookupDXCC st q = Some st' ->
  truthy (q !! "DXCC") = Some k -> inherited k = false ->
  st' !! k
  = Some (nextEntry q
            (default (newEntry (resolveCountry lookupDXCC q k)
                               (resolveContinent lookupDXCC q k)
                               (resolveDeleted lookupDXCC k))
                     (st !! k))).
Proof.
  intros Hst E Hk. rewrite (foldQso_own _ _ _ E Hk) in Hst.
  injection Hst as <-. by rewrite lookup_insert_eq.
Qed.

Lemma foldQso_other (st st' : DxccData) (q : Qso) (k : string) :
  foldQso lookupDXCC st q = Some st' ->
  truthy (q !! "DXCC") ≠ Some k -> st' !! k = st !! k.
Proof.
  intros Hst E. destruct (truthy (q !! "DXCC")) as [id |] eqn:Eq.
  - destruct (inherited id) eqn:Hid.
    + by rewrite (foldQso_inherited _ _ _ _ Eq Hid Hst).
    + rewrite (foldQso_own _ _ _ Eq Hid) in Hst. injection Hst as <-.
      rewrite lookup_insert_ne; [done | congruence].
  - rewrite (foldQso_no_key _ _ Eq) in Hst. by injection Hst as <-.
Qed.

(** The callback returns exactly on the records on which it does not
    raise. *)
Lemma foldQso_returns (st : DxccData) (q : Qso) :
  is_Some (foldQso lookupDXCC st q) <-> raises q = false.
Proof.
  unfold foldQso, raises, hasKey, ownKey.
  destruct (truthy (q !! "DXCC")) as [k |]; [| split; [done | by eexists]].
  destruct (inherited k); cbn [negb andb]; [| split; [done | by eexists]].
  destruct (_ || _); split; try done; try (by intros [? [=]]); by eexists.
Qed.

End StepFacts.

(** ** The fold agrees with the records *)

Section EntryFacts.

Lemma existsb_snoc {A} (f : A -> bool) (l : list A) (x : A) :
  existsb f (l ++ [x]) = existsb f l || f x.
Proof. rewrite List.existsb_app. cbn [existsb]. by rewrite orb_false_r. Qed.

Lemma filter_snoc_length {A} (f : A -> bool) (l : list A) (x : A) :
  length (List.filter f (l ++ [x]))
  = length (List.filter f l) + (if f x then 1 else 0).
Proof.
  rewrite List.filter_app, List.length_app. cbn [List.filter].
  by destruct (f x).
Qed.

Lemma existsb_none {A} (f g : A -> bool) (l : list A) :
  (forall x, g x = true -> f x = true) ->
  existsb f l = false -> existsb g l = false.
Proof.
  intros Hfg. induction l as [| x l IH]; [done |]. cbn [existsb].
  intros [Hx Hl]%orb_false_iff. rewrite (IH Hl), orb_false_r.
  destruct (g x) eqn:E; [| done]. by rewrite (Hfg x E) in Hx.
Qed.

Lemma filter_none {A} (f : A -> bool) (l : list A) :
  existsb f l = false -> List.filter f l = [].
Proof.
  induction l as [| x l IH]; [done |]. cbn [existsb List.filter].
  intros [-> Hl]%orb_false_iff. auto.
Qed.

Lemma onBand_forEntity (k b : string) (q : Qso) :
  onBand k b q = true -> forEntity k q = true.
Proof. unfold onBand. by intros [? _]%andb_true_iff. Qed.

(** Before any record of the entity, the fresh entry agrees with the list. *)
Lemma newEntry_for (l : list Qso) (k : string) (c ct : string) (dl : bool) :
  existsb (forEntity k) l = false -> entryFor l k (newEntry c ct dl).
Proof.
  intros Hl.
  assert (Hon : forall b (g : Qso -> bool),
             existsb (fun q => onBand k b q && g q) l = false).
  { intros b g. apply (existsb_none (forEntity k)); [| done].
    intros q [H _]%andb_true_iff. by apply onBand_forEntity in H. }
  assert (Hon' : forall b, existsb (onBand k b) l = false).
  { intros b. apply (existsb_none (forEntity k)); [| done].
    intros q. apply onBand_forEntity. }
  split; cbn [bands bandQsos bandConfirmations total newEntry]; intros.
  - rewrite init_lookup, lookup_empty. unfold statusOf.
    by rewrite Hon, Hon'.
  - rewrite init_lookup, lookup_empty. unfold qsosOn.
    by rewrite (filter_none _ _ (Hon' b)).
  - rewrite init_lookup, lookup_empty. unfold flagsOf, noFlags.
    by rewrite !Hon.
  - by rewrite (filter_none _ _ Hl).
Qed.

(** A record of another entity leaves the agreement as it is. *)
Lemma entryFor_skip (l : list Qso) (k : string) (d : Aggregate) (q : Qso) :
  forEntity k q = false -> entryFor l k d -> entryFor (l ++ [q]) k d.
Proof.
  intros Hq [Hb Hn Hc Ht].
  assert (Hon : forall b, onBand k b q = false).
  { intros b. unfold onBand. by rewrite Hq. }
  split; intros.
  - rewrite Hb. unfold statusOf. by rewrite !existsb_snoc, Hon, !orb_false_r.
  - rewrite Hn. unfold qsosOn. by rewrite filter_snoc_length, Hon, Nat.add_0_r.
  - rewrite Hc. unfold flagsOf. by rewrite !existsb_snoc, Hon, !orb_false_r.
  - by rewrite Ht, filter_snoc_length, Hq, Nat.add_0_r.
Qed.

(** A record of the entity moves its entry to the agreement with the
    longer list. *)
Lemma entryFor_step (l : list Qso) (k : string) (d : Aggregate) (q : Qso) :
  forEntity k q = true -> entryFor l k d -> entryFor (l ++ [q]) k (nextEntry q d).
Proof.
  intros Hq [Hb Hn Hc Ht]. unfold nextEntry.
  assert (Hon : forall b, onBand k b q = hitsBand b q).
  { intros b. unfold onBand. by rewrite Hq. }
  split; intros.
  - rewrite updateBand_bands. cbn [bands markPlatforms countQso].
    rewrite Hb. unfold statusOf. rewrite !existsb_snoc, Hon.
    destruct (hitsBand b q) eqn:Hh.
    + rewrite (hitsBand_member _ _ Hh), andb_true_l, (orb_true_r (existsb _ l)).
      destruct (isConfirmed q); [by rewrite orb_true_r |].
      rewrite orb_false_r.
      destruct (existsb (fun q0 => onBand k b q0 && isConfirmed q0) l); [done |].
      by destruct (existsb (onBand k b) l).
    + by rewrite !orb_false_r.
  - rewrite updateBand_bandQsos. cbn [bandQsos markPlatforms countQso].
    rewrite Hn. unfold qsosOn. rewrite filter_snoc_length, Hon.
    destruct (hitsBand b q) eqn:Hh.
    + rewrite (hitsBand_member _ _ Hh). cbn. f_equal. lia.
    + by rewrite Nat.add_0_r.
  - rewrite updateBand_bandConfirmations.
    cbn [bandConfirmations markPlatforms countQso].
    rewrite Hc. unfold flagsOf. rewrite !existsb_snoc, Hon.
    destruct (hitsBand b q) eqn:Hh.
    + rewrite (hitsBand_member _ _ Hh). cbn. unfold markFlags. cbn.
      f_equal. f_equal; apply orb_comm.
    + by rewrite !orb_false_r.
  - destruct (updateBand_frame (q !! "BAND") (isConfirmed q) (platformsOf q)
                (markPlatforms (platformsOf q) (countQso d)))
      as (_ & _ & _ & ->).
    cbn [total markPlatforms countQso].
    rewrite Ht, filter_snoc_length, Hq. lia.
Qed.

End EntryFacts.

Section FoldFacts.

Variable lookupDXCC : string -> option DxccEntity.

Lemma aggregates_step (l : list Qso) (st st' : DxccData) (q : Qso) :
  foldQso lookupDXCC st q = Some st' ->
  aggregates l st -> aggregates (l ++ [q]) st'.
Proof.
  intros Hst H k. specialize (H k). rewrite existsb_snoc.
  destruct (forEntity k q) eqn:Hq.
  - pose proof (proj1 (forEntity_true _ _) Hq) as E.
    destruct (inherited k) eqn:Hk.
    + rewrite (foldQso_inherited _ _ _ _ _ E Hk Hst). cbn [negb] in *.
      rewrite andb_false_r in *.
      destruct (st !! k); [by destruct H as [[=] _] | done].
    + rewrite (foldQso_same _ _ _ _ _ Hst E Hk).
      rewrite orb_true_r. split; [done |]. apply entryFor_step; [done |].
      cbn [negb] in H. rewrite andb_true_r in H.
      destruct (st !! k) as [d |]; [by destruct H |]. by apply newEntry_for.
  - rewrite (foldQso_other _ _ _ _ _ Hst (proj1 (forEntity_false _ _) Hq)).
    rewrite orb_false_r. destruct (st !! k) as [d |]; [| done].
    destruct H as [H1 H2]. split; [done |]. by apply entryFor_skip.
Qed.

Lemma aggregates_fold (l : list Qso) (st : DxccData) :
  forEach (foldQso lookupDXCC) l ∅ = Some st -> aggregates l st.
Proof.
  revert st. induction l as [| q l IH] using rev_ind; intros st.
  - intros [= <-] k. by rewrite lookup_empty.
  - intros (st1 & H1 & H2)%forEach_snoc_Some.
    eapply aggregates_step; [exact H2 | by apply IH].
Qed.

Lemma analyzeQSOs_aggregates (qsos : list Qso) (mf opf : string) (st : DxccData) :
  analyzeQSOs lookupDXCC qsos mf opf = Some st ->
  aggregates (filterQsos qsos mf opf) st.
Proof. apply aggregates_fold. Qed.

(** A run returns exactly when the callback raises on none of the folded
    records. *)
Lemma forEach_returns (l : list Qso) (st : DxccData) :
  is_Some (forEach (foldQso lookupDXCC) l st) <-> forallb (fun q => negb (raises q)) l = true.
Proof.
  revert st. induction l as [| q l IH]; intros st; [by split; [| eexists] |].
  rewrite forEach_cons. cbn [forallb]. rewrite andb_true_iff, negb_true_iff.
  rewrite <- (foldQso_returns lookupDXCC st q).
  destruct (foldQso lookupDXCC st q) as [st1 |]; cbn.
  - rewrite IH. split; [by split; [eexists |] | by intros [_ ?]].
  - split; [by intros [? [=]] | by intros [[? [=]] _]].
Qed.

End FoldFacts.

(** ** Later records *)

Section LaterRecords.

Variable lookupDXCC : string -> option DxccEntity.

Lemma nextEntry_frame (q : Qso) (d : Aggregate) :
  country (nextEntry q d) = country d /\ cont (nextEntry q d) = cont d /\
  deleted (nextEntry q d) = deleted d /\ total (nextEntry q d) = S (total d).
Proof.
  unfold nextEntry.
  destruct (updateBand_frame (q !! "BAND") (isConfirmed q) (platformsOf q)
              (markPlatforms (platformsOf q) (countQso d)))
    as (-> & -> & -> & ->).
  done.
Qed.

(** One more record never touches the identity fields of an entry
    that is already there. *)
Lemma foldQso_identity (st st' : DxccData) (q : Qso) (k : string) (d : Aggregate) :
  st !! k = Some d ->
  foldQso lookupDXCC st q = Some st' ->
  exists d', st' !! k = Some d' /\
             country d' = country d /\ cont d' = cont d /\ deleted d' = deleted d.
Proof.
  intros Hk Hst. destruct (forEntity k q) eqn:Hq.
  - apply forEntity_true in Hq. destruct (inherited k) eqn:Hin.
    + rewrite (foldQso_inherited _ _ _ _ _ Hq Hin Hst). by exists d.
    + rewrite (foldQso_same _ _ _ _ _ Hst Hq Hin), Hk.
      eexists. split; [done |]. cbn [from_option id].
      destruct (nextEntry_frame q d) as (-> & -> & -> & _). done.
  - apply forEntity_false in Hq. rewrite (foldQso_other _ _ _ _ _ Hst Hq).
    by exists d.
Qed.

Lemma fold_identity (l : list Qso) (st st' : DxccData) (k : string) (d : Aggregate) :
  st !! k = Some d ->
  forEach (foldQso lookupDXCC) l st = Some st' ->
  exists d', st' !! k = Some d' /\
             country d' = country d /\ cont d' = cont d /\ deleted d' = deleted d.
Proof.
  revert st d. induction l as [| q l IH]; intros st d Hk.
  - intros [= <-]. by exists d.
  - rewrite forEach_cons. destruct (foldQso lookupDXCC st q) as [st1 |] eqn:Hq; [| done].
    cbn. intros Hst'.
    destruct (foldQso_identity st st1 q k d Hk Hq) as (d1 & H1 & <- & <- & <-).
    by apply (IH st1).
Qed.

(** One more record never takes a band out of the status ['C']. *)
Lemma foldQso_keeps_C (st st' : DxccData) (q : Qso) (k b : string) (d : Aggregate) :
  st !! k = Some d -> bands d !! b = Some (Some C) ->
  foldQso lookupDXCC st q = Some st' ->
  exists d', st' !! k = Some d' /\ bands d' !! b = Some (Some C).
Proof.
  intros Hk Hb Hst. destruct (forEntity k q) eqn:Hq.
  - apply forEntity_true in Hq. destruct (inherited k) eqn:Hin.
    + rewrite (foldQso_inherited _ _ _ _ _ Hq Hin Hst). by exists d.
    + rewrite (foldQso_same _ _ _ _ _ Hst Hq Hin), Hk.
      eexists. split; [done |]. cbn [from_option id]. unfold nextEntry.
      rewrite updateBand_bands. cbn [bands markPlatforms countQso]. rewrite Hb.
      cbn [noStatus]. destruct (hitsBand b q); [| done].
      by destruct (isConfirmed q).
  - apply forEntity_false in Hq. rewrite (foldQso_other _ _ _ _ _ Hst Hq).
    by exists d.
Qed.

Lemma fold_keeps_C (l : list Qso) (st st' : DxccData) (k b : string) (d : Aggregate) :
  st !! k = Some d -> bands d !! b = Some (Some C) ->
  forEach (foldQso lookupDXCC) l st = Some st' ->
  exists d', st' !! k = Some d' /\ bands d' !! b = Some (Some C).
Proof.
  revert st d. induction l as [| q l IH]; intros st d Hk Hb.
  - intros [= <-]. by exists d.
  - rewrite forEach_cons. destruct (foldQso lookupDXCC st q) as [st1 |] eqn:Hq; [| done].
    cbn. intros Hst'.
    destruct (foldQso_keeps_C st st1 q k b d Hk Hb Hq) as (d1 & H1 & Hb1).
    by apply (IH st1 d1).
Qed.

(** The entry of an identifier takes its identity fields from the first
    folded record that bears the identifier. *)
Lemma fold_first_record (pre post : list Qso) (q : Qso) (k : string) (st : DxccData) :
  (forall q', q' ∈ pre -> q' !! "DXCC" ≠ Some k) ->
  q !! "DXCC" = Some k -> k ≠ "" -> inherited k = false ->
  forEach (foldQso lookupDXCC) (pre ++ q :: post) ∅ = Some st ->
  exists d, st !! k = Some d /\
            country d = resolveCountry lookupDXCC q k /\
            cont d = resolveContinent lookupDXCC q k /\
            deleted d = resolveDeleted lookupDXCC k.
Proof.
  intros Hpre Hq Hk Hown (st1 & Hst1 & Hrest)%forEach_app_Some.
  rewrite forEach_cons in Hrest.
  destruct (foldQso lookupDXCC st1 q) as [st2 |] eqn:Hst2; [| done]. cbn in Hrest.
  assert (Hnone : st1 !! k = None).
  { pose proof (aggregates_fold lookupDXCC pre st1 Hst1 k) as H.
    destruct (st1 !! k) as [d |]; [| done].
    destruct H as [[H _]%andb_true_iff _]. apply existsb_exists in H as (q' & Hin & Hq').
    apply forEntity_true, truthy_Some in Hq' as [Hq' _].
    by apply list_elem_of_In, Hpre in Hin. }
  assert (Hkey : truthy (q !! "DXCC") = Some k) by by apply truthy_Some.
  pose proof (foldQso_same lookupDXCC st1 st2 q k Hst2 Hkey Hown) as Hnew.
  rewrite Hnone in Hnew. cbn [from_option id] in Hnew.
  destruct (fold_identity post st2 st k _ Hnew Hrest) as (d & Hd & Hc & Hct & Hdl).
  exists d. split; [done |]. rewrite Hc, Hct, Hdl.
  destruct (nextEntry_frame q (newEntry (resolveCountry lookupDXCC q k)
                                 (resolveContinent lookupDXCC q k)
                                 (resolveDeleted lookupDXCC k)))
    as (-> & -> & -> & _).
  done.
Qed.

End LaterRecords.

(** ** Lists with the same records *)

Section SameRecords.

Lemma existsb_same {A} (f : A -> bool) (l l' : list A) :
  (forall x, In x l <-> In x l') -> existsb f l = existsb f l'.
Proof.
  intros H. apply eq_true_iff_eq. rewrite !existsb_exists.
  split; intros (x & Hx & Hf); exists x; (split; [by apply H | done]).
Qed.

Lemma filterQsos_same (Q Q' : list Qso) (mf opf : string) :
  (forall q, In q Q <-> In q Q') ->
  forall q, In q (filterQsos Q mf opf) <-> In q (filterQsos Q' mf opf).
Proof.
  intros H q. unfold filterQsos.
  destruct (String.eqb mf "all"), (negb (String.eqb opf "all"));
    rewrite ?filter_In, ?H; reflexivity.
Qed.

Lemma statusOf_same (l l' : list Qso) (k b : string) :
  (forall q, In q l <-> In q l') -> statusOf l k b = statusOf l' k b.
Proof.
  intros H. unfold statusOf.
  by rewrite (existsb_same _ l l' H), (existsb_same (onBand k b) l l' H).
Qed.

Lemma onBand_true (k b : string) (q : Qso) :
  b ∈ BANDS -> k ≠ "" ->
  onBand k b q = true <->
  q !! "DXCC" = Some k /\ exists v, q !! "BAND" = Some v /\ Str.toLowerCase v = b.
Proof.
  intros Hb Hk. unfold onBand.
  rewrite andb_true_iff, forEntity_true, truthy_Some, (hitsBand_true b q Hb).
  tauto.
Qed.

Lemma aggregates_key (l : list Qso) (st : DxccData) (k : string) (d : Aggregate) :
  aggregates l st -> st !! k = Some d -> k ≠ "".
Proof.
  intros H Hk. specialize (H k). rewrite Hk in H.
  destruct H as [[H _]%andb_true_iff _].
  apply existsb_exists in H as (q & _ & Hq).
  by apply forEntity_true, truthy_Some in Hq as [_ Hq].
Qed.

Lemma aggregates_own (l : list Qso) (st : DxccData) (k : string) (d : Aggregate) :
  aggregates l st -> st !! k = Some d -> inherited k = false.
Proof.
  intros H Hk. specialize (H k). rewrite Hk in H.
  destruct H as [[_ H]%andb_true_iff _]. by apply negb_true_iff in H.
Qed.

End SameRecords.

(** ** The sum of the totals *)

Section Totals.

Variable lookupDXCC : string -> option DxccEntity.

Lemma totalQSOs_insert_fresh (st : DxccData) (k : string) (d : Aggregate) :
  st !! k = None -> totalQSOs (<[k := d]> st) = totalQSOs st + total d.
Proof.
  intros Hk. unfold totalQSOs. rewrite map_fold_insert_L; [done | | done].
  intros. lia.
Qed.

Lemma totalQSOs_insert (st : DxccData) (k : string) (d : Aggregate) :
  totalQSOs (<[k := d]> st) + default 0 (total <$> st !! k)
  = totalQSOs st + total d.
Proof.
  destruct (st !! k) as [d0 |] eqn:Hk; cbn.
  - rewrite <- (insert_delete_id st k d0 Hk) at 2.
    rewrite <- (insert_delete_eq st k d).
    rewrite !totalQSOs_insert_fresh by apply lookup_delete_eq. lia.
  - rewrite totalQSOs_insert_fresh by done. lia.
Qed.

Lemma totalQSOs_step (st st' : DxccData) (q : Qso) :
  foldQso lookupDXCC st q = Some st' ->
  totalQSOs st' = totalQSOs st + (if ownKey q then 1 else 0).
Proof.
  intros Hst. unfold ownKey. destruct (truthy (q !! "DXCC")) as [k |] eqn:E.
  - destruct (inherited k) eqn:Hk; cbn [negb].
    + rewrite (foldQso_inherited _ _ _ _ _ E Hk Hst). lia.
    + rewrite (foldQso_own _ _ _ _ E Hk) in Hst. injection Hst as <-.
      pose proof (totalQSOs_insert st k
                    (nextEntry q
                       (default (newEntry (resolveCountry lookupDXCC q k)
                                   (resolveContinent lookupDXCC q k)
                                   (resolveDeleted lookupDXCC k))
                                (st !! k)))) as H.
      destruct (nextEntry_frame q
                  (default (newEntry (resolveCountry lookupDXCC q k)
                              (resolveContinent lookupDXCC q k)
                              (resolveDeleted lookupDXCC k))
                           (st !! k))) as (_ & _ & _ & Ht).
      rewrite Ht in H.
      destruct (st !! k) as [d |]; cbn [from_option id fmap option_fmap option_map] in *;
        cbn in H; lia.
  - rewrite (foldQso_no_key _ _ _ E) in Hst. injection Hst as <-. lia.
Qed.

Lemma totalQSOs_fold (l : list Qso) (st st' : DxccData) :
  forEach (foldQso lookupDXCC) l st = Some st' ->
  totalQSOs st' = totalQSOs st + length (List.filter ownKey l).
Proof.
  revert st. induction l as [| q l IH]; intros st.
  - intros [= <-]. cbn. lia.
  - rewrite forEach_cons. destruct (foldQso lookupDXCC st q) as [st1 |] eqn:Hq; [| done].
    cbn [mbind option_bind]. intros Hst'.
    rewrite (IH _ Hst'), (totalQSOs_step _ _ _ Hq). cbn [List.filter].
    destruct (ownKey q); cbn [length]; lia.
Qed.

End Totals.

(** ** Records without a grouping key *)

Section Keyless.

Variable lookupDXCC : string -> option DxccEntity.

Lemma filterQsos_app (l1 l2 : list Qso) (mf opf : string) :
  filterQsos (l1 ++ l2) mf opf = (filterQsos l1 mf opf ++ filterQsos l2 mf opf)%list.
Proof.
  unfold filterQsos.
  destruct (String.eqb mf "all"), (negb (String.eqb opf "all"));
    by rewrite ?List.filter_app.
Qed.

(** The filters keep a record or drop it, wherever it stands. *)
Lemma filterQsos_cons_app (pre post : list Qso) (q : Qso) (mf opf : string) :
  filterQsos (pre ++ q :: post) mf opf
  = (filterQsos pre mf opf ++ filterQsos [q] mf opf ++ filterQsos post mf opf)%list.
Proof.
  change (q :: post) with ([q] ++ post)%list. by rewrite !filterQsos_app.
Qed.

Lemma filterQsos_single (q : Qso) (mf opf : string) :
  filterQsos [q] mf opf = [q] \/ filterQsos [q] mf opf = [].
Proof.
  unfold filterQsos.
  destruct (String.eqb mf "all"), (negb (String.eqb opf "all"));
    cbn [List.filter]; repeat (case_match; cbn [List.filter]); auto.
Qed.

Lemma fold_drop_keyless (l1 l2 : list Qso) (q : Qso) (mf opf : string) :
  truthy (q !! "DXCC") = None ->
  forEach (foldQso lookupDXCC) (l1 ++ filterQsos [q] mf opf ++ l2) ∅
  = forEach (foldQso lookupDXCC) (l1 ++ l2) ∅.
Proof.
  intros Hq. destruct (filterQsos_single q mf opf) as [-> | ->]; [| done].
  rewrite !forEach_app. destruct (forEach _ l1 ∅) as [st |]; [| done].
  cbn [mbind option_bind app]. by rewrite forEach_cons, (foldQso_no_key _ _ _ Hq).
Qed.

End Keyless.

(** ** The fields behind a platform *)

Section PlatformFields.

Lemma isYV_received (q : Qso) (field : string) :
  isYV (q !! field) = true <->
  exists v, q !! field = Some v /\ (v = "Y" \/ v = "y" \/ v = "V" \/ v = "v").
Proof.
  destruct (q !! field) as [v |].
  - rewrite isYV_Some. split; [intros H; by exists v | by intros (? & [= <-] & ?)].
  - split; [done | by intros (? & ? & _)].
Qed.

(** The platform test behind each of the four names, field by field. *)
Lemma platformTest_fields (platform : string) (q : Qso) :
  platformTest platform (platformsOf q) = true <->
  (platform = "lotw" /\ isYV (q !! "LOTW_QSL_RCVD") = true)
  \/ (platform = "eqsl" /\ isYV (q !! "EQSL_QSL_RCVD") = true)
  \/ (platform = "qsl" /\ isYV (q !! "QSL_RCVD") = true)
  \/ (platform = "qrz" /\
      (isYV (q !! "QRZCOM_QSL_RCVD") = true \/ isYV (q !! "QRZ_QSL_RCVD") = true
       \/ isYV (q !! "QRZCOM_QSO_DOWNLOAD_STATUS") = true)).
Proof.
  unfold platformTest.
  destruct (String.eqb_spec platform "lotw") as [-> | H1].
  { cbn [isLotw platformsOf]. split; [by left |].
    by intros [[_ H] | [[[=] _] | [[[=] _] | [[=] _]]]]. }
  destruct (String.eqb_spec platform "eqsl") as [-> | H2].
  { cbn [isEqsl platformsOf]. split; [by right; left |].
    by intros [[[=] _] | [[_ H] | [[[=] _] | [[=] _]]]]. }
  destruct (String.eqb_spec platform "qrz") as [-> | H3].
  { cbn [isQrz platformsOf existsb]. rewrite orb_false_r, !orb_true_iff. split.
    - intros H. right; right; right. split; [done | tauto].
    - intros [[[=] _] | [[[=] _] | [[[=] _] | [_ H]]]]. tauto. }
  destruct (String.eqb_spec platform "qsl") as [-> | H4].
  { cbn [isQsl platformsOf]. split; [by right; right; left |].
    by intros [[[=] _] | [[[=] _] | [[_ H] | [[=] _]]]]. }
  split; [done |]. by intros [[? _] | [[? _] | [[? _] | [? _]]]].
Qed.

Lemma flagOf_flagsOf (platform : string) (l : list Qso) (k b : string) :
  platform ∈ PLATFORMS ->
  flagOf platform (flagsOf l k b)
  = Some (existsb (fun q => onBand k b q && platformTest platform (platformsOf q)) l).
Proof.
  intros Hp. apply list_elem_of_In in Hp. cbn in Hp.
  by destruct Hp as [<- | [<- | [<- | [<- | []]]]].
Qed.

Lemma outcome_lookup_returned (st : DxccData) (k : string) :
  (Some st : option DxccData) !! k = st !! k.
Proof. reflexivity. Qed.

End PlatformFields.

(** ** The properties of the design document *)

Section Claims.

Variable lookupDXCC : string -> option DxccEntity.

(** C1. After [analyzeQSOs], for every entry and every recognized band:
    the status is ['C'] exactly when some folded contact of the entity on
    that band is confirmed; ['W'] exactly when the entity has a folded
    contact on that band and none of them is confirmed; [null] exactly when
    it has no folded contact on that band; and a status that is ['C']
    after a prefix of the folded records is ['C'] at the end. *)
Theorem band_status_tracks_contacts
    (qsos : list Qso) (modeFilter operatorFilter dxccId band : string)
    (data : Aggregate) :
  analyzeQSOs lookupDXCC qsos modeFilter operatorFilter !! dxccId = Some data ->
  band ∈ BANDS ->
  let folded := filterQsos qsos modeFilter operatorFilter in
  let contact q :=
    q !! "DXCC" = Some dxccId /\
    exists v, q !! "BAND" = Some v /\ Str.toLowerCase v = band in
  (bands data !! band = Some (Some C) <->
   exists q, q ∈ folded /\ contact q /\ isConfirmed q = true)
  /\ (bands data !! band = Some (Some W) <->
      (exists q, q ∈ folded /\ contact q) /\
      (forall q, q ∈ folded -> contact q -> isConfirmed q = false))
  /\ (bands data !! band = Some None <->
      forall q, q ∈ folded -> ~ contact q)
  /\ (forall (pre later post : list Qso) d,
        folded = (pre ++ later ++ post)%list ->
        forEach (foldQso lookupDXCC) pre ∅ !! dxccId = Some d ->
        bands d !! band = Some (Some C) ->
        exists d',
          forEach (foldQso lookupDXCC) (pre ++ later) ∅ !! dxccId = Some d' /\
          bands d' !! band = Some (Some C)).
Proof.
  intros Hdata Hband folded contact.
  apply outcome_lookup_Some in Hdata as (st & Hrun & Hdata).
  pose proof (analyzeQSOs_aggregates lookupDXCC qsos modeFilter operatorFilter st Hrun)
    as Hagg.
  pose proof (aggregates_key _ _ _ _ Hagg Hdata) as Hid.
  specialize (Hagg dxccId). rewrite Hdata in Hagg. destruct Hagg as [_ [Hb _ _ _]].
  specialize (Hb band). rewrite (proj2 (member_spec _ _) Hband) in Hb.
  fold folded in Hb.
  assert (Hcontact : forall q, onBand dxccId band q = true <-> contact q).
  { intros q. by apply onBand_true. }
  assert (Hc : existsb (fun q => onBand dxccId band q && isConfirmed q) folded = true
               <-> exists q, q ∈ folded /\ contact q /\ isConfirmed q = true).
  { rewrite existsb_exists. split.
    - intros (q & Hin & [H1 H2]%andb_true_iff). exists q.
      split; [by apply list_elem_of_In |]. split; [by apply Hcontact | done].
    - intros (q & Hin & H1 & H2). exists q.
      split; [by apply list_elem_of_In |]. apply andb_true_iff.
      split; [by apply Hcontact | done]. }
  assert (Hw : existsb (onBand dxccId band) folded = true
               <-> exists q, q ∈ folded /\ contact q).
  { rewrite existsb_exists. split.
    - intros (q & Hin & H1). exists q.
      split; [by apply list_elem_of_In | by apply Hcontact].
    - intros (q & Hin & H1). exists q.
      split; [by apply list_elem_of_In | by apply Hcontact]. }
  assert (Hmono : forall (pre later post : list Qso) d,
             folded = (pre ++ later ++ post)%list ->
             forEach (foldQso lookupDXCC) pre ∅ !! dxccId = Some d ->
             bands d !! band = Some (Some C) ->
             exists d',
               forEach (foldQso lookupDXCC) (pre ++ later) ∅ !! dxccId = Some d' /\
               bands d' !! band = Some (Some C)).
  { intros pre later post d Hfold (st1 & Hst1 & Hd)%outcome_lookup_Some HC.
    assert (Hrun' : forEach (foldQso lookupDXCC) ((pre ++ later) ++ post) ∅ = Some st).
    { rewrite <- app_assoc, <- Hfold. exact Hrun. }
    apply forEach_app_Some in Hrun' as (st2 & Hst2 & _).
    pose proof Hst2 as Hst2'.
    apply forEach_app_Some in Hst2' as (st1' & Hst1' & Hlater).
    rewrite Hst1 in Hst1'. injection Hst1' as <-.
    destruct (fold_keeps_C lookupDXCC later st1 st2 dxccId band d Hd HC Hlater)
      as (d' & Hd' & HC').
    exists d'. split; [| done]. apply outcome_lookup_Some. by exists st2. }
  refine (conj _ (conj _ (conj _ Hmono))); rewrite Hb; unfold statusOf;
    (destruct (existsb (fun q => onBand dxccId band q && isConfirmed q) folded) eqn:Ec;
     [| destruct (existsb (onBand dxccId band) folded) eqn:Ew]).
  - by split; [intros _; apply Hc |].
  - split; [discriminate |]. intros H. by apply Hc in H.
  - split; [discriminate |]. intros H. by apply Hc in H.
  - split; [discriminate |]. intros [_ Hall].
    destruct (proj1 Hc eq_refl) as (q & Hin & Hq & Hconf).
    rewrite (Hall q Hin Hq) in Hconf. discriminate.
  - split; [intros _ | done]. split; [by apply Hw |].
    intros q Hin Hq. destruct (isConfirmed q) eqn:E; [| done].
    assert (false = true) as [=]. apply Hc. eauto.
  - split; [discriminate |]. intros [H _]. by apply Hw in H.
  - split; [discriminate |]. intros Hall.
    destruct (proj1 Hc eq_refl) as (q & Hin & Hq & _). destruct (Hall q Hin Hq).
  - split; [discriminate |]. intros Hall.
    destruct (proj1 Hw eq_refl) as (q & Hin & Hq). destruct (Hall q Hin Hq).
  - split; [intros _ | done]. intros q Hin Hq.
    assert (false = true) as [=]. apply Hw. eauto.
Qed.

(** C8. Folding a permutation of the records gives every identifier the
    same entry-or-none and, where there is an entry, the same [bands]
    object: the same status on every recognized band.  The two runs return
    or raise alike. *)
Theorem band_status_order_independent
    (Q Q' : list Qso) (modeFilter operatorFilter : string) :
  Permutation Q Q' ->
  (forall dxccId,
      bands <$> (analyzeQSOs lookupDXCC Q modeFilter operatorFilter !! dxccId)
      = bands <$> (analyzeQSOs lookupDXCC Q' modeFilter operatorFilter !! dxccId))
  /\ (forall dxccId band,
        band ∈ BANDS ->
        (analyzeQSOs lookupDXCC Q modeFilter operatorFilter !! dxccId
           ≫= fun data => bands data !! band)
        = (analyzeQSOs lookupDXCC Q' modeFilter operatorFilter !! dxccId
             ≫= fun data => bands data !! band))
  /\ (is_Some (analyzeQSOs lookupDXCC Q modeFilter operatorFilter) <->
      is_Some (analyzeQSOs lookupDXCC Q' modeFilter operatorFilter)).
Proof.
  intros HP.
  assert (Hsame : forall q, In q (filterQsos Q modeFilter operatorFilter)
                            <-> In q (filterQsos Q' modeFilter operatorFilter)).
  { apply filterQsos_same. intros q. split; apply Permutation_in; [done |].
    by apply Permutation_sym. }
  assert (Hret : is_Some (analyzeQSOs lookupDXCC Q modeFilter operatorFilter) <->
                 is_Some (analyzeQSOs lookupDXCC Q' modeFilter operatorFilter)).
  { unfold analyzeQSOs. rewrite !forEach_returns, !List.forallb_forall.
    split; intros H q Hq; apply H, Hsame, Hq. }
  assert (Hmap : forall dxccId,
             bands <$> (analyzeQSOs lookupDXCC Q modeFilter operatorFilter !! dxccId)
             = bands <$> (analyzeQSOs lookupDXCC Q' modeFilter operatorFilter !! dxccId)).
  { intros k.
    destruct (analyzeQSOs lookupDXCC Q modeFilter operatorFilter) as [st |] eqn:E,
             (analyzeQSOs lookupDXCC Q' modeFilter operatorFilter) as [st' |] eqn:E'.
    - pose proof (analyzeQSOs_aggregates lookupDXCC Q modeFilter operatorFilter st E k)
        as H.
      pose proof (analyzeQSOs_aggregates lookupDXCC Q' modeFilter operatorFilter st' E' k)
        as H'.
      rewrite (existsb_same _ _ _ Hsame) in H. rewrite !outcome_lookup_returned.
      destruct (st !! k) as [d |], (st' !! k) as [d' |]; cbn.
      + f_equal. apply map_eq. intros b.
        destruct H as [_ [Hb _ _ _]], H' as [_ [Hb' _ _ _]].
        rewrite Hb, Hb'. by rewrite (statusOf_same _ _ k b Hsame).
      + destruct H as [H _]. congruence.
      + destruct H' as [H' _]. congruence.
      + done.
    - destruct (proj1 Hret) as [? [=]]. by eexists.
    - destruct (proj2 Hret) as [? [=]]. by eexists.
    - done. }
  split; [done |]. split; [| done]. intros k b _. specialize (Hmap k).
  destruct (analyzeQSOs lookupDXCC Q _ _ !! k) as [d |],
           (analyzeQSOs lookupDXCC Q' _ _ !! k) as [d' |]; cbn in *; try done.
  by injection Hmap as ->.
Qed.

(** C7. For an entry built by [analyzeQSOs], a recognized band and an
    active platform filter, [getDisplayBandStatus] is ['C'] exactly when
    some folded contact of the entity on that band carries Y or V in a
    received-status field of that platform; else ['W'] exactly when the
    entity has a folded contact on that band; else [null].  The flag it
    reads for the platform is set exactly in the first case, the contact
    count it reads is zero exactly in the last, and it is never ['W'] on a
    band whose contact count is zero. *)
Theorem display_status_under_platform_filter
    (qsos : list Qso) (modeFilter operatorFilter dxccId band platform : string)
    (data : Aggregate) :
  analyzeQSOs lookupDXCC qsos modeFilter operatorFilter !! dxccId = Some data ->
  band ∈ BANDS ->
  platform ∈ [ "lotw"; "eqsl"; "qrz"; "qsl" ] ->
  let folded := filterQsos qsos modeFilter operatorFilter in
  let contact q :=
    q !! "DXCC" = Some dxccId /\
    exists v, q !! "BAND" = Some v /\ Str.toLowerCase v = band in
  let received (field : string) (q : Qso) :=
    exists v, q !! field = Some v /\ (v = "Y" \/ v = "y" \/ v = "V" \/ v = "v") in
  let confirms q :=
    (platform = "lotw" /\ received "LOTW_QSL_RCVD" q)
    \/ (platform = "eqsl" /\ received "EQSL_QSL_RCVD" q)
    \/ (platform = "qsl" /\ received "QSL_RCVD" q)
    \/ (platform = "qrz" /\
        (received "QRZCOM_QSL_RCVD" q \/ received "QRZ_QSL_RCVD" q
         \/ received "QRZCOM_QSO_DOWNLOAD_STATUS" q)) in
  (getDisplayBandStatus platform data band = Some C <->
   exists q, q ∈ folded /\ contact q /\ confirms q)
  /\ (getDisplayBandStatus platform data band = Some W <->
      (exists q, q ∈ folded /\ contact q) /\
      (forall q, q ∈ folded -> contact q -> ~ confirms q))
  /\ (getDisplayBandStatus platform data band = None <->
      forall q, q ∈ folded -> ~ contact q)
  /\ (bandConfirmedBy data band platform = true <->
      exists q, q ∈ folded /\ contact q /\ confirms q)
  /\ exists n,
      bandQsos data !! band = Some n /\
      (n = 0 <-> forall q, q ∈ folded -> ~ contact q) /\
      getDisplayBandStatus platform data band
      = (if bandConfirmedBy data band platform then Some C
         else if (0 <? n)%nat then Some W
         else None) /\
      (n = 0 -> getDisplayBandStatus platform data band ≠ Some W).
Proof.
  intros Hdata Hband Hp folded contact received confirms.
  apply outcome_lookup_Some in Hdata as (st & Hrun & Hdata).
  pose proof (analyzeQSOs_aggregates lookupDXCC qsos modeFilter operatorFilter st Hrun)
    as Hagg.
  pose proof (aggregates_key _ _ _ _ Hagg Hdata) as Hid.
  specialize (Hagg dxccId). rewrite Hdata in Hagg. destruct Hagg as [_ [Hb Hn Hc _]].
  specialize (Hb band). specialize (Hn band). specialize (Hc band).
  rewrite (proj2 (member_spec _ _) Hband) in Hb, Hn, Hc.
  fold folded in Hb, Hn, Hc.
  set (ex := existsb (fun q => onBand dxccId band q
                               && platformTest platform (platformsOf q)) folded).
  set (ew := existsb (onBand dxccId band) folded).
  assert (Hactive : negb (String.eqb platform "all") = true).
  { pose proof Hp as Hp'. apply list_elem_of_In in Hp'. cbn in Hp'.
    destruct Hp' as [<- | [<- | [<- | [<- | []]]]]; reflexivity. }
  assert (Hflag : bandConfirmedBy data band platform = ex).
  { unfold bandConfirmedBy. rewrite Hc. by rewrite (flagOf_flagsOf platform _ _ _ Hp). }
  assert (Hcontact : forall q, onBand dxccId band q = true <-> contact q).
  { intros q. by apply onBand_true. }
  assert (Hconfirms : forall q,
             platformTest platform (platformsOf q) = true <-> confirms q).
  { intros q. rewrite platformTest_fields. unfold confirms, received.
    by rewrite <- !isYV_received. }
  assert (Hex : ex = true <-> exists q, q ∈ folded /\ contact q /\ confirms q).
  { unfold ex. rewrite existsb_exists. split.
    - intros (q & Hin & [H1 H2]%andb_true_iff). exists q.
      split; [by apply list_elem_of_In |]. split; [by apply Hcontact | by apply Hconfirms].
    - intros (q & Hin & H1 & H2). exists q.
      split; [by apply list_elem_of_In |]. apply andb_true_iff.
      split; [by apply Hcontact | by apply Hconfirms]. }
  assert (Hew : ew = true <-> exists q, q ∈ folded /\ contact q).
  { unfold ew. rewrite existsb_exists. split.
    - intros (q & Hin & H1). exists q.
      split; [by apply list_elem_of_In | by apply Hcontact].
    - intros (q & Hin & H1). exists q.
      split; [by apply list_elem_of_In | by apply Hcontact]. }
  assert (Hpos : (0 <? qsosOn folded dxccId band)%nat = ew).
  { unfold qsosOn, ew. destruct (existsb (onBand dxccId band) folded) eqn:E.
    - apply existsb_exists in E as (q & Hin & Hq).
      assert (In q (List.filter (onBand dxccId band) folded)) as Hf
          by (apply filter_In; done).
      by destruct (List.filter (onBand dxccId band) folded); [destruct Hf |].
    - by rewrite (filter_none _ _ E). }
  assert (Hsub : ex = true -> ew = true).
  { intros (q & Hin & Hq & _)%Hex. apply Hew. by exists q. }
  assert (Heq : getDisplayBandStatus platform data band
                = if ex then Some C else if ew then Some W else None).
  { unfold getDisplayBandStatus. rewrite Hb, Hn, Hactive, Hflag. unfold statusOf.
    fold ew. destruct ew eqn:Ew.
    - assert (Hm : exists m, qsosOn folded dxccId band = S m).
      { destruct (qsosOn folded dxccId band); [discriminate Hpos | by eexists]. }
      destruct Hm as (m & ->).
      by destruct (existsb (fun q => onBand dxccId band q && isConfirmed q) folded), ex.
    - assert (Hnone : forall g : Qso -> bool,
                 existsb (fun q => onBand dxccId band q && g q) folded = false).
      { intros g. apply (existsb_none (onBand dxccId band)); [| done].
        by intros q [H _]%andb_true_iff. }
      rewrite Hnone. cbn [noStatus]. by destruct ex; [specialize (Hsub eq_refl) |]. }
  assert (Hzero : qsosOn folded dxccId band = 0 <-> ew = false).
  { rewrite <- Hpos. destruct (qsosOn folded dxccId band); by split. }
  assert (Hnever : ew = false <-> forall q, q ∈ folded -> ~ contact q).
  { split.
    - intros E q Hin Hq. assert (ew = true) as E'; [| congruence].
      apply Hew. by exists q.
    - intros Hall. destruct ew eqn:E; [| done].
      destruct (proj1 Hew eq_refl) as (q & Hin & Hq). destruct (Hall q Hin Hq). }
  split; [| split; [| split; [| split]]].
  - rewrite Heq, <- Hex. destruct ex, ew; split; done.
  - rewrite Heq, <- Hew. destruct ex eqn:Eex, ew eqn:Eew.
    + split; [done |]. intros [_ Hall].
      destruct (proj1 Hex eq_refl) as (q & Hin & Hq & Hcf). destruct (Hall q Hin Hq Hcf).
    + split; [done | by intros [? _]].
    + split; [intros _ | done]. split; [done |]. intros q Hin Hq Hcf.
      assert (false = true) as [=]. apply Hex. by exists q.
    + split; [done | by intros [? _]].
  - rewrite Heq, <- Hnever. destruct ex eqn:Eex, ew eqn:Eew; split; try done.
    by specialize (Hsub eq_refl).
  - by rewrite Hflag.
  - exists (qsosOn folded dxccId band). split; [done |].
    split; [by rewrite Hzero, Hnever |].
    rewrite Hflag, Hpos. split; [done |].
    intros Hz%Hzero. rewrite Heq, Hz. by destruct ex.
Qed.

(** C9. A chunk without any tag puts no record into the output of
    [parseADIF]: the output holds exactly one record for each chunk with a
    tag, in order, and none is empty.  A record whose DXCC field is missing
    or empty leaves [dxccData] as it is, so the aggregation of a list with
    such a record is that of the list without it. *)
Theorem tagless_chunks_and_keyless_records_dropped :
  (forall record, execAll 0 record = [] -> parseRecord record = None)
  /\ (forall content,
        parseADIF content
        = (fun record => buildQso (execAll 0 record))
            <$> List.filter (fun record => negb (bool_decide (execAll 0 record = [])))
                  (splitEOR content))
  /\ (forall content qso, qso ∈ parseADIF content -> qso ≠ ∅)
  /\ (forall dxccData qso,
        qso !! "DXCC" = None \/ qso !! "DXCC" = Some "" ->
        foldQso lookupDXCC dxccData qso = Some dxccData)
  /\ (forall (pre post : list Qso) qso modeFilter operatorFilter,
        qso !! "DXCC" = None \/ qso !! "DXCC" = Some "" ->
        analyzeQSOs lookupDXCC (pre ++ qso :: post) modeFilter operatorFilter
        = analyzeQSOs lookupDXCC (pre ++ post) modeFilter operatorFilter).
Proof.
  assert (Hdrop : forall dxccData qso,
             qso !! "DXCC" = None \/ qso !! "DXCC" = Some "" ->
             foldQso lookupDXCC dxccData qso = Some dxccData).
  { intros st q Hq. apply foldQso_no_key. by destruct Hq as [-> | ->]. }
  split; [| split; [| split; [| split]]]; [| | | exact Hdrop |].
  - intros record H. by rewrite parseRecord_spec, H.
  - intros content. unfold parseADIF.
    induction (splitEOR content) as [| record l IH]; [done |].
    cbn [omap list_omap List.filter]. rewrite parseRecord_spec.
    case_bool_decide; cbn; by rewrite IH.
  - intros content qso (record & _ & Hne & ->)%parseADIF_elem.
    destruct (execAll 0 record) as [| t ts]; [done |].
    unfold buildQso. cbn [fold_left]. apply storeTags_non_empty, insert_non_empty.
  - intros pre post q mf opf Hq. unfold analyzeQSOs.
    rewrite filterQsos_cons_app, filterQsos_app. apply fold_drop_keyless.
    by destruct Hq as [-> | ->].
Qed.

(** C10. The [country], [cont] and [deleted] fields of an entry are the
    values resolved from the first folded record that bears its
    identifier: a run that returns has such an entry for every identifier
    that is not the name of an inherited member.  Folding one more record
    changes them in no entry, whatever COUNTRY and CONT the record carries,
    and leaves the entries of all other identifiers as they are. *)
Theorem identity_fields_from_first_record
    (qsos pre post : list Qso) (q : Qso) (modeFilter operatorFilter dxccId : string)
    (dxccData : DxccData) :
  filterQsos qsos modeFilter operatorFilter = (pre ++ q :: post)%list ->
  (forall q', q' ∈ pre -> q' !! "DXCC" ≠ Some dxccId) ->
  q !! "DXCC" = Some dxccId ->
  dxccId ≠ "" ->
  inherited dxccId = false ->
  analyzeQSOs lookupDXCC qsos modeFilter operatorFilter = Some dxccData ->
  (exists data,
      dxccData !! dxccId = Some data /\
      country data = resolveCountry lookupDXCC q dxccId /\
      cont data = resolveContinent lookupDXCC q dxccId /\
      deleted data = resolveDeleted lookupDXCC dxccId)
  /\ (forall (before after : DxccData) (later : Qso) id d,
        before !! id = Some d ->
        foldQso lookupDXCC before later = Some after ->
        exists d',
          after !! id = Some d' /\
          country d' = country d /\ cont d' = cont d /\ deleted d' = deleted d)
  /\ (forall (before after : DxccData) (later : Qso) id,
        later !! "DXCC" ≠ Some id ->
        foldQso lookupDXCC before later = Some after ->
        after !! id = before !! id).
Proof.
  intros Hfolded Hpre Hq Hid Hown Hrun. split; [| split].
  - unfold analyzeQSOs in Hrun. rewrite Hfolded in Hrun.
    by apply (fold_first_record lookupDXCC pre post q dxccId).
  - intros st st' later id d. apply foldQso_identity.
  - intros st st' later id Hne Hst. apply (foldQso_other lookupDXCC _ _ _ _ Hst).
    intros [H _]%truthy_Some. done.
Qed.

(** C2, as amended.  The continent of an entry comes from the first folded
    record that bears its identifier, and the record's own CONT field goes
    first: when that field is present and not empty the continent is its
    value, also when the lookup table has an entry for the identifier;
    the lookup table's continent is used when the record has no CONT or an
    empty one. *)
Theorem continent_record_field_first
    (qsos pre post : list Qso) (q : Qso) (modeFilter operatorFilter dxccId : string)
    (entity : DxccEntity) (dxccData : DxccData) :
  filterQsos qsos modeFilter operatorFilter = (pre ++ q :: post)%list ->
  (forall q', q' ∈ pre -> q' !! "DXCC" ≠ Some dxccId) ->
  q !! "DXCC" = Some dxccId ->
  dxccId ≠ "" ->
  lookupDXCC dxccId = Some entity ->
  inherited dxccId = false ->
  analyzeQSOs lookupDXCC qsos modeFilter operatorFilter = Some dxccData ->
  exists data,
    dxccData !! dxccId = Some data /\
    (forall c, q !! "CONT" = Some c -> c ≠ "" -> cont data = c) /\
    (q !! "CONT" = None \/ q !! "CONT" = Some "" -> cont data = entCont entity).
Proof.
  intros Hfolded Hpre Hq Hid Hent Hown Hrun.
  unfold analyzeQSOs in Hrun. rewrite Hfolded in Hrun.
  destruct (fold_first_record lookupDXCC pre post q dxccId dxccData Hpre Hq Hid Hown Hrun)
    as (data & Hdata & _ & Hcont & _).
  exists data. split; [done |].
  rewrite Hcont. unfold resolveContinent, orElse. rewrite Hent. cbn [fmap option_fmap option_map].
  split.
  - intros c -> Hc. by destruct c.
  - intros [-> | ->]; cbn; by destruct (entCont entity).
Qed.

(** When a run returns: exactly when the callback raises on none of the
    folded records, in particular when no folded record bears the name of
    an inherited member. *)
Lemma analyzeQSOs_returns (qsos : list Qso) (mf opf : string) :
  (is_Some (analyzeQSOs lookupDXCC qsos mf opf) <->
   forall q, q ∈ filterQsos qsos mf opf -> raises q = false)
  /\ ((forall q, q ∈ filterQsos qsos mf opf -> hasKey q = true -> ownKey q = true) ->
      is_Some (analyzeQSOs lookupDXCC qsos mf opf)).
Proof.
  assert (H : is_Some (analyzeQSOs lookupDXCC qsos mf opf) <->
              forall q, q ∈ filterQsos qsos mf opf -> raises q = false).
  { unfold analyzeQSOs. rewrite forEach_returns, List.forallb_forall.
    split; intros H q Hq.
    - apply negb_true_iff, H. by apply list_elem_of_In.
    - apply negb_true_iff, H. by apply list_elem_of_In. }
  split; [done |]. intros Hown. apply H. intros q Hq. unfold raises.
  destruct (hasKey q) eqn:E; [| done]. by rewrite (Hown q Hq E).
Qed.

End Claims.

(** The reading of C2 that gives the lookup table priority fails: a record
    of entity 291 with CONT = EU yields the continent EU, while the table
    says NA. *)
Lemma lookup_continent_not_preferred :
  ~ (forall (lookupDXCC : string -> option DxccEntity) (qsos : list Qso) (q : Qso)
            (dxccId c : string) (entity : DxccEntity),
        q ∈ filterQsos qsos "all" "all" ->
        q !! "DXCC" = Some dxccId ->
        lookupDXCC dxccId = Some entity ->
        q !! "CONT" = Some c ->
        cont <$> (analyzeQSOs lookupDXCC qsos "all" "all" !! dxccId)
        = Some (entCont entity)).
Proof.
  intros H.
  specialize (H sampleLookup [qsoEU] qsoEU "291" "EU"
                (mkEntity "United States" "NA" false)).
  assert (He : Some "EU" = Some "NA"); [| discriminate He].
  apply H; vm_compute; try reflexivity. left.
Qed.

(** ** The sum of the totals *)

(** C4 fails on the code.  A record whose DXCC value names a member every
    object inherits, such as toString, gets no entry and is counted in no
    total: two records with a grouping key give totals that sum to one.
    When such a record also has a recognized band, the run raises. *)
Theorem totals_miss_inherited_identifier :
  (exists dxccData,
      analyzeQSOs sampleLookup [ qsoA; qsoToString ] "all" "all" = Some dxccData /\
      dxccData !! "toString" = None /\
      size dxccData = 1 /\
      totalQSOs dxccData = 1 /\
      length (List.filter
                (fun qso => match qso !! "DXCC" with
                            | Some (String _ _) => true
                            | _ => false
                            end) [ qsoA; qsoToString ]) = 2)
  /\ analyzeQSOs sampleLookup [ qsoA; qsoConstructor ] "all" "all" = None.
Proof.
  split; [| vm_compute; reflexivity].
  eexists. split; [vm_compute; reflexivity |]. vm_compute. repeat split; reflexivity.
Qed.

(** ** The worked example of the design document *)

(** Entity 291: 20m Confirmed, two contacts, LOTW; entity 5: 40m Worked, one
    contact; three contacts in all. *)
Example sample_log_aggregates :
  exists dxccData,
    analyzeQSOs sampleLookup sampleLog "all" "all" = Some dxccData
    /\ (fun d => (bands d !! "20m", bands d !! "40m", total d, lotw d, country d, cont d))
         <$> dxccData !! "291"
       = Some (Some (Some C), Some None, 2, true, "United States", "NA")
    /\ (fun d => (bands d !! "20m", bands d !! "40m", total d, lotw d, country d, cont d))
         <$> dxccData !! "5"
       = Some (Some None, Some (Some W), 1, false, "Aland Islands", "EU")
    /\ size dxccData = 2
    /\ totalQSOs dxccData = 3.
Proof. eexists. split; [vm_compute; reflexivity |]. vm_compute. repeat split; reflexivity. Qed.

(** ** The theorems at the sample log *)

Lemma band_status_tracks_contacts_witness :
  analyzeQSOs sampleLookup sampleLog "all" "all" !! "291" = Some entry291 /\
  "20m" ∈ BANDS /\
  (bands entry291 !! "20m" = Some (Some C) <->
   exists q, q ∈ filterQsos sampleLog "all" "all" /\
             (q !! "DXCC" = Some "291" /\
              exists v, q !! "BAND" = Some v /\ Str.toLowerCase v = "20m") /\
             isConfirmed q = true).
Proof.
  assert (H1 : analyzeQSOs sampleLookup sampleLog "all" "all" !! "291" = Some entry291)
    by (vm_compute; reflexivity).
  assert (H2 : "20m" ∈ BANDS) by (apply member_spec; vm_compute; reflexivity).
  split; [exact H1 |]. split; [exact H2 |].
  exact (proj1 (band_status_tracks_contacts sampleLookup sampleLog "all" "all"
                  "291" "20m" entry291 H1 H2)).
Defined.

Lemma band_status_order_independent_witness :
  Permutation sampleLog [ qsoB; qsoA; qsoC ] /\
  forall dxccId,
    bands <$> (analyzeQSOs sampleLookup sampleLog "all" "all" !! dxccId)
    = bands <$> (analyzeQSOs sampleLookup [ qsoB; qsoA; qsoC ] "all" "all" !! dxccId).
Proof.
  assert (HP : Permutation sampleLog [ qsoB; qsoA; qsoC ]) by apply perm_swap.
  split; [exact HP |].
  exact (proj1 (band_status_order_independent sampleLookup sampleLog
                  [ qsoB; qsoA; qsoC ] "all" "all" HP)).
Defined.

Lemma display_status_under_platform_filter_witness :
  analyzeQSOs sampleLookup sampleLog "all" "all" !! "291" = Some entry291 /\
  "20m" ∈ BANDS /\
  "lotw" ∈ [ "lotw"; "eqsl"; "qrz"; "qsl" ] /\
  (bandConfirmedBy entry291 "20m" "lotw" = true <->
   exists q,
     q ∈ filterQsos sampleLog "all" "all" /\
     (q !! "DXCC" = Some "291" /\
      exists v, q !! "BAND" = Some v /\ Str.toLowerCase v = "20m") /\
     (("lotw" = "lotw" /\
       exists v, q !! "LOTW_QSL_RCVD" = Some v /\
                 (v = "Y" \/ v = "y" \/ v = "V" \/ v = "v"))
      \/ ("lotw" = "eqsl" /\
          exists v, q !! "EQSL_QSL_RCVD" = Some v /\
                    (v = "Y" \/ v = "y" \/ v = "V" \/ v = "v"))
      \/ ("lotw" = "qsl" /\
          exists v, q !! "QSL_RCVD" = Some v /\
                    (v = "Y" \/ v = "y" \/ v = "V" \/ v = "v"))
      \/ ("lotw" = "qrz" /\
          ((exists v, q !! "QRZCOM_QSL_RCVD" = Some v /\
                      (v = "Y" \/ v = "y" \/ v = "V" \/ v = "v"))
           \/ (exists v, q !! "QRZ_QSL_RCVD" = Some v /\
                         (v = "Y" \/ v = "y" \/ v = "V" \/ v = "v"))
           \/ (exists v, q !! "QRZCOM_QSO_DOWNLOAD_STATUS" = Some v /\
                         (v = "Y" \/ v = "y" \/ v = "V" \/ v = "v")))))).
Proof.
  assert (H1 : analyzeQSOs sampleLookup sampleLog "all" "all" !! "291" = Some entry291)
    by (vm_compute; reflexivity).
  assert (H2 : "20m" ∈ BANDS) by (apply member_spec; vm_compute; reflexivity).
  assert (H3 : "lotw" ∈ [ "lotw"; "eqsl"; "qrz"; "qsl" ])
    by (apply member_spec; vm_compute; reflexivity).
  split; [exact H1 |]. split; [exact H2 |]. split; [exact H3 |].
  exact (proj1 (proj2 (proj2 (proj2
           (display_status_under_platform_filter sampleLookup sampleLog "all" "all"
              "291" "20m" "lotw" entry291 H1 H2 H3))))).
Defined.

Lemma tagless_chunks_and_keyless_records_dropped_witness :
  execAll 0 "header <EOH>" = [] /\
  parseRecord "header <EOH>" = None /\
  ({[ "BAND" := "20m" ]} : Qso) !! "DXCC" = None /\
  foldQso sampleLookup {[ "291" := entry291 ]} {[ "BAND" := "20m" ]}
  = Some {[ "291" := entry291 ]}.
Proof.
  assert (H1 : execAll 0 "header <EOH>" = []) by (vm_compute; reflexivity).
  assert (H2 : ({[ "BAND" := "20m" ]} : Qso) !! "DXCC" = None)
    by (vm_compute; reflexivity).
  split; [exact H1 |].
  split; [exact (proj1 (tagless_chunks_and_keyless_records_dropped sampleLookup) _ H1) |].
  split; [exact H2 |].
  exact (proj1 (proj2 (proj2 (proj2 (tagless_chunks_and_keyless_records_dropped
                                       sampleLookup))))
           _ _ (or_introl H2)).
Defined.

Lemma identity_fields_from_first_record_witness :
  exists data,
    default ∅ (analyzeQSOs sampleLookup [ qsoA; qsoEU ] "all" "all") !! "291"
    = Some data /\
    country data = "United States" /\ cont data = "NA" /\ deleted data = false.
Proof.
  refine (proj1 (identity_fields_from_first_record sampleLookup [ qsoA; qsoEU ]
                   [] [ qsoEU ] qsoA "all" "all" "291" _ _ _ _ _ _ _)).
  - vm_compute. reflexivity.
  - intros q' Hin. apply list_elem_of_In in Hin. destruct Hin.
  - vm_compute. reflexivity.
  - discriminate.
  - vm_compute. reflexivity.
  - vm_compute. reflexivity.
Defined.

Lemma continent_record_field_first_witness :
  exists data,
    default ∅ (analyzeQSOs sampleLookup [ qsoEU; qsoA ] "all" "all") !! "291"
    = Some data /\
    (forall c, qsoEU !! "CONT" = Some c -> c ≠ "" -> cont data = c) /\
    (qsoEU !! "CONT" = None \/ qsoEU !! "CONT" = Some "" ->
     cont data = entCont (mkEntity "United States" "NA" false)).
Proof.
  refine (continent_record_field_first sampleLookup [ qsoEU; qsoA ]
            [] [ qsoA ] qsoEU "all" "all" "291"
            (mkEntity "United States" "NA" false) _ _ _ _ _ _ _ _).
  - vm_compute. reflexivity.
  - intros q' Hin. apply list_elem_of_In in Hin. destruct Hin.
  - vm_compute. reflexivity.
  - discriminate.
  - vm_compute. reflexivity.
  - vm_compute. reflexivity.
  - vm_compute. reflexivity.
Defined.

(** * Further properties of the engine *)

(** ** The platform fields of the fold *)

Section PlatformFacts.

Lemma isConfirmed_platforms (q : Qso) :
  isConfirmed q
  = isLotw (platformsOf q) || isEqsl (platformsOf q) || isQsl (platformsOf q)
    || isQrz (platformsOf q).
Proof.
  unfold isConfirmed, confirmFields, platformsOf. cbn [existsb isLotw isEqsl isQsl isQrz].
  by rewrite !orb_assoc.
Qed.

Lemma updateBand_bandPlatformQsos (q : Qso) (conf : bool) (p : Platforms)
    (d : Aggregate) (b : string) :
  bandPlatformQsos (updateBand (q !! "BAND") conf p d) !! b
  = if hitsBand b q then markCounts p <$> bandPlatformQsos d !! b
    else bandPlatformQsos d !! b.
Proof.
  unfold updateBand, hitsBand.
  destruct (truthy (q !! "BAND")) as [v |]; [| done].
  destruct (Str.member (Str.toLowerCase v) BANDS); [| done]. cbn.
  destruct (String.eqb_spec (Str.toLowerCase v) b) as [-> | Hne].
  - by rewrite lookup_alter_eq.
  - by rewrite lookup_alter_ne.
Qed.

Lemma updateBand_platform_frame (band : option string) (conf : bool) (p : Platforms)
    (d : Aggregate) :
  let d' := updateBand band conf p d in
  lotw d' = lotw d /\ eqsl d' = eqsl d /\ qrz d' = qrz d /\ qsl d' = qsl d /\
  platformQsos d' = platformQsos d.
Proof.
  unfold updateBand. destruct (truthy band) as [v |]; [| done].
  by destruct (Str.member (Str.toLowerCase v) BANDS).
Qed.

Lemma newEntry_platforms (l : list Qso) (k : string) (c ct : string) (dl : bool) :
  existsb (forEntity k) l = false -> platformsFor l k (newEntry c ct dl).
Proof.
  intros Hl.
  assert (Hk : forall g : Qso -> bool,
             existsb (fun q => forEntity k q && g q) l = false).
  { intros g. apply (existsb_none (forEntity k)); [| done].
    by intros q [H _]%andb_true_iff. }
  assert (Hkf : forall g : Qso -> bool,
             List.filter (fun q => forEntity k q && g q) l = []).
  { intros g. apply filter_none, Hk. }
  assert (Hbf : forall b (g : Qso -> bool),
             List.filter (fun q => onBand k b q && g q) l = []).
  { intros b g. apply filter_none, (existsb_none (forEntity k)); [| done].
    intros q [H _]%andb_true_iff. by apply onBand_forEntity in H. }
  split; cbn [lotw eqsl qrz qsl platformQsos bandPlatformQsos newEntry];
    rewrite ?Hk; try done.
  - unfold countsOf, platformQsosOf. by rewrite !Hkf.
  - intros b. rewrite init_lookup, lookup_empty.
    unfold bandCountsOf, bandPlatformQsosOf. by rewrite !Hbf.
Qed.

Lemma platformsFor_skip (l : list Qso) (k : string) (d : Aggregate) (q : Qso) :
  forEntity k q = false -> platformsFor l k d -> platformsFor (l ++ [q]) k d.
Proof.
  intros Hq [H1 H2 H3 H4 Hc Hb].
  assert (Hon : forall b, onBand k b q = false).
  { intros b. unfold onBand. by rewrite Hq. }
  split; rewrite ?existsb_snoc, ?Hq, ?orb_false_r; try done.
  - rewrite Hc. unfold countsOf, platformQsosOf.
    by rewrite !filter_snoc_length, Hq, !Nat.add_0_r.
  - intros b. rewrite Hb. unfold bandCountsOf, bandPlatformQsosOf.
    by rewrite !filter_snoc_length, Hon, !Nat.add_0_r.
Qed.

Lemma bump_add (b : bool) (n : nat) : bump b n = n + (if b then 1 else 0).
Proof. destruct b; cbn; lia. Qed.

Lemma platformsFor_step (l : list Qso) (k : string) (d : Aggregate) (q : Qso) :
  forEntity k q = true -> platformsFor l k d -> platformsFor (l ++ [q]) k (nextEntry q d).
Proof.
  intros Hq [H1 H2 H3 H4 Hc Hb]. unfold nextEntry.
  assert (Hon : forall b, onBand k b q = hitsBand b q).
  { intros b. unfold onBand. by rewrite Hq. }
  destruct (updateBand_platform_frame (q !! "BAND") (isConfirmed q) (platformsOf q)
              (markPlatforms (platformsOf q) (countQso d)))
    as (E1 & E2 & E3 & E4 & E5).
  split; rewrite ?E1, ?E2, ?E3, ?E4, ?E5, ?existsb_snoc, ?Hq;
    cbn [lotw eqsl qrz qsl platformQsos markPlatforms countQso andb];
    rewrite ?H1, ?H2, ?H3, ?H4; try apply orb_comm.
  - rewrite Hc. unfold countsOf, platformQsosOf, markCounts. cbn.
    by rewrite !filter_snoc_length, Hq, !bump_add.
  - intros b. rewrite updateBand_bandPlatformQsos.
    cbn [bandPlatformQsos markPlatforms countQso]. rewrite Hb.
    unfold bandCountsOf, bandPlatformQsosOf.
    rewrite !filter_snoc_length, Hon.
    destruct (hitsBand b q) eqn:Hh.
    + rewrite (hitsBand_member _ _ Hh). cbn. unfold markCounts. cbn.
      by rewrite !bump_add.
    + cbn. by rewrite !Nat.add_0_r.
Qed.

End PlatformFacts.

Section PlatformFold.

Variable lookupDXCC : string -> option DxccEntity.

Lemma platforms_fold (l : list Qso) (k : string) (d : Aggregate) (st : DxccData) :
  forEach (foldQso lookupDXCC) l ∅ = Some st ->
  st !! k = Some d -> platformsFor l k d.
Proof.
  revert d st. induction l as [| q l IH] using rev_ind; intros d st.
  - intros [= <-]. by rewrite lookup_empty.
  - intros (st1 & H1 & H2)%forEach_snoc_Some Hd.
    pose proof (aggregates_fold lookupDXCC l st1 H1) as Hagg1.
    pose proof (aggregates_own _ _ _ _ (aggregates_step lookupDXCC _ _ _ _ H2 Hagg1) Hd)
      as Hown.
    specialize (Hagg1 k). rewrite Hown in Hagg1. cbn [negb] in Hagg1.
    rewrite andb_true_r in Hagg1.
    destruct (forEntity k q) eqn:Hq.
    + rewrite (foldQso_same _ _ _ _ _ H2 (proj1 (forEntity_true _ _) Hq) Hown) in Hd.
      injection Hd as <-. apply platformsFor_step; [done |].
      destruct (st1 !! k) as [d0 |] eqn:E; cbn [from_option id].
      * by apply (IH d0 st1).
      * by apply newEntry_platforms.
    + rewrite (foldQso_other _ _ _ _ _ H2 (proj1 (forEntity_false _ _) Hq)) in Hd.
      apply platformsFor_skip; [done |]. by apply (IH d st1).
Qed.

Lemma analyzeQSOs_platforms (qsos : list Qso) (mf opf k : string) (d : Aggregate) :
  analyzeQSOs lookupDXCC qsos mf opf !! k = Some d ->
  platformsFor (filterQsos qsos mf opf) k d.
Proof.
  intros (st & Hrun & Hd)%outcome_lookup_Some. by apply (platforms_fold _ _ _ st).
Qed.

Lemma analyzeQSOs_entry (qsos : list Qso) (mf opf k : string) (d : Aggregate) :
  analyzeQSOs lookupDXCC qsos mf opf !! k = Some d ->
  entryFor (filterQsos qsos mf opf) k d.
Proof.
  intros (st & Hrun & Hd)%outcome_lookup_Some.
  pose proof (analyzeQSOs_aggregates lookupDXCC qsos mf opf st Hrun k) as H.
  rewrite Hd in H. by destruct H.
Qed.

End PlatformFold.

(** ** Platform names *)

Section PlatformNames.

(** The platform test behind a platform name. *)
Lemma platform_cases (platform : string) :
  platform ∈ PLATFORMS ->
  let sel := platformTest platform in
  (forall l k b,
      flagOf platform (flagsOf l k b)
      = Some (existsb (fun q => onBand k b q && sel (platformsOf q)) l)) /\
  (forall l k b,
      countOf platform (bandCountsOf l k b) = Some (bandPlatformQsosOf l k b sel)) /\
  (forall l k, countOf platform (countsOf l k) = Some (platformQsosOf l k sel)) /\
  (forall l k d,
      platformsFor l k d ->
      entityFlag platform d
      = existsb (fun q => forEntity k q && sel (platformsOf q)) l) /\
  (forall q, sel (platformsOf q) = true -> isConfirmed q = true).
Proof.
  intros Hp. apply list_elem_of_In in Hp. cbn in Hp.
  destruct Hp as [<- | [<- | [<- | [<- | []]]]];
    (repeat split; try done;
     [ by intros l k d []
     | intros q Hq; rewrite isConfirmed_platforms;
       first [ change (isLotw (platformsOf q) = true) in Hq
             | change (isEqsl (platformsOf q) = true) in Hq
             | change (isQrz (platformsOf q) = true) in Hq
             | change (isQsl (platformsOf q) = true) in Hq ];
       rewrite Hq; by rewrite ?orb_true_r ]).
Qed.

Lemma filter_length_le {A} (f g : A -> bool) (l : list A) :
  (forall x, f x = true -> g x = true) ->
  length (List.filter f l) <= length (List.filter g l).
Proof.
  intros Hfg. induction l as [| x l IH]; cbn [List.filter]; [done |].
  destruct (f x) eqn:Ef.
  - rewrite (Hfg x Ef). cbn. lia.
  - destruct (g x); cbn; lia.
Qed.

Lemma filter_length_pos {A} (f : A -> bool) (l : list A) :
  0 < length (List.filter f l) <-> existsb f l = true.
Proof.
  induction l as [| x l IH]; cbn [List.filter existsb].
  - cbn. split; [lia | discriminate].
  - destruct (f x); cbn; [split; [done | lia] | done].
Qed.

End PlatformNames.

(** ** Sums over the bands *)

Section BandSums.

Lemma hitsBand_unique (q : Qso) (l : list string) :
  NoDup l ->
  sum_list ((fun b => if hitsBand b q then 1 else 0) <$> l)
  = if existsb (fun b => hitsBand b q) l then 1 else 0.
Proof.
  induction 1 as [| b l Hb _ IH]; [done |].
  cbn [fmap list_fmap sum_list existsb]. rewrite IH.
  destruct (hitsBand b q) eqn:Hh; [| done]. cbn.
  assert (Hl : existsb (fun b' => hitsBand b' q) l = false); [| by rewrite Hl].
  apply not_true_is_false. intros (b' & Hin & Hb')%existsb_exists.
  assert (b' = b); [| subst b'; by apply Hb, list_elem_of_In].
  unfold hitsBand in Hh, Hb'. destruct (truthy (q !! "BAND")) as [v |]; [| done].
  apply andb_true_iff in Hh as [_ Hh%String.eqb_eq].
  apply andb_true_iff in Hb' as [_ Hb'%String.eqb_eq]. congruence.
Qed.

Lemma BANDS_NoDup : NoDup BANDS.
Proof. apply (bool_decide_unpack (NoDup BANDS)). by vm_compute. Qed.

(** Every record of the entity is on exactly one recognized band or on none. *)
Lemma record_band_split (k : string) (q : Qso) :
  sum_list ((fun b => if onBand k b q then 1 else 0) <$> BANDS)
  + (if offBand k q then 1 else 0)
  = if forEntity k q then 1 else 0.
Proof.
  unfold onBand, offBand. destruct (forEntity k q); cbn [andb].
  - rewrite (hitsBand_unique q BANDS BANDS_NoDup).
    by destruct (existsb (fun b => hitsBand b q) BANDS).
  - clear. induction BANDS; [done | done].
Qed.

Lemma sum_list_fmap_add {A} (f g : A -> nat) (l : list A) :
  sum_list ((fun x => f x + g x) <$> l) = sum_list (f <$> l) + sum_list (g <$> l).
Proof. induction l as [| x l IH]; cbn; [done | rewrite IH; lia]. Qed.

Lemma band_counts_sum (k : string) (l : list Qso) :
  sum_list ((fun b => length (List.filter (onBand k b) l)) <$> BANDS)
  + length (List.filter (offBand k) l)
  = length (List.filter (forEntity k) l).
Proof.
  induction l as [| q l IH].
  - cbn [List.filter length]. clear. induction BANDS; [done | done].
  - pose proof (record_band_split k q) as Hq.
    assert (Hs : sum_list ((fun b => length (List.filter (onBand k b) (q :: l))) <$> BANDS)
                 = sum_list ((fun b => if onBand k b q then 1 else 0) <$> BANDS)
                   + sum_list ((fun b => length (List.filter (onBand k b) l)) <$> BANDS)).
    { rewrite <- sum_list_fmap_add. f_equal. apply list_fmap_ext. intros _ b _.
      cbn [List.filter]. by destruct (onBand k b q). }
    rewrite Hs. cbn [List.filter].
    destruct (offBand k q), (forEntity k q); cbn [length]; lia.
Qed.

End BandSums.

(** ** Properties of the aggregates *)

Section AggregateProperties.

Variable lookupDXCC : string -> option DxccEntity.

(** X1. Every platform flag of an entry is the OR, and every platform count
    the number, of the folded records of the entity that pass that
    platform's test: the flag is set exactly when such a record exists, which
    is exactly when the count is positive, and the count never exceeds the
    entry's total. *)
Theorem platform_flags_accumulate
    (qsos : list Qso) (modeFilter operatorFilter dxccId platform : string)
    (data : Aggregate) :
  analyzeQSOs lookupDXCC qsos modeFilter operatorFilter !! dxccId = Some data ->
  platform ∈ PLATFORMS ->
  let folded := filterQsos qsos modeFilter operatorFilter in
  let passes q := forEntity dxccId q && platformTest platform (platformsOf q) in
  (entityFlag platform data = true <-> exists q, q ∈ folded /\ passes q = true)
  /\ countOf platform (platformQsos data) = Some (length (List.filter passes folded))
  /\ (entityFlag platform data = true <-> 0 < length (List.filter passes folded))
  /\ length (List.filter passes folded) <= total data.
Proof.
  intros Hdata Hp folded passes.
  pose proof (analyzeQSOs_platforms lookupDXCC _ _ _ _ _ Hdata) as Hpf.
  pose proof (analyzeQSOs_entry lookupDXCC _ _ _ _ _ Hdata) as [_ _ _ Ht].
  destruct (platform_cases platform Hp) as (_ & _ & Hc & Hf & _).
  rewrite (Hf _ _ _ Hpf). fold folded. fold passes.
  destruct Hpf as [_ _ _ _ Hcnt _]. rewrite Hcnt, Hc.
  repeat split.
  - intros (q & Hin & Hq)%existsb_exists. exists q. by rewrite list_elem_of_In.
  - intros (q & Hin & Hq). apply existsb_exists. exists q. by rewrite <- list_elem_of_In.
  - by apply filter_length_pos.
  - by apply filter_length_pos.
  - rewrite Ht. apply filter_length_le. by intros q [H _]%andb_true_iff.
Qed.

(** X2. The total of an entry is the sum of its per-band contact counts
    plus the number of its folded records whose band is missing or not
    recognized; so the band counts never add up to more than the total. *)
Theorem total_splits_over_bands
    (qsos : list Qso) (modeFilter operatorFilter dxccId : string) (data : Aggregate) :
  analyzeQSOs lookupDXCC qsos modeFilter operatorFilter !! dxccId = Some data ->
  total data
  = sum_list ((fun band => default 0 (bandQsos data !! band)) <$> BANDS)
    + length (List.filter (offBand dxccId) (filterQsos qsos modeFilter operatorFilter))
  /\ sum_list ((fun band => default 0 (bandQsos data !! band)) <$> BANDS) <= total data.
Proof.
  intros Hdata.
  pose proof (analyzeQSOs_entry lookupDXCC _ _ _ _ _ Hdata) as [_ Hn _ Ht].
  assert (Hsum : sum_list ((fun band => default 0 (bandQsos data !! band)) <$> BANDS)
                 = sum_list ((fun b => length (List.filter (onBand dxccId b)
                                                 (filterQsos qsos modeFilter operatorFilter)))
                               <$> BANDS)).
  { f_equal. apply list_fmap_ext. intros _ b Hb%list_elem_of_lookup_2.
    rewrite Hn, (proj2 (member_spec _ _) Hb). done. }
  rewrite Hsum, Ht, <- band_counts_sum. lia.
Qed.

(** X4. A band of an entry is Confirmed exactly when one of the four
    platforms has its per-band confirmation flag set on that band. *)
Theorem confirmed_band_names_a_platform
    (qsos : list Qso) (modeFilter operatorFilter dxccId band : string)
    (data : Aggregate) :
  analyzeQSOs lookupDXCC qsos modeFilter operatorFilter !! dxccId = Some data ->
  band ∈ BANDS ->
  bands data !! band = Some (Some C) <->
  exists platform, platform ∈ PLATFORMS /\ bandConfirmedBy data band platform = true.
Proof.
  intros Hdata Hband.
  pose proof (analyzeQSOs_entry lookupDXCC _ _ _ _ _ Hdata) as [Hb _ Hc _].
  specialize (Hb band). specialize (Hc band).
  rewrite (proj2 (member_spec _ _) Hband) in Hb, Hc.
  set (l := filterQsos qsos modeFilter operatorFilter) in *.
  unfold bandConfirmedBy. rewrite Hb, Hc. unfold statusOf. split.
  - destruct (existsb (fun q => onBand dxccId band q && isConfirmed q) l) eqn:E;
      [intros _ | by destruct (existsb (onBand dxccId band) l)].
    apply existsb_exists in E as (q & Hin & [Hq Hconf]%andb_true_iff).
    rewrite isConfirmed_platforms in Hconf.
    assert (Hsome : forall sel : Platforms -> bool,
               sel (platformsOf q) = true ->
               existsb (fun q0 => onBand dxccId band q0 && sel (platformsOf q0)) l = true).
    { intros sel Hsel. apply existsb_exists. exists q. by rewrite Hq, Hsel. }
    apply orb_true_iff in Hconf as [Hconf | Hconf];
      [apply orb_true_iff in Hconf as [Hconf | Hconf];
       [apply orb_true_iff in Hconf as [Hconf | Hconf] |] |];
      [exists "lotw" | exists "eqsl" | exists "qsl" | exists "qrz"];
      (split; [apply member_spec; reflexivity |]);
      match goal with
      | |- context [flagOf ?p _] =>
          rewrite (proj1 (platform_cases p ltac:(apply member_spec; reflexivity)))
      end;
      apply Hsome; exact Hconf.
  - intros (platform & Hp & Hflag).
    destruct (platform_cases platform Hp) as (Hf & _ & _ & _ & Hconf).
    rewrite Hf in Hflag. apply existsb_exists in Hflag as (q & Hin & [Hq Hsel]%andb_true_iff).
    assert (E : existsb (fun q => onBand dxccId band q && isConfirmed q) l = true);
      [| by rewrite E].
    apply existsb_exists. exists q. by rewrite Hq, (Hconf q Hsel).
Qed.

(** X6. The entry of an identifier depends on the records of that
    identifier alone: when a run returns, the run on only the records
    grouped under the identifier returns too and gives the identifier the
    same entry, or none alike. *)
Theorem entry_depends_on_own_records
    (qsos : list Qso) (modeFilter operatorFilter dxccId : string) (dxccData : DxccData) :
  analyzeQSOs lookupDXCC qsos modeFilter operatorFilter = Some dxccData ->
  exists own,
    analyzeQSOs lookupDXCC (List.filter (forEntity dxccId) qsos) modeFilter operatorFilter
    = Some own
    /\ own !! dxccId = dxccData !! dxccId.
Proof.
  unfold analyzeQSOs.
  assert (Hcomm : filterQsos (List.filter (forEntity dxccId) qsos) modeFilter operatorFilter
                  = List.filter (forEntity dxccId)
                      (filterQsos qsos modeFilter operatorFilter)).
  { unfold filterQsos.
    destruct (String.eqb modeFilter "all"), (negb (String.eqb operatorFilter "all"));
      try done; clear; induction qsos as [| q l IH]; cbn [List.filter]; try done;
      repeat (case_match; cbn [List.filter]); congruence. }
  rewrite Hcomm. generalize (filterQsos qsos modeFilter operatorFilter). intros l.
  assert (H : forall st st' r' : DxccData,
             st !! dxccId = st' !! dxccId ->
             forEach (foldQso lookupDXCC) l st' = Some r' ->
             exists r,
               forEach (foldQso lookupDXCC) (List.filter (forEntity dxccId) l) st = Some r
               /\ r !! dxccId = r' !! dxccId); [| by apply H].
  clear dxccData. induction l as [| q l IH]; intros st st' r' Hst.
  { intros [= <-]. by exists st. }
  rewrite forEach_cons. destruct (foldQso lookupDXCC st' q) as [st1' |] eqn:Hq'; [| done].
  cbn [mbind option_bind List.filter]. intros Hrest.
  destruct (forEntity dxccId q) eqn:Hq.
  - assert (Hret : is_Some (foldQso lookupDXCC st q)).
    { apply foldQso_returns. apply (foldQso_returns lookupDXCC st'). by eexists. }
    destruct Hret as [st1 Hst1]. rewrite forEach_cons, Hst1. cbn [mbind option_bind].
    apply (IH st1 st1' r'); [| done]. apply forEntity_true in Hq.
    destruct (inherited dxccId) eqn:Hin.
    + by rewrite (foldQso_inherited _ _ _ _ _ Hq Hin Hst1),
                 (foldQso_inherited _ _ _ _ _ Hq Hin Hq').
    + by rewrite (foldQso_same _ _ _ _ _ Hst1 Hq Hin),
                 (foldQso_same _ _ _ _ _ Hq' Hq Hin), Hst.
  - apply (IH st st1' r'); [| done]. apply forEntity_false in Hq.
    by rewrite (foldQso_other _ _ _ _ _ Hq' Hq).
Qed.

Lemma onKnownBand_true (band : option string) :
  onKnownBand band = true <->
  exists v, band = Some v /\ Str.toLowerCase v ∈ BANDS.
Proof.
  unfold onKnownBand. split.
  - destruct (truthy band) as [v |] eqn:E; [| done].
    intros H%member_spec. apply truthy_Some in E as [-> _]. by exists v.
  - intros (v & -> & H). destruct v as [| c v].
    + apply member_spec in H. discriminate H.
    + cbn [truthy]. by apply member_spec.
Qed.

Lemma raises_true (q : Qso) :
  raises q = true <->
  exists dxccId,
    q !! "DXCC" = Some dxccId /\ dxccId ∈ objectPrototype /\
    (isConfirmed q = true
     \/ exists v, q !! "BAND" = Some v /\ Str.toLowerCase v ∈ BANDS).
Proof.
  assert (Hc : isLotw (platformsOf q) || isEqsl (platformsOf q) || isQsl (platformsOf q)
               || isQrz (platformsOf q) || onKnownBand (q !! "BAND") = true
               <-> (isConfirmed q = true
                    \/ exists v, q !! "BAND" = Some v /\ Str.toLowerCase v ∈ BANDS)).
  { by rewrite isConfirmed_platforms, orb_true_iff, onKnownBand_true. }
  unfold raises, hasKey, ownKey. split.
  - destruct (truthy (q !! "DXCC")) as [k |] eqn:E; [| done].
    cbn [andb]. rewrite negb_involutive.
    intros [Hk H]%andb_true_iff. apply truthy_Some in E as [E _].
    exists k. split; [done |]. split; [by apply member_spec | by apply Hc].
  - intros (k & E & Hk%member_spec & H).
    assert (Ek : truthy (q !! "DXCC") = Some k).
    { apply truthy_Some. split; [done |]. by intros ->. }
    rewrite Ek. cbn [andb]. rewrite negb_involutive.
    unfold inherited. rewrite Hk. cbn [andb]. by apply Hc.
Qed.

(** X24. A run of [analyzeQSOs] raises exactly when some folded record
    bears, as its DXCC value, the name of a member every object inherits
    and is confirmed or has a recognized band; every other run returns. *)
Theorem run_raises_on_inherited_identifier
    (qsos : list Qso) (modeFilter operatorFilter : string) :
  analyzeQSOs lookupDXCC qsos modeFilter operatorFilter = None <->
  exists q dxccId,
    q ∈ filterQsos qsos modeFilter operatorFilter /\
    q !! "DXCC" = Some dxccId /\ dxccId ∈ objectPrototype /\
    (isConfirmed q = true
     \/ exists v, q !! "BAND" = Some v /\ Str.toLowerCase v ∈ BANDS).
Proof.
  unfold analyzeQSOs. generalize (filterQsos qsos modeFilter operatorFilter).
  intros l.
  pose proof (forEach_returns lookupDXCC l ∅) as Hret.
  assert (Hex : existsb raises l = true <->
                exists q dxccId,
                  q ∈ l /\ q !! "DXCC" = Some dxccId /\ dxccId ∈ objectPrototype /\
                  (isConfirmed q = true
                   \/ exists v, q !! "BAND" = Some v /\ Str.toLowerCase v ∈ BANDS)).
  { rewrite existsb_exists. split.
    - intros (q & Hin%list_elem_of_In & (k & H)%raises_true). by exists q, k.
    - intros (q & k & Hin%list_elem_of_In & H). exists q. split; [done |].
      apply raises_true. by exists k. }
  rewrite <- Hex. clear Hex.
  assert (Hall : forallb (fun q => negb (raises q)) l = negb (existsb raises l)).
  { clear. induction l as [| q l IH]; [done |]. cbn [forallb existsb].
    rewrite negb_orb. f_equal. apply IH. }
  rewrite Hall in Hret.
  destruct (forEach (foldQso lookupDXCC) l ∅) as [st |], (existsb raises l);
    cbn [negb] in Hret; split; try done.
  - intros _. assert (false = true) as [=]. apply Hret. by eexists.
  - intros _. by destruct (proj2 Hret eq_refl) as [? [=]].
Qed.

End AggregateProperties.

(** ** What the display accessors read *)

Section DisplayFacts.

Variable lookupDXCC : string -> option DxccEntity.

Lemma band_not_all (band : string) : band ∈ BANDS -> String.eqb band "all" = false.
Proof.
  intros H. apply list_elem_of_In in H. cbn in H.
  repeat (destruct H as [<- | H]; [reflexivity |]). destruct H.
Qed.

Lemma platform_not_all (platform : string) :
  platform ∈ PLATFORMS -> String.eqb platform "all" = false.
Proof.
  intros H. apply list_elem_of_In in H. cbn in H.
  repeat (destruct H as [<- | H]; [reflexivity |]). destruct H.
Qed.

(** The accessors on an entry of the fold, in terms of the folded records. *)
Lemma display_reads (qsos : list Qso) (mf opf k band platform : string) (data : Aggregate) :
  analyzeQSOs lookupDXCC qsos mf opf !! k = Some data ->
  band ∈ BANDS -> platform ∈ PLATFORMS ->
  let l := filterQsos qsos mf opf in
  let sel := platformTest platform in
  getDisplayQsos band platform data = bandPlatformQsosOf l k band sel
  /\ getDisplayQsos band "all" data = qsosOn l k band
  /\ getDisplayQsos "all" platform data = platformQsosOf l k sel
  /\ getDisplayQsos "all" "all" data = total data
  /\ total data = length (List.filter (forEntity k) l)
  /\ bandConfirmedBy data band platform
     = existsb (fun q => onBand k band q && sel (platformsOf q)) l
  /\ entityFlag platform data
     = existsb (fun q => forEntity k q && sel (platformsOf q)) l
  /\ bands data !! band = Some (statusOf l k band)
  /\ bandQsos data !! band = Some (qsosOn l k band).
Proof.
  intros Hdata Hband Hp l sel.
  pose proof (analyzeQSOs_platforms lookupDXCC _ _ _ _ _ Hdata) as Hpf.
  pose proof (analyzeQSOs_entry lookupDXCC _ _ _ _ _ Hdata) as [Hb Hn Hc Ht].
  destruct (platform_cases platform Hp) as (Hf & Hbc & Hcs & Hef & _).
  specialize (Hb band). specialize (Hn band). specialize (Hc band).
  rewrite (proj2 (member_spec _ _) Hband) in Hb, Hn, Hc.
  rewrite (Hef _ _ _ Hpf). destruct Hpf as [_ _ _ _ Hcnt Hbp].
  specialize (Hbp band). rewrite (proj2 (member_spec _ _) Hband) in Hbp.
  unfold getDisplayQsos, bandConfirmedBy.
  rewrite (band_not_all _ Hband), (platform_not_all _ Hp), Hbp, Hbc, Hn, Hcnt, Hcs, Hc, Hf.
  repeat split; done.
Qed.

End DisplayFacts.

Section DisplayProperties.

Variable lookupDXCC : string -> option DxccEntity.

(** X5. A run of [analyzeQSOs] that returns holds one entry for each
    distinct non-empty DXCC value of the folded records that is not the name
    of an inherited member, and nothing else: an identifier has an entry
    exactly when it is no such name and a folded record bears it, and the
    number of entries is the number of these identifiers. *)
Theorem entries_are_the_identifiers
    (qsos : list Qso) (modeFilter operatorFilter : string) (dxccData : DxccData) :
  analyzeQSOs lookupDXCC qsos modeFilter operatorFilter = Some dxccData ->
  (forall dxccId,
      is_Some (dxccData !! dxccId) <->
      dxccId ∈ keysOf (filterQsos qsos modeFilter operatorFilter)
      /\ inherited dxccId = false)
  /\ size dxccData
     = length (List.filter (fun dxccId => negb (inherited dxccId))
                 (keysOf (filterQsos qsos modeFilter operatorFilter))).
Proof.
  intros Hrun.
  set (l := filterQsos qsos modeFilter operatorFilter).
  assert (Hkeys : forall k, is_Some (dxccData !! k) <-> k ∈ keysOf l /\ inherited k = false).
  { intros k. unfold keysOf. rewrite elem_of_remove_dups, list_elem_of_omap.
    pose proof (analyzeQSOs_aggregates lookupDXCC qsos modeFilter operatorFilter _ Hrun k)
      as H.
    fold l in H. split.
    - intros [d Hd]. rewrite Hd in H. destruct H as [[H Hown]%andb_true_iff _].
      apply negb_true_iff in Hown. split; [| done].
      apply existsb_exists in H as (q & Hin & Hq). exists q.
      split; [by apply list_elem_of_In | by apply forEntity_true].
    - intros [(q & Hin & Hq) Hown]. destruct (dxccData !! k) as [d |]; [by eexists |].
      rewrite Hown in H. cbn [negb] in H. rewrite andb_true_r in H.
      assert (existsb (forEntity k) l = true) as E; [| congruence].
      apply existsb_exists. exists q.
      split; [by apply list_elem_of_In | by apply forEntity_true]. }
  split; [done |].
  rewrite <- size_dom.
  assert (Hdom : dom dxccData
                 = list_to_set (List.filter (fun k => negb (inherited k)) (keysOf l))).
  { apply set_eq. intros k.
    rewrite elem_of_dom, elem_of_list_to_set, list_elem_of_In, filter_In,
      <- list_elem_of_In, negb_true_iff. apply Hkeys. }
  rewrite Hdom. apply size_list_to_set.
  apply NoDup_ListNoDup, List.NoDup_filter, NoDup_ListNoDup.
  unfold keysOf. apply NoDup_remove_dups.
Qed.

(** X3. Each active display filter can only narrow the contact count shown
    for an entry: the count for a band and platform is at most the count for
    the band alone and at most the count for the platform alone, and both
    are at most the unfiltered count, which is the entry's total. *)
Theorem display_count_narrows
    (qsos : list Qso) (modeFilter operatorFilter dxccId band platform : string)
    (data : Aggregate) :
  analyzeQSOs lookupDXCC qsos modeFilter operatorFilter !! dxccId = Some data ->
  band ∈ BANDS -> platform ∈ PLATFORMS ->
  getDisplayQsos band platform data <= getDisplayQsos band "all" data
  /\ getDisplayQsos band platform data <= getDisplayQsos "all" platform data
  /\ getDisplayQsos band "all" data <= getDisplayQsos "all" "all" data
  /\ getDisplayQsos "all" platform data <= getDisplayQsos "all" "all" data
  /\ getDisplayQsos "all" "all" data = total data.
Proof.
  intros Hdata Hband Hp.
  destruct (display_reads lookupDXCC _ _ _ _ _ _ _ Hdata Hband Hp)
    as (-> & -> & -> & -> & -> & _).
  unfold bandPlatformQsosOf, qsosOn, platformQsosOf.
  repeat split; try apply filter_length_le; intros q; unfold onBand;
    rewrite ?andb_true_iff; tauto.
Qed.

(** X7. A confirmation checkmark is shown for a platform exactly when the
    contact count shown under that platform filter is positive, with a band
    selected and without; and a checkmark shown for a band is also shown when
    no band is selected. *)
Theorem checkmark_iff_positive_count
    (qsos : list Qso) (modeFilter operatorFilter dxccId band platform : string)
    (data : Aggregate) :
  analyzeQSOs lookupDXCC qsos modeFilter operatorFilter !! dxccId = Some data ->
  band ∈ BANDS -> platform ∈ PLATFORMS ->
  (getDisplayConfirmation band data platform = true <->
   0 < getDisplayQsos band platform data)
  /\ (getDisplayConfirmation "all" data platform = true <->
      0 < getDisplayQsos "all" platform data)
  /\ (getDisplayConfirmation band data platform = true ->
      getDisplayConfirmation "all" data platform = true).
Proof.
  intros Hdata Hband Hp.
  destruct (display_reads lookupDXCC _ _ _ _ _ _ _ Hdata Hband Hp)
    as (Hbp & _ & Hpl & _ & _ & Hbc & Hef & _).
  unfold getDisplayConfirmation. rewrite (band_not_all _ Hband). cbn [negb String.eqb].
  rewrite Hbp, Hpl, Hbc, Hef. unfold bandPlatformQsosOf, platformQsosOf.
  rewrite !filter_length_pos. repeat split; try done.
  intros (q & Hin & [Hq Hsel]%andb_true_iff)%existsb_exists.
  apply existsb_exists. exists q. split; [done |].
  by rewrite (onBand_forEntity _ _ _ Hq), Hsel.
Qed.

(** X8. A platform filter can only lower the band status shown, from
    Confirmed to Worked: whatever the filter, the status shown is None
    exactly when the stored status is None, a shown Confirmed means a stored
    Confirmed, and under a platform filter Confirmed is shown exactly when
    that platform's checkmark is shown for the band. *)
Theorem display_status_only_lowers
    (qsos : list Qso) (modeFilter operatorFilter dxccId band filterConfirmation : string)
    (data : Aggregate) :
  analyzeQSOs lookupDXCC qsos modeFilter operatorFilter !! dxccId = Some data ->
  band ∈ BANDS -> filterConfirmation ∈ "all" :: PLATFORMS ->
  (getDisplayBandStatus filterConfirmation data band = None <->
   bands data !! band = Some None)
  /\ (getDisplayBandStatus filterConfirmation data band = Some C ->
      bands data !! band = Some (Some C))
  /\ (filterConfirmation ≠ "all" ->
      (getDisplayBandStatus filterConfirmation data band = Some C <->
       getDisplayConfirmation band data filterConfirmation = true)).
Proof.
  intros Hdata Hband [-> | Hp]%elem_of_cons.
  - pose proof (analyzeQSOs_entry lookupDXCC _ _ _ _ _ Hdata) as [Hb _ _ _].
    specialize (Hb band). rewrite (proj2 (member_spec _ _) Hband) in Hb.
    unfold getDisplayBandStatus. rewrite Hb. cbn.
    destruct (statusOf _ dxccId band) as [[] |]; cbn; repeat split; try done.
  - destruct (display_reads lookupDXCC _ _ _ _ _ _ _ Hdata Hband Hp)
      as (_ & _ & _ & _ & _ & Hbc & _ & Hb & Hn).
    destruct (platform_cases _ Hp) as (_ & _ & _ & _ & Hconf).
    unfold getDisplayBandStatus, getDisplayConfirmation.
    rewrite (band_not_all _ Hband), (platform_not_all _ Hp), Hb, Hn, Hbc.
    cbn [negb]. unfold statusOf, qsosOn.
    set (l := filterQsos qsos modeFilter operatorFilter).
    assert (Hsel : existsb (fun q => onBand dxccId band q
                                      && platformTest filterConfirmation (platformsOf q)) l
                   = true ->
                   existsb (fun q => onBand dxccId band q && isConfirmed q) l = true).
    { intros (q & Hin & [Hq Hs]%andb_true_iff)%existsb_exists.
      apply existsb_exists. exists q. by rewrite Hq, (Hconf q Hs). }
    assert (Hon : existsb (fun q => onBand dxccId band q && isConfirmed q) l = true ->
                  existsb (onBand dxccId band) l = true).
    { intros (q & Hin & [Hq _]%andb_true_iff)%existsb_exists.
      apply existsb_exists. by exists q. }
    pose proof (filter_length_pos (onBand dxccId band) l) as Hpos.
    destruct (existsb (fun q => onBand dxccId band q
                                 && platformTest filterConfirmation (platformsOf q)) l)
      eqn:Es;
      [rewrite (Hsel eq_refl); cbn; repeat split; done |].
    destruct (existsb (fun q => onBand dxccId band q && isConfirmed q) l) eqn:Ec.
    + rewrite (Hon eq_refl) in Hpos. cbn [noStatus].
      destruct (length (List.filter (onBand dxccId band) l));
        [destruct Hpos as [_ Hpos]; specialize (Hpos eq_refl); lia |].
      repeat split; done.
    + destruct (existsb (onBand dxccId band) l) eqn:Ew; cbn [noStatus].
      * destruct (length (List.filter (onBand dxccId band) l));
          [destruct Hpos as [_ Hpos]; specialize (Hpos eq_refl); lia |].
        repeat split; done.
      * repeat split; done.
Qed.

End DisplayProperties.

(** ** The table filter *)

Section FilterFacts.

Lemma filter_filter {A} (f g : A -> bool) (l : list A) :
  List.filter g (List.filter f l) = List.filter (fun x => f x && g x) l.
Proof.
  induction l as [| x l IH]; [done |]. cbn [List.filter].
  destruct (f x); cbn [List.filter andb]; [by destruct (g x); rewrite IH | done].
Qed.

Lemma filter_true {A} (l : list A) : List.filter (fun _ => true) l = l.
Proof. induction l as [| x l IH]; [done |]. cbn. by rewrite IH. Qed.

Lemma if_filter {A} (c : bool) (g : A -> bool) (l : list A) :
  (if c then List.filter g l else l) = List.filter (fun x => negb c || g x) l.
Proof. destruct c; cbn [negb orb]; [done | by rewrite filter_true]. Qed.

(** The five stages keep exactly the entries that pass the five tests. *)
Lemma filteredEntries_shown (f : Filters) (entries : list Entry) :
  filteredEntries f entries = List.filter (shown f) entries.
Proof.
  unfold filteredEntries.
  rewrite (if_filter (negb (String.eqb (searchTerm f) ""))).
  rewrite (if_filter (negb (String.eqb (filterContinent f) "all"))).
  rewrite (if_filter (negb (String.eqb (filterBand f) "all"))).
  assert (H4 : forall l : list Entry,
             (if negb (String.eqb (filterConfirmation f) "all")
              then if negb (String.eqb (filterBand f) "all")
                   then List.filter
                          (fun e => bandConfirmedBy (snd e) (filterBand f)
                                      (filterConfirmation f)) l
                   else List.filter (fun e => entityFlag (filterConfirmation f) (snd e)) l
              else l)
             = List.filter
                 (fun e => String.eqb (filterConfirmation f) "all"
                           || (if negb (String.eqb (filterBand f) "all")
                               then bandConfirmedBy (snd e) (filterBand f)
                                      (filterConfirmation f)
                               else entityFlag (filterConfirmation f) (snd e))) l).
  { intros l. destruct (String.eqb (filterConfirmation f) "all"); cbn [negb orb].
    - by rewrite filter_true.
    - by destruct (negb (String.eqb (filterBand f) "all")). }
  rewrite H4.
  assert (H5 : forall l : list Entry,
             (if String.eqb (filterStatus f) "confirmed"
              then List.filter
                     (fun e => existsb (hasStatus C (snd e)) (bandsToCheck (filterBand f))) l
              else if String.eqb (filterStatus f) "worked"
                   then List.filter
                          (fun e =>
                             forallb (fun band => negb (hasStatus C (snd e) band))
                               (bandsToCheck (filterBand f))
                             && existsb (hasStatus W (snd e)) (bandsToCheck (filterBand f)))
                          l
                   else l)
             = List.filter (shownStatus f) l).
  { intros l. unfold shownStatus.
    destruct (String.eqb (filterStatus f) "confirmed"); [done |].
    destruct (String.eqb (filterStatus f) "worked"); [done |].
    by rewrite filter_true. }
  rewrite H5, !filter_filter. apply filter_ext. intros e.
  unfold shown, shownBase. rewrite !negb_involutive.
  by rewrite !orb_assoc, !andb_assoc.
Qed.

Lemma filter_split_length {A} (p a b : A -> bool) (l : list A) :
  (forall x, p x = true -> a x = negb (b x)) ->
  length (List.filter p l)
  = length (List.filter (fun x => p x && a x) l)
    + length (List.filter (fun x => p x && b x) l).
Proof.
  intros H. induction l as [| x l IH]; [done |]. cbn [List.filter].
  destruct (p x) eqn:Ep; cbn [andb]; [| done].
  rewrite (H x Ep). destruct (b x); cbn [negb length]; lia.
Qed.

Lemma hasStatus_exclusive (data : Aggregate) (band : string) :
  hasStatus C data band = true -> hasStatus W data band = false.
Proof. unfold hasStatus. by destruct (bands data !! band) as [[[] |] |]. Qed.

End FilterFacts.

(** X9. The status modes Confirmed and Worked Only never show the same
    entry, and every entry shown under All is shown under one of them unless
    it has no status on any band under consideration; with a band selected
    there is no such entry, so the two modes split the All list and their
    sizes add up to its size. *)
Theorem status_modes_split (f : Filters) (entries : list Entry) :
  let all := filteredEntries (withStatus "all" f) entries in
  let confirmed := filteredEntries (withStatus "confirmed" f) entries in
  let worked := filteredEntries (withStatus "worked" f) entries in
  (forall e, e ∈ confirmed -> e ∉ worked)
  /\ (forall e,
        e ∈ all <->
        e ∈ confirmed \/ e ∈ worked \/
        (e ∈ all /\ forallb (blank (snd e)) (bandsToCheck (filterBand f)) = true))
  /\ (filterBand f ≠ "all" -> length all = length confirmed + length worked).
Proof.
  intros all confirmed worked. subst all confirmed worked.
  rewrite !filteredEntries_shown.
  assert (Hin : forall s e, e ∈ List.filter (shown (withStatus s f)) entries
                            <-> e ∈ entries /\ shownBase f e = true
                                /\ shownStatus (withStatus s f) e = true).
  { intros s e. rewrite list_elem_of_In, filter_In, <- list_elem_of_In.
    unfold shown. rewrite andb_true_iff. done. }
  set (btc := bandsToCheck (filterBand f)).
  assert (Hc : forall e, shownStatus (withStatus "confirmed" f) e
                         = existsb (hasStatus C (snd e)) btc) by done.
  assert (Hw : forall e, shownStatus (withStatus "worked" f) e
                         = forallb (fun band => negb (hasStatus C (snd e) band)) btc
                           && existsb (hasStatus W (snd e)) btc) by done.
  assert (Ha : forall e, shownStatus (withStatus "all" f) e = true) by done.
  assert (Hnot : forall e : Entry,
             existsb (hasStatus C (snd e)) btc = true ->
             forallb (fun band => negb (hasStatus C (snd e) band)) btc = false).
  { intros e (b & Hb & HC)%existsb_exists. apply not_true_is_false.
    intros Hall. rewrite forallb_forall in Hall. specialize (Hall b Hb).
    by rewrite HC in Hall. }
  split; [| split].
  - intros e (_ & _ & H1)%Hin (_ & _ & H2)%Hin. rewrite Hc in H1. rewrite Hw in H2.
    by rewrite (Hnot e H1) in H2.
  - intros e. rewrite !Hin, Hc, Hw, Ha. split; [| tauto].
    intros (He & Hb & _).
    destruct (existsb (hasStatus C (snd e)) btc) eqn:EC; [tauto |].
    destruct (existsb (hasStatus W (snd e)) btc) eqn:EW.
    + right. left. repeat split; try done. rewrite andb_true_r.
      apply forallb_forall. intros b Hin'. apply negb_true_iff, not_true_is_false.
      intros HC. assert (existsb (hasStatus C (snd e)) btc = true) as E; [| congruence].
      apply existsb_exists. eauto.
    + right. right. repeat split; try done.
      apply forallb_forall. intros b Hin'. unfold blank.
      apply andb_true_iff. split; apply negb_true_iff, not_true_is_false; intros HS.
      * assert (existsb (hasStatus C (snd e)) btc = true) as E; [| congruence].
        apply existsb_exists. eauto.
      * assert (existsb (hasStatus W (snd e)) btc = true) as E; [| congruence].
        apply existsb_exists. eauto.
  - intros Hband.
    assert (Hshown : forall s, List.filter (shown (withStatus s f)) entries
                               = List.filter (fun e => shownBase f e
                                                       && shownStatus (withStatus s f) e)
                                   entries) by done.
    rewrite !Hshown.
    rewrite (filter_ext _ (shownBase f)) by (intros e; by rewrite Ha, andb_true_r).
    apply filter_split_length. intros e Hb. rewrite Hc, Hw.
    unfold btc, bandsToCheck.
    assert (E : String.eqb (filterBand f) "all" = false)
      by (by apply String.eqb_neq).
    rewrite E. cbn [negb existsb forallb]. rewrite !orb_false_r, andb_true_r.
    unfold shownBase in Hb. rewrite E in Hb. cbn [orb] in Hb.
    apply andb_true_iff in Hb as [[_ Hb]%andb_true_iff _].
    destruct (hasStatus C (snd e) (filterBand f)) eqn:EC; cbn [negb andb orb] in *.
    + by rewrite ?(hasStatus_exclusive _ _ EC).
    + by rewrite ?Hb.
Qed.

Section FilterProperties.

Variable lookupDXCC : string -> option DxccEntity.

Lemma filteredEntries_elem (f : Filters) (m : DxccData) (e : Entry) :
  e ∈ filteredEntries f (map_to_list m) <->
  m !! fst e = Some (snd e) /\ shownBase f e = true /\ shownStatus f e = true.
Proof.
  rewrite filteredEntries_shown, list_elem_of_In, filter_In, <- list_elem_of_In.
  unfold shown. rewrite andb_true_iff. destruct e as [k d].
  by rewrite elem_of_map_to_list.
Qed.

(** X10. With a band and a platform selected, every entry the table shows
    has the band shown as Confirmed, a positive contact count and the
    platform's checkmark; so under these two filters the status mode Worked
    Only shows nothing. *)
Theorem band_platform_filter_shows_confirmed
    (qsos : list Qso) (modeFilter operatorFilter : string) (f : Filters) (e : Entry)
    (dxccData : DxccData) :
  analyzeQSOs lookupDXCC qsos modeFilter operatorFilter = Some dxccData ->
  filterBand f ∈ BANDS ->
  filterConfirmation f ∈ PLATFORMS ->
  e ∈ filteredEntries f (map_to_list dxccData) ->
  getDisplayBandStatus (filterConfirmation f) (snd e) (filterBand f) = Some C
  /\ 0 < getDisplayQsos (filterBand f) (filterConfirmation f) (snd e)
  /\ getDisplayConfirmation (filterBand f) (snd e) (filterConfirmation f) = true
  /\ filterStatus f ≠ "worked".
Proof.
  intros Hrun Hband Hp (Hentry & Hbase & Hstatus)%filteredEntries_elem.
  assert (Hdata : analyzeQSOs lookupDXCC qsos modeFilter operatorFilter !! fst e
                  = Some (snd e)).
  { apply outcome_lookup_Some. by exists dxccData. }
  destruct (display_reads lookupDXCC _ _ _ _ _ _ _ Hdata Hband Hp)
    as (Hbp & _ & _ & _ & _ & Hbc & _ & Hb & Hn).
  destruct (platform_cases _ Hp) as (_ & _ & _ & _ & Hconf).
  unfold shownBase in Hbase.
  rewrite (band_not_all _ Hband), (platform_not_all _ Hp) in Hbase.
  cbn [negb orb] in Hbase. apply andb_true_iff in Hbase as [_ Hflag].
  set (l := filterQsos qsos modeFilter operatorFilter) in *.
  assert (HC : existsb (fun q => onBand (fst e) (filterBand f) q && isConfirmed q) l = true).
  { rewrite Hbc in Hflag. apply existsb_exists in Hflag as (q & Hin & [Hq Hs]%andb_true_iff).
    apply existsb_exists. exists q. by rewrite Hq, (Hconf q Hs). }
  assert (Hstored : bands (snd e) !! filterBand f = Some (Some C)).
  { rewrite Hb. unfold statusOf. by rewrite HC. }
  split; [| split; [| split]].
  - unfold getDisplayBandStatus.
    by rewrite Hstored, (platform_not_all _ Hp), Hflag.
  - rewrite Hbp. unfold bandPlatformQsosOf. apply filter_length_pos. by rewrite <- Hbc.
  - unfold getDisplayConfirmation. by rewrite (band_not_all _ Hband).
  - intros Hw. unfold shownStatus in Hstatus. rewrite Hw in Hstatus.
    cbn [String.eqb Ascii.eqb Bool.eqb] in Hstatus.
    unfold bandsToCheck in Hstatus. rewrite (band_not_all _ Hband) in Hstatus.
    cbn [negb forallb existsb] in Hstatus. unfold hasStatus in Hstatus.
    rewrite Hstored in Hstatus. discriminate Hstatus.
Qed.

(** X11. An entry counts as confirmed in the statistics exactly when one of
    its folded records is confirmed on a recognized band; a confirmed record
    on another band does not count.  The confirmed count never exceeds the
    number of entries counted. *)
Theorem confirmed_entity_has_confirmed_contact
    (qsos : list Qso) (modeFilter operatorFilter dxccId : string) (data : Aggregate) :
  analyzeQSOs lookupDXCC qsos modeFilter operatorFilter !! dxccId = Some data ->
  (existsb (hasStatus C data) (bandsToCheck "all") = true <->
   exists q band,
     q ∈ filterQsos qsos modeFilter operatorFilter /\ band ∈ BANDS /\
     onBand dxccId band q = true /\ isConfirmed q = true)
  /\ forall filterBand entries,
      confirmedCount filterBand entries <= length entries.
Proof.
  intros Hdata. split.
  - pose proof (analyzeQSOs_entry lookupDXCC _ _ _ _ _ Hdata) as [Hb _ _ _].
    cbn [bandsToCheck String.eqb Ascii.eqb Bool.eqb negb].
    rewrite existsb_exists. split.
    + intros (band & Hband%list_elem_of_In & HC). unfold hasStatus in HC.
      rewrite Hb, (proj2 (member_spec _ _) Hband) in HC. unfold statusOf in HC.
      destruct (existsb _ (filterQsos qsos modeFilter operatorFilter)) eqn:E.
      * apply existsb_exists in E as (q & Hin & [Hq Hconf]%andb_true_iff).
        exists q, band. by rewrite list_elem_of_In.
      * by destruct (existsb (onBand dxccId band) _).
    + intros (q & band & Hin & Hband & Hq & Hconf). exists band.
      split; [by apply list_elem_of_In |]. unfold hasStatus.
      rewrite Hb, (proj2 (member_spec _ _) Hband). unfold statusOf.
      assert (E : existsb (fun q => onBand dxccId band q && isConfirmed q)
                    (filterQsos qsos modeFilter operatorFilter) = true);
        [| by rewrite E].
      apply existsb_exists. exists q. rewrite Hq, Hconf.
      by rewrite <- list_elem_of_In.
  - intros fb entries. unfold confirmedCount. apply List.filter_length_le.
Qed.

End FilterProperties.

(** ** The status filter *)

(** C3, as amended.  The status filter of this component has no 'Not
    Worked' mode: it acts for the two status values 'confirmed' and
    'worked' only, and under any other value the table is the one shown
    under 'all'.  Whatever the status value, the table shows entries of the
    aggregate set only, and with a band selected only entries whose status
    on that band is ['C'] or ['W']: an entity without an entry, or with
    status [null] on the band, is never shown. *)
Theorem status_filter_has_no_not_worked_mode (f : Filters) (dxccData : DxccData) :
  (filterStatus f ≠ "confirmed" -> filterStatus f ≠ "worked" ->
   filteredEntries f (map_to_list dxccData)
   = filteredEntries (withStatus "all" f) (map_to_list dxccData))
  /\ (forall e,
        e ∈ filteredEntries f (map_to_list dxccData) ->
        dxccData !! fst e = Some (snd e) /\
        (filterBand f ≠ "all" ->
         bands (snd e) !! filterBand f = Some (Some C)
         \/ bands (snd e) !! filterBand f = Some (Some W))).
Proof.
  split.
  - intros H1%String.eqb_neq H2%String.eqb_neq. unfold filteredEntries, withStatus.
    cbn [searchTerm filterStatus filterContinent filterConfirmation filterBand].
    by rewrite H1, H2.
  - intros e (Hin & Hbase & _)%filteredEntries_elem. split; [done |].
    intros Hb%String.eqb_neq. unfold shownBase in Hbase. rewrite Hb in Hbase.
    cbn [orb] in Hbase.
    apply andb_true_iff in Hbase as [[_ Hband]%andb_true_iff _].
    unfold hasStatus in Hband.
    destruct (bands (snd e) !! filterBand f) as [[[] |] |]; auto; discriminate.
Qed.

(** The reading of C3 fails on its own example: with the band 40m selected
    and the three records of the worked example, the status value 'Not
    Worked' shows entity 5, worked on 40m, and does not show entity 291,
    worked on 20m only; no entity without an entry is shown. *)
Lemma not_worked_example_shows_worked_entity :
  let f := {| searchTerm := ""; filterStatus := "Not Worked";
              filterContinent := "all"; filterConfirmation := "all";
              filterBand := "40m" |} in
  exists dxccData,
    analyzeQSOs sampleLookup sampleLog "all" "all" = Some dxccData /\
    (exists data, dxccData !! "291" = Some data /\ bands data !! "40m" = Some None) /\
    fst <$> filteredEntries f (map_to_list dxccData) = [ "5" ] /\
    ~ (exists data, ("291", data) ∈ filteredEntries f (map_to_list dxccData)).
Proof.
  eexists. split; [vm_compute; reflexivity |].
  split; [eexists; split; vm_compute; reflexivity |].
  split; [vm_compute; reflexivity |].
  intros (data & Hin). apply list_elem_of_In in Hin. vm_compute in Hin.
  destruct Hin as [[=] | []].
Qed.


Section DashboardTotals.

Variable lookupDXCC : string -> option DxccEntity.

Lemma fold_left_sum {A} (g : A -> nat) (l : list A) (a : nat) :
  fold_left (fun sum x => sum + g x) l a = a + sum_list (g <$> l).
Proof.
  revert a. induction l as [| x l IH]; intros a; cbn; [lia |]. rewrite IH. lia.
Qed.

Lemma foldr_sum {A} (g : A -> nat) (l : list A) :
  foldr (fun x sum => sum + g x) 0 l = sum_list (g <$> l).
Proof. induction l as [| x l IH]; cbn; [done |]. rewrite IH. lia. Qed.

Lemma totalQSOs_sum (m : DxccData) :
  totalQSOs m = sum_list ((fun e : Entry => total (snd e)) <$> map_to_list m).
Proof.
  unfold totalQSOs. rewrite map_fold_foldr, <- foldr_sum.
  induction (map_to_list m) as [| [k d] l IH]; [done |]. cbn. by rewrite IH.
Qed.

Lemma sum_filter_le {A} (g h : A -> nat) (p : A -> bool) (l : list A) :
  (forall x, In x l -> g x <= h x) ->
  sum_list (g <$> List.filter p l) <= sum_list (h <$> l).
Proof.
  induction l as [| x l IH]; intros H; [done |]. cbn [List.filter].
  assert (Hx : g x <= h x) by (apply H; by left).
  assert (Hl : sum_list (g <$> List.filter p l) <= sum_list (h <$> l))
    by (apply IH; intros y Hy; apply H; by right).
  destruct (p x); cbn; lia.
Qed.

Lemma getDisplayQsos_le_total
    (qsos : list Qso) (mf opf k fb fc : string) (data : Aggregate) :
  analyzeQSOs lookupDXCC qsos mf opf !! k = Some data ->
  fb ∈ "all" :: BANDS -> fc ∈ "all" :: PLATFORMS ->
  getDisplayQsos fb fc data <= total data.
Proof.
  intros Hdata [-> | Hb]%elem_of_cons [-> | Hp]%elem_of_cons.
  - done.
  - assert (H20 : "20m" ∈ BANDS) by (apply member_spec; reflexivity).
    destruct (display_reads lookupDXCC _ _ _ _ _ _ _ Hdata H20 Hp)
      as (_ & _ & -> & _ & -> & _).
    unfold platformQsosOf. apply filter_length_le. by intros q [H _]%andb_true_iff.
  - assert (Hl : "lotw" ∈ PLATFORMS) by (apply member_spec; reflexivity).
    destruct (display_reads lookupDXCC _ _ _ _ _ _ _ Hdata Hb Hl)
      as (_ & -> & _ & _ & -> & _).
    unfold qsosOn. apply filter_length_le. intros q. apply onBand_forEntity.
  - destruct (display_reads lookupDXCC _ _ _ _ _ _ _ Hdata Hb Hp)
      as (-> & _ & _ & _ & -> & _).
    unfold bandPlatformQsosOf. apply filter_length_le.
    intros q [H _]%andb_true_iff. by apply onBand_forEntity in H.
Qed.

(** X12. The contact total of the dashboard under any display filters never
    exceeds the unfiltered total, and with no filter it is the unfiltered
    total: the sum of the totals of all entries. *)
Theorem filtered_total_bounded
    (qsos : list Qso) (modeFilter operatorFilter : string) (f : Filters)
    (dxccData : DxccData) :
  analyzeQSOs lookupDXCC qsos modeFilter operatorFilter = Some dxccData ->
  filterBand f ∈ "all" :: BANDS ->
  filterConfirmation f ∈ "all" :: PLATFORMS ->
  displayTotal (filterBand f) (filterConfirmation f)
    (filteredEntries f (map_to_list dxccData))
  <= totalQSOs dxccData
  /\ displayTotal "all" "all" (map_to_list dxccData) = totalQSOs dxccData.
Proof.
  intros Hrun Hb Hp. unfold displayTotal. rewrite !fold_left_sum, totalQSOs_sum.
  rewrite filteredEntries_shown. split; [| done]. cbn [Nat.add].
  apply sum_filter_le. intros [k d] Hin%list_elem_of_In%elem_of_map_to_list.
  apply (getDisplayQsos_le_total qsos modeFilter operatorFilter k); [| done | done].
  apply outcome_lookup_Some. by exists dxccData.
Qed.

(** X23. When a run returns, the [total] fields of all entries sum to the
    number of folded records whose grouping key is not the name of an
    inherited member; such a name apart, that is the number of folded
    records with a non-empty DXCC field, and on a log without such names
    the run returns. *)
Theorem totals_count_own_keyed_records
    (qsos : list Qso) (modeFilter operatorFilter : string) :
  (forall dxccData,
      analyzeQSOs lookupDXCC qsos modeFilter operatorFilter = Some dxccData ->
      totalQSOs dxccData
      = length (List.filter ownKey (filterQsos qsos modeFilter operatorFilter)))
  /\ ((forall q, q ∈ filterQsos qsos modeFilter operatorFilter ->
                 forall dxccId, q !! "DXCC" = Some dxccId -> inherited dxccId = false) ->
      exists dxccData,
        analyzeQSOs lookupDXCC qsos modeFilter operatorFilter = Some dxccData
        /\ totalQSOs dxccData
           = length (List.filter
                       (fun qso => match qso !! "DXCC" with
                                   | Some (String _ _) => true
                                   | _ => false
                                   end) (filterQsos qsos modeFilter operatorFilter))).
Proof.
  assert (H : forall dxccData,
             analyzeQSOs lookupDXCC qsos modeFilter operatorFilter = Some dxccData ->
             totalQSOs dxccData
             = length (List.filter ownKey (filterQsos qsos modeFilter operatorFilter))).
  { intros dxccData Hrun. unfold analyzeQSOs in Hrun.
    rewrite (totalQSOs_fold lookupDXCC _ _ _ Hrun).
    unfold totalQSOs. by rewrite map_fold_empty. }
  split; [exact H |]. intros Hown.
  assert (Hkey : forall q, q ∈ filterQsos qsos modeFilter operatorFilter ->
                           ownKey q = match q !! "DXCC" with
                                      | Some (String _ _) => true
                                      | _ => false
                                      end).
  { intros q Hq. unfold ownKey. specialize (Hown q Hq).
    destruct (q !! "DXCC") as [[| c v] |]; [done | | done].
    cbn [truthy]. by rewrite (Hown _ eq_refl). }
  destruct (proj2 (analyzeQSOs_returns lookupDXCC qsos modeFilter operatorFilter))
    as [dxccData Hrun].
  { intros q Hq. rewrite (Hkey q Hq). unfold hasKey.
    by destruct (q !! "DXCC") as [[| c v] |]. }
  exists dxccData. split; [done |]. rewrite (H _ Hrun). f_equal.
  apply filter_ext_in. intros q Hq. apply Hkey. by apply list_elem_of_In.
Qed.

End DashboardTotals.

(** ** The order of the menus *)

Section StringOrder.

Lemma nat_of_ascii_inj (x y : ascii) : nat_of_ascii x = nat_of_ascii y -> x = y.
Proof.
  intros H. rewrite <- (ascii_nat_embedding x), <- (ascii_nat_embedding y).
  by rewrite H.
Qed.

#[global] Instance strLe_total : Total strLe.
Proof.
  intros a. unfold strLe. induction a as [| x a IH]; intros [| y b]; cbn [strLeb]; auto.
  destruct (Nat.ltb_spec (nat_of_ascii x) (nat_of_ascii y)); [auto |].
  destruct (Nat.ltb_spec (nat_of_ascii y) (nat_of_ascii x)); [auto |].
  apply IH.
Qed.

#[global] Instance strLe_trans : Transitive strLe.
Proof.
  intros a. unfold strLe. induction a as [| x a IH]; intros [| y b] [| z c];
    cbn [strLeb]; try done.
  destruct (Nat.ltb_spec (nat_of_ascii x) (nat_of_ascii y)),
           (Nat.ltb_spec (nat_of_ascii y) (nat_of_ascii z)),
           (Nat.ltb_spec (nat_of_ascii x) (nat_of_ascii z)),
           (Nat.ltb_spec (nat_of_ascii y) (nat_of_ascii x)),
           (Nat.ltb_spec (nat_of_ascii z) (nat_of_ascii y)),
           (Nat.ltb_spec (nat_of_ascii z) (nat_of_ascii x));
    try done; try lia.
  apply IH.
Qed.

#[global] Instance strLe_antisym : AntiSymm (=) strLe.
Proof.
  intros a. unfold strLe. induction a as [| x a IH]; intros [| y b]; cbn [strLeb];
    try done.
  destruct (Nat.ltb_spec (nat_of_ascii x) (nat_of_ascii y)),
           (Nat.ltb_spec (nat_of_ascii y) (nat_of_ascii x));
    try done; try lia.
  intros H1 H2. f_equal; [apply nat_of_ascii_inj; lia | by apply IH].
Qed.

(** The sort of a duplicate-free list: ascending, duplicate-free, the same
    members. *)
Lemma sortStrings_spec (l : list string) :
  NoDup l ->
  StronglySorted strLe (sortStrings l) /\ NoDup (sortStrings l)
  /\ forall x, x ∈ sortStrings l <-> x ∈ l.
Proof.
  intros Hl. unfold sortStrings. split; [apply StronglySorted_merge_sort; apply _ |].
  pose proof (merge_sort_Permutation strLe l) as HP.
  split; [by rewrite HP | intros x; by rewrite HP].
Qed.

Lemma toUpperCase_not_all (s : string) : Str.toUpperCase s ≠ "all".
Proof.
  destruct s as [| c s]; [discriminate |]. cbn. intros [= H _]. revert H.
  destruct c as [[] [] [] [] [] [] [] []]; vm_compute; discriminate.
Qed.

Lemma toUpperCase_empty (s : string) : Str.toUpperCase s = "" -> s = "".
Proof. by destruct s. Qed.

Lemma orElse_callOf (q : Qso) :
  orElse (q !! "STATION_CALLSIGN") (orElse (q !! "OPERATOR") "")
  = default "" (callOf q).
Proof.
  unfold orElse, callOf. destruct (truthy (q !! "STATION_CALLSIGN")); [done |].
  by destruct (truthy (q !! "OPERATOR")).
Qed.

Lemma callOf_non_empty (q : Qso) (c : string) : callOf q = Some c -> c ≠ "".
Proof.
  unfold callOf. destruct (truthy (q !! "STATION_CALLSIGN")) as [c' |] eqn:E.
  - intros [= <-]. by apply truthy_Some in E as [_ E].
  - intros H. by apply truthy_Some in H as [_ H].
Qed.

End StringOrder.

(** X13. The operator menu is ascending and free of duplicates and holds
    exactly the upper-cased callsigns of the log.  No entry of it is the
    reserved value "all", and selecting an entry keeps exactly the records
    of that callsign, of which there is at least one. *)
Theorem operators_select_records (qsos : list Qso) :
  let ops := availableOperators qsos in
  StronglySorted strLe ops /\ NoDup ops
  /\ (forall op,
        op ∈ ops <->
        exists q c, q ∈ qsos /\ callOf q = Some c /\ Str.toUpperCase c = op)
  /\ (forall op, op ∈ ops -> op ≠ "all" /\ filterQsos qsos "all" op ≠ [])
  /\ (forall op q,
        op ∈ ops ->
        (q ∈ filterQsos qsos "all" op <->
         q ∈ qsos /\ exists c, callOf q = Some c /\ Str.toUpperCase c = op)).
Proof.
  intros ops. subst ops. unfold availableOperators.
  destruct (sortStrings_spec
              (remove_dups (omap (fun q => Str.toUpperCase <$> callOf q) qsos))
              (NoDup_remove_dups _)) as (Hs & Hn & Hm).
  assert (Hops : forall op,
             op ∈ sortStrings
                    (remove_dups (omap (fun q => Str.toUpperCase <$> callOf q) qsos))
             <-> exists q c, q ∈ qsos /\ callOf q = Some c /\ Str.toUpperCase c = op).
  { intros op. rewrite Hm, elem_of_remove_dups, list_elem_of_omap. split.
    - intros (q & Hin & Hq). destruct (callOf q) as [c |] eqn:E; [| done].
      injection Hq as <-. eauto.
    - intros (q & c & Hin & E & <-). exists q. by rewrite E. }
  assert (Hfilter : forall op q,
             op ≠ "all" -> op ≠ "" ->
             (q ∈ filterQsos qsos "all" op <->
              q ∈ qsos /\ exists c, callOf q = Some c /\ Str.toUpperCase c = op)).
  { intros op q Hall Hne. unfold filterQsos. cbn [String.eqb Ascii.eqb Bool.eqb].
    rewrite (proj2 (String.eqb_neq _ _) Hall). cbn [negb].
    rewrite list_elem_of_In, filter_In, <- list_elem_of_In, orElse_callOf, String.eqb_eq.
    split; intros [Hin H]; (split; [done |]).
    - destruct (callOf q) as [c |]; [eauto | by destruct Hne].
    - by destruct H as (c & -> & <-). }
  assert (Hvalid : forall op,
             op ∈ sortStrings
                    (remove_dups (omap (fun q => Str.toUpperCase <$> callOf q) qsos))
             -> op ≠ "all" /\ op ≠ "").
  { intros op (q & c & _ & E & <-)%Hops. split; [apply toUpperCase_not_all |].
    intros H%toUpperCase_empty. by apply callOf_non_empty in E. }
  split; [exact Hs |]. split; [exact Hn |]. split; [exact Hops |]. split.
  - intros op H. destruct (Hvalid _ H) as [Ha He]. split; [done |].
    pose proof H as (q & c & Hin & E & Hc)%Hops. intros Hnil.
    assert (q ∈ filterQsos qsos "all" op) as Hq by (apply Hfilter; eauto).
    rewrite Hnil in Hq. inversion Hq.
  - intros op q H. destruct (Hvalid _ H) as [Ha He]. by apply Hfilter.
Qed.

(** X14. The continent menu is ascending and free of duplicates and holds
    exactly the non-empty continents of the entries.  Selecting an entry of
    it always shows at least one entity, and, unless the continent is
    spelled like the reserved value "all", shows exactly the entities of
    that continent. *)
Theorem continents_select_entries (dxccData : DxccData) :
  let conts := availableContinents dxccData in
  StronglySorted strLe conts /\ NoDup conts
  /\ (forall c,
        c ∈ conts <->
        c ≠ "" /\ exists dxccId data, dxccData !! dxccId = Some data /\ cont data = c)
  /\ (forall c,
        c ∈ conts ->
        filteredEntries (continentOnly c) (map_to_list dxccData) ≠ [])
  /\ (forall c e,
        c ≠ "all" ->
        (e ∈ filteredEntries (continentOnly c) (map_to_list dxccData) <->
         dxccData !! fst e = Some (snd e) /\ cont (snd e) = c)).
Proof.
  intros conts. subst conts. unfold availableContinents.
  destruct (sortStrings_spec
              (remove_dups (omap (fun e : Entry => truthy (Some (cont (snd e))))
                              (map_to_list dxccData)))
              (NoDup_remove_dups _)) as (Hs & Hn & Hm).
  assert (Hc : forall c,
             c ∈ sortStrings
                   (remove_dups (omap (fun e : Entry => truthy (Some (cont (snd e))))
                                   (map_to_list dxccData)))
             <-> c ≠ "" /\
                 exists dxccId data, dxccData !! dxccId = Some data /\ cont data = c).
  { intros c. rewrite Hm, elem_of_remove_dups, list_elem_of_omap. split.
    - intros ([k d] & Hin%elem_of_map_to_list & [[= H] Hne]%truthy_Some). eauto.
    - intros (Hne & k & d & Hd & <-). exists (k, d).
      split; [by apply elem_of_map_to_list | by apply truthy_Some]. }
  assert (Hshown : forall c (e : Entry),
             e ∈ filteredEntries (continentOnly c) (map_to_list dxccData) <->
             dxccData !! fst e = Some (snd e)
             /\ (String.eqb c "all" || String.eqb (cont (snd e)) c) = true).
  { intros c [k d]. rewrite filteredEntries_shown, list_elem_of_In, filter_In,
      <- list_elem_of_In, elem_of_map_to_list.
    unfold shown, shownBase, shownStatus. cbn. by rewrite !andb_true_r. }
  split; [exact Hs |]. split; [exact Hn |]. split; [exact Hc |]. split.
  - intros c (_ & k & d & Hd & <-)%Hc Hnil.
    assert ((k, d) ∈ filteredEntries (continentOnly (cont d)) (map_to_list dxccData)) as H.
    { apply Hshown. split; [done |]. cbn. by rewrite String.eqb_refl, orb_true_r. }
    rewrite Hnil in H. inversion H.
  - intros c e Hall. rewrite Hshown, (proj2 (String.eqb_neq _ _) Hall).
    cbn [orb]. by rewrite String.eqb_eq.
Qed.

(** ** Pagination *)

Section Pages.

Context {A : Type}.

Lemma pages_concat_take (n k : nat) (l : list A) :
  concat ((fun p => slice ((p - 1) * n) (p * n) l) <$> seq 1 k) = take (k * n) l.
Proof.
  induction k as [| k IH]; [done |].
  rewrite seq_S, fmap_app, concat_app, IH. cbn [fmap list_fmap concat].
  rewrite app_nil_r. unfold slice.
  replace (1 + k - 1) with k by lia.
  replace ((1 + k) * n - k * n) with n by lia.
  rewrite take_take_drop. f_equal. lia.
Qed.

Lemma ceil_covers (n len : nat) : 0 < n -> len <= (len + n - 1) / n * n.
Proof.
  intros Hn. pose proof (Nat.mul_succ_div_gt (len + n - 1) n ltac:(lia)). lia.
Qed.

Lemma ceil_tight (n len : nat) : 0 < n -> 0 < len -> ((len + n - 1) / n - 1) * n < len.
Proof.
  intros Hn Hl. pose proof (Nat.Div0.mul_div_le (len + n - 1) n).
  assert (1 <= (len + n - 1) / n).
  { apply Nat.div_le_lower_bound; lia. }
  nia.
Qed.

End Pages.

(** X15. The pages partition the list shown: the pages 1 to [totalPages],
    one after the other, are the filtered list; no page holds more than
    [itemsPerPage] entries; every page up to [totalPages] of a non-empty list
    is non-empty, and every later page is empty. *)
Theorem pages_partition {A} (itemsPerPage : nat) (filteredData : list A) :
  concat ((fun p => paginatedData itemsPerPage p filteredData)
            <$> seq 1 (totalPages itemsPerPage (length filteredData)))
  = filteredData
  /\ (forall p, 0 < itemsPerPage ->
                length (paginatedData itemsPerPage p filteredData) <= itemsPerPage)
  /\ (forall p, 1 <= p <= totalPages itemsPerPage (length filteredData) ->
                filteredData ≠ [] ->
                paginatedData itemsPerPage p filteredData ≠ [])
  /\ (forall p, 0 < itemsPerPage ->
                totalPages itemsPerPage (length filteredData) < p ->
                paginatedData itemsPerPage p filteredData = []).
Proof.
  unfold paginatedData, totalPages.
  destruct (Nat.eqb_spec itemsPerPage 0) as [-> | Hn].
  - split; [cbn; by rewrite app_nil_r |]. split; [intros p Hp; lia |].
    split; [done | intros p Hp; lia].
  - assert (0 < itemsPerPage) as Hpos by lia.
    split; [| split; [| split]].
    + rewrite pages_concat_take. apply take_ge. by apply ceil_covers.
    + intros p _. unfold slice. rewrite length_take.
      assert (p * itemsPerPage - (p - 1) * itemsPerPage <= itemsPerPage); [| lia].
      destruct p as [| p]; [cbn; lia |].
      replace (S p - 1) with p by lia. cbn [Nat.mul]. lia.
    + intros p [Hp1 Hp2] Hne. unfold slice.
      assert (0 < length filteredData) as Hlen by (destruct filteredData; cbn; [done | lia]).
      pose proof (ceil_tight itemsPerPage (length filteredData) Hpos Hlen) as Ht.
      assert ((p - 1) * itemsPerPage < length filteredData) as Hstart by nia.
      intros Hnil. apply (f_equal length) in Hnil.
      rewrite length_take, length_drop in Hnil. cbn in Hnil. nia.
    + intros p _ Hp. unfold slice.
      pose proof (ceil_covers itemsPerPage (length filteredData) Hpos) as Hc.
      rewrite drop_ge; [by rewrite take_nil | nia].
Qed.

(** ** What the parser stores *)

Section StoredFields.

Lemma span_fst_all (p : ascii -> bool) (s : string) :
  allChars p (fst (Str.span p s)) = true.
Proof.
  induction s as [| c s IH]; [done |]. cbn [Str.span].
  destruct (p c) eqn:E; [| done].
  destruct (Str.span p s) as [a b]. cbn in *. by rewrite E.
Qed.

Lemma matchTagAt_classes (s : string) (t : Tag) (n : nat) :
  matchTagAt s = Some (t, n) ->
  tagName t ≠ "" /\ allChars Str.isWord (tagName t) = true
  /\ allChars notLt (tagRaw t) = true.
Proof.
  destruct s as [| c s1]; [discriminate |].
  intros H. pose proof (matchTagAt_head _ _ _ H) as ->. revert H.
  unfold matchTagAt.
  pose proof (span_fst_all Str.isWord s1) as Hname.
  destruct (Str.span Str.isWord s1) as [name s2]. cbn [fst] in Hname.
  destruct name as [| n0 name]; [discriminate |].
  destruct s2 as [| c2 s3]; [discriminate |].
  destruct c2 as [[] [] [] [] [] [] [] []]; try discriminate.
  destruct (Str.span Str.isDigit s3) as [digits s4].
  destruct digits as [| d0 digits]; [discriminate |].
  destruct s4 as [| c4 s5]; [discriminate |].
  destruct c4 as [[] [] [] [] [] [] [] []]; try discriminate.
  - (* the closing bracket *)
    pose proof (span_fst_all notLt s5) as Hraw.
    destruct (Str.span notLt s5) as [raw rest]. intros [= <- _]. done.
  - (* a colon: the type letter follows *)
    destruct s5 as [| ty [| c6 s7]]; try discriminate.
    destruct c6 as [[] [] [] [] [] [] [] []]; try discriminate.
    destruct (Str.isWord ty); [| discriminate].
    pose proof (span_fst_all notLt s7) as Hraw.
    destruct (Str.span notLt s7) as [raw rest]. intros [= <- _]. done.
Qed.

Lemma execAll_classes (record : string) (skip : nat) (t : Tag) :
  t ∈ execAll skip record ->
  tagName t ≠ "" /\ allChars Str.isWord (tagName t) = true
  /\ allChars notLt (tagRaw t) = true.
Proof.
  revert skip. induction record as [| c s IH]; intros skip; cbn [execAll].
  - intros H. inversion H.
  - destruct skip as [| k]; [| apply IH].
    destruct (matchTagAt (String c s)) as [[t' n] |] eqn:E; [| apply IH].
    intros [-> | H]%elem_of_cons; [by apply matchTagAt_classes in E | by apply IH in H].
Qed.

Lemma upperChar_idem (c : ascii) : Str.upperChar (Str.upperChar c) = Str.upperChar c.
Proof. destruct c as [[] [] [] [] [] [] [] []]; reflexivity. Qed.

Lemma upperChar_word (c : ascii) : Str.isWord (Str.upperChar c) = Str.isWord c.
Proof. destruct c as [[] [] [] [] [] [] [] []]; reflexivity. Qed.

Lemma toUpperCase_idem (s : string) :
  Str.toUpperCase (Str.toUpperCase s) = Str.toUpperCase s.
Proof.
  induction s as [| c s IH]; [done |].
  cbn [Str.toUpperCase Str.map] in *. by rewrite upperChar_idem, IH.
Qed.

Lemma toUpperCase_word (s : string) :
  allChars Str.isWord (Str.toUpperCase s) = allChars Str.isWord s.
Proof.
  induction s as [| c s IH]; [done |].
  cbn [Str.toUpperCase Str.map allChars] in *. by rewrite upperChar_word, IH.
Qed.

Lemma trimStart_all (p : ascii -> bool) (s : string) :
  allChars p s = true -> allChars p (Str.trimStart s) = true.
Proof.
  induction s as [| c s IH]; [done |]. cbn [Str.trimStart].
  destruct (Str.isSpace c); [| done]. cbn [allChars].
  intros [_ H]%andb_true_iff. by apply IH.
Qed.

Lemma trimEnd_all (p : ascii -> bool) (s : string) :
  allChars p s = true -> allChars p (Str.trimEnd s) = true.
Proof.
  induction s as [| c s IH]; [done |]. cbn [Str.trimEnd allChars].
  intros [Hc Hs]%andb_true_iff. specialize (IH Hs).
  destruct (Str.trimEnd s) as [| c' r].
  - destruct (Str.isSpace c); [done |]. cbn. by rewrite Hc.
  - cbn [allChars] in *. by rewrite Hc.
Qed.

Lemma take_all (p : ascii -> bool) (n : nat) (s : string) :
  allChars p s = true -> allChars p (Str.take n s) = true.
Proof.
  unfold Str.take. revert s. induction n as [| n IH]; intros [| c s]; cbn; try done.
  intros [Hc Hs]%andb_true_iff. by rewrite Hc, IH.
Qed.

Lemma trimEnd_idem (s : string) : Str.trimEnd (Str.trimEnd s) = Str.trimEnd s.
Proof.
  induction s as [| c s IH]; [done |]. cbn [Str.trimEnd].
  destruct (Str.trimEnd s) as [| c' r] eqn:E.
  - destruct (Str.isSpace c) eqn:Ec; [done |]. cbn. by rewrite Ec.
  - change (Str.trimEnd (String c (String c' r)))
      with (match Str.trimEnd (String c' r) with
            | EmptyString => if Str.isSpace c then EmptyString else String c EmptyString
            | String a b => String c (String a b)
            end).
    by rewrite IH.
Qed.

Lemma trimEnd_head (c : ascii) (s : string) :
  Str.isSpace c = false -> exists r, Str.trimEnd (String c s) = String c r.
Proof.
  intros Hc. cbn [Str.trimEnd]. destruct (Str.trimEnd s); [rewrite Hc |]; eauto.
Qed.

Lemma trimStart_head (s : string) :
  Str.trimStart s = "" \/
  exists c r, Str.trimStart s = String c r /\ Str.isSpace c = false.
Proof.
  induction s as [| c s IH]; [by left |]. cbn [Str.trimStart].
  destruct (Str.isSpace c) eqn:E; [done | right; eauto].
Qed.

Lemma trim_idem (s : string) : Str.trim (Str.trim s) = Str.trim s.
Proof.
  unfold Str.trim at 2 3.
  destruct (trimStart_head s) as [-> | (c & r & -> & Hc)]; [done |].
  destruct (trimEnd_head c r Hc) as (r' & E). unfold Str.trim. rewrite E.
  cbn [Str.trimStart]. rewrite Hc, <- E. apply trimEnd_idem.
Qed.

End StoredFields.

(** X16. Every field [parseADIF] stores has a non-empty name made of word
    characters that is its own upper-case form, and a value that is trimmed
    (trimming it again changes nothing) and holds no opening angle bracket. *)
Theorem stored_fields_are_normalized (content : string) (qso : Qso) (k v : string) :
  qso ∈ parseADIF content -> qso !! k = Some v ->
  k ≠ "" /\ allChars Str.isWord k = true /\ Str.toUpperCase k = k
  /\ Str.trim v = v /\ allChars notLt v = true.
Proof.
  intros (record & _ & _ & ->)%parseADIF_elem
    (before & t & after & Htags & <- & -> & _)%buildQso_lookup.
  assert (Ht : t ∈ execAll 0 record).
  { rewrite Htags. apply elem_of_app. right. left. }
  apply execAll_classes in Ht as (Hne & Hw & Hraw).
  split; [| split; [| split; [| split]]].
  - intros H%toUpperCase_empty. done.
  - by rewrite toUpperCase_word.
  - apply toUpperCase_idem.
  - unfold fieldValue. case_match; apply trim_idem.
  - unfold fieldValue, Str.trim.
    case_match; apply trimEnd_all, trimStart_all; [by apply take_all | done].
Qed.

Lemma stored_fields_are_normalized_witness :
  "CALL" ≠ "" /\ allChars Str.isWord "CALL" = true /\ Str.toUpperCase "CALL" = "CALL"
  /\ Str.trim "W1AW" = "W1AW" /\ allChars notLt "W1AW" = true.
Proof.
  apply (stored_fields_are_normalized "<call:4>W1AW zz<eor>" {[ "CALL" := "W1AW" ]}).
  - vm_compute. left.
  - vm_compute. reflexivity.
Defined.

(** ** Joining two logs *)

Section JoinLogs.

Lemma append_empty (s : string) : ("" ++ s)%string = s.
Proof. reflexivity. Qed.

Lemma append_String (c : ascii) (a s : string) :
  (String c a ++ s)%string = String c (a ++ s).
Proof. reflexivity. Qed.

Lemma startsEOR_spec (s : string) :
  startsEOR s = true <->
  exists e o r rest,
    s = String "<" (String e (String o (String r (String ">" rest)))) /\
    Str.upperChar e = "E"%char /\ Str.upperChar o = "O"%char /\
    Str.upperChar r = "R"%char.
Proof.
  split.
  - destruct s as [| c1 [| e [| o [| r [| c5 rest]]]]]; try discriminate;
      try (destruct c1 as [[] [] [] [] [] [] [] []]; discriminate).
    destruct c1 as [[] [] [] [] [] [] [] []]; try discriminate.
    destruct c5 as [[] [] [] [] [] [] [] []]; try discriminate.
    cbn [startsEOR]. intros [[He Ho]%andb_true_iff Hr]%andb_true_iff.
    exists e, o, r, rest. by rewrite <- !Ascii.eqb_eq.
  - intros (e & o & r & rest & -> & He & Ho & Hr). cbn [startsEOR].
    by rewrite He, Ho, Hr.
Qed.

Lemma upperChar_lt_not_letter :
  Str.upperChar "<" ≠ "E"%char /\ Str.upperChar "<" ≠ "O"%char
  /\ Str.upperChar "<" ≠ "R"%char.
Proof. by vm_compute. Qed.

Lemma splitEOR_non_empty (s : string) : splitEOR s ≠ [].
Proof.
  induction s as [| c s IH]; [done |]. cbn [splitEOR].
  destruct (startsEOR (String c s)).
  - by destruct s as [| ? [| ? [| ? [| ? ?]]]].
  - by destruct (splitEOR s).
Qed.

Lemma splitEOR_match (e o r : ascii) (rest : string) :
  Str.upperChar e = "E"%char -> Str.upperChar o = "O"%char ->
  Str.upperChar r = "R"%char ->
  splitEOR (String "<" (String e (String o (String r (String ">" rest)))))
  = EmptyString :: splitEOR rest.
Proof.
  intros He Ho Hr.
  assert (H : startsEOR (String "<" (String e (String o (String r (String ">" rest)))))
              = true).
  { apply startsEOR_spec. by exists e, o, r, rest. }
  cbn [splitEOR]. by rewrite H.
Qed.

Lemma splitEOR_step (c : ascii) (s : string) :
  startsEOR (String c s) = false ->
  splitEOR (String c s)
  = match splitEOR s with
    | chunk :: more => String c chunk :: more
    | [] => [String c EmptyString]
    end.
Proof. intros H. cbn [splitEOR]. by rewrite H. Qed.

(** A marker put after [a] creates no match that begins inside [a]. *)
Lemma startsEOR_before_marker (a rest : string) (e o r : ascii) :
  a ≠ "" ->
  startsEOR (a ++ String "<" (String e (String o (String r (String ">" rest)))))
    = true ->
  startsEOR a = true.
Proof.
  destruct upperChar_lt_not_letter as (HE & HO & HR).
  intros Hne (e' & o' & r' & rest' & Heq & He & Ho & Hr)%startsEOR_spec.
  apply startsEOR_spec.
  destruct a as [| c1 [| c2 [| c3 [| c4 [| c5 a6]]]]]; cbn in Heq; try done;
    injection Heq; intros; simplify_eq; try contradiction.
  by exists e', o', r', a6.
Qed.

Lemma splitEOR_join (n : nat) (a b : string) (e o r : ascii) :
  String.length a <= n ->
  Str.upperChar e = "E"%char -> Str.upperChar o = "O"%char ->
  Str.upperChar r = "R"%char ->
  splitEOR (a ++ String "<" (String e (String o (String r (String ">" b)))))
  = (splitEOR a ++ splitEOR b)%list.
Proof.
  intros Hlen He Ho Hr. revert a Hlen. induction n as [| n IH]; intros a Hlen.
  - destruct a; [| cbn in Hlen; lia].
    rewrite ?append_String, ?append_empty. by rewrite splitEOR_match.
  - destruct a as [| c a'].
    { rewrite ?append_String, ?append_empty. by rewrite splitEOR_match. }
    destruct (startsEOR (String c a')) eqn:Ea.
    + apply startsEOR_spec in Ea as (e' & o' & r' & a5 & Heq & He' & Ho' & Hr').
      injection Heq as -> ->. rewrite ?append_String, ?append_empty.
      rewrite !splitEOR_match by done.
      rewrite IH; [done | cbn in Hlen; lia].
    + assert (Ej : startsEOR (String c a' ++ String "<" (String e (String o
                                 (String r (String ">" b))))) = false).
      { apply not_true_is_false. intros H.
        apply startsEOR_before_marker in H; [congruence | done]. }
      rewrite ?append_String in *.
      rewrite (splitEOR_step _ _ Ej), (splitEOR_step _ _ Ea).
      rewrite IH by (cbn in Hlen; lia).
      pose proof (splitEOR_non_empty a') as Hne.
      by destruct (splitEOR a').
Qed.

End JoinLogs.

(** X17. Two logs joined by an end-of-record marker, in any letter case,
    parse to the records of the first followed by the records of the
    second. *)
Theorem parseADIF_join (a b marker : string) :
  startsEOR marker = true -> String.length marker = 5 ->
  parseADIF (a ++ marker ++ b) = (parseADIF a ++ parseADIF b)%list.
Proof.
  intros (e & o & r & rest & -> & He & Ho & Hr)%startsEOR_spec Hlen.
  destruct rest; [| cbn in Hlen; lia]. rewrite ?append_String, ?append_empty.
  unfold parseADIF. rewrite (splitEOR_join (String.length a)) by done.
  apply omap_app.
Qed.

Lemma parseADIF_join_witness :
  startsEOR "<EoR>" = true /\ String.length "<EoR>" = 5 /\
  parseADIF ("<CALL:4>W1AW<DXCC:3>291" ++ "<EoR>" ++ "<call:5>DK9RC<dxcc:3>230<eor>")
  = (parseADIF "<CALL:4>W1AW<DXCC:3>291"
       ++ parseADIF "<call:5>DK9RC<dxcc:3>230<eor>")%list.
Proof.
  assert (H1 : startsEOR "<EoR>" = true) by reflexivity.
  assert (H2 : String.length "<EoR>" = 5) by reflexivity.
  split; [exact H1 |]. split; [exact H2 |].
  exact (parseADIF_join _ _ _ H1 H2).
Defined.

(** ** Mode categories *)

Section ModeCategories.

Lemma string_prefix_refl (s : string) : String.prefix s s = true.
Proof.
  induction s as [| c s IH]; [done |]. cbn [String.prefix].
  by destruct (ascii_dec c c).
Qed.

Lemma string_prefix_append (d t u : string) :
  String.prefix (d ++ t) u = true -> String.prefix d u = true.
Proof.
  revert u. induction d as [| c d IH]; intros u; [by destruct u |].
  change (String c d ++ t)%string with (String c (d ++ t)).
  destruct u as [| c' u]; [done |]. cbn [String.prefix].
  destruct (ascii_dec c c'); [apply IH | done].
Qed.

Lemma includes_prefix (hay needle : string) :
  String.prefix needle hay = true -> Str.includes hay needle = true.
Proof. intros H. destruct hay; cbn [Str.includes]; by rewrite H. Qed.

Lemma upperChar_lowerChar (c : ascii) :
  Str.upperChar (Str.lowerChar c) = Str.upperChar c.
Proof. destruct c as [[] [] [] [] [] [] [] []]; reflexivity. Qed.

Lemma toUpperCase_toLowerCase (s : string) :
  Str.toUpperCase (Str.toLowerCase s) = Str.toUpperCase s.
Proof.
  induction s as [| c s IH]; [done |].
  cbn [Str.toUpperCase Str.toLowerCase Str.map] in *.
  by rewrite upperChar_lowerChar, IH.
Qed.

Lemma categorizeMode_upper (m m' : string) :
  (m = "" <-> m' = "") -> Str.toUpperCase m = Str.toUpperCase m' ->
  categorizeMode (Some m) = categorizeMode (Some m').
Proof.
  intros He Hu. unfold categorizeMode.
  destruct m as [| c m], m' as [| c' m']; [done | | |].
  - by destruct (proj1 He eq_refl).
  - by destruct (proj2 He eq_refl).
  - cbn [truthy]. by rewrite Hu.
Qed.

End ModeCategories.

(** X18. [categorizeMode] does not depend on the letter case of the
    mode: the mode written in upper case or in lower case (ASCII letters)
    gets the same category. *)
Theorem categorizeMode_ignores_case (m : string) :
  categorizeMode (Some (Str.toUpperCase m)) = categorizeMode (Some m)
  /\ categorizeMode (Some (Str.toLowerCase m)) = categorizeMode (Some m).
Proof.
  split; apply categorizeMode_upper.
  - split; [apply toUpperCase_empty | by intros ->].
  - apply toUpperCase_idem.
  - split; [by destruct m | by intros ->].
  - apply toUpperCase_toLowerCase.
Qed.

(** X19. A mode is categorized as digital exactly when it is not empty
    and its trimmed upper-case form contains one of the digital mode names
    anywhere: the equality and the prefix test of [categorizeMode] add
    nothing to the containment test. *)
Theorem digital_iff_contains_digital_name (m : string) :
  categorizeMode (Some m) = "digital" <->
  m ≠ "" /\ exists d, d ∈ MODE_digital
                      /\ Str.includes (Str.trim (Str.toUpperCase m)) d = true.
Proof.
  unfold categorizeMode. destruct m as [| c m].
  { cbn [truthy]. split; [discriminate | by intros [? _]]. }
  cbn [truthy]. set (u := Str.trim (Str.toUpperCase (String c m))).
  destruct (existsb _ MODE_digital) eqn:E.
  - split; [intros _ | done]. split; [done |].
    apply List.existsb_exists in E as (d & Hin & Hd).
    exists d. split; [by apply list_elem_of_In |].
    apply orb_true_iff in Hd as [[Hd | Hd]%orb_true_iff | Hd]; [| | done].
    + apply String.eqb_eq in Hd as ->. apply includes_prefix, string_prefix_refl.
    + apply includes_prefix. unfold Str.startsWith in Hd.
      by apply string_prefix_append in Hd.
  - split.
    + intros H. exfalso. revert H.
      destruct (String.eqb u "CW" || Str.startsWith u "CW "); [discriminate |].
      by destruct (existsb _ MODE_ssb).
    + intros (_ & d & Hin%list_elem_of_In & Hd). exfalso.
      apply not_true_iff_false in E. apply E, List.existsb_exists.
      exists d. split; [done |]. by rewrite Hd, orb_true_r.
Qed.

(** ** The charts *)

Section ChartFacts.

Lemma sumRows_insert_fresh (g : ContCounts -> nat) (m : gmap string ContCounts)
    (k : string) (v : ContCounts) :
  m !! k = None -> sumRows g (<[k := v]> m) = g v + sumRows g m.
Proof.
  intros Hk. unfold sumRows. rewrite map_fold_insert_L; [done | | done].
  intros. lia.
Qed.

Lemma sumRows_insert (g : ContCounts -> nat) (m : gmap string ContCounts)
    (k : string) (v : ContCounts) :
  sumRows g (<[k := v]> m) + from_option g 0 (m !! k) = g v + sumRows g m.
Proof.
  destruct (m !! k) as [w |] eqn:Hk; cbn [from_option].
  - rewrite <- (insert_delete_id m k w Hk) at 2.
    rewrite <- (insert_delete_eq m k v).
    rewrite !sumRows_insert_fresh by apply lookup_delete_eq. lia.
  - rewrite sumRows_insert_fresh by done. lia.
Qed.

Lemma contStep_worked (fb : string) (m : gmap string ContCounts) (e : Entry) :
  sumRows cc_worked (contStep fb m e)
  = sumRows cc_worked m + (if charted e then 1 else 0).
Proof.
  unfold contStep, charted. cbv zeta.
  destruct (inherited _); cbn [negb]; [lia |].
  match goal with |- context [<[?k := ?v]> m] =>
    pose proof (sumRows_insert cc_worked m k v) as H; revert H end.
  cbn [cc_worked]. destruct (m !! _); cbn [from_option id cc_worked]; lia.
Qed.

Lemma contStep_confirmed (fb : string) (m : gmap string ContCounts) (e : Entry) :
  sumRows cc_confirmed (contStep fb m e)
  = sumRows cc_confirmed m
    + (if charted e && existsb (hasStatus C (snd e)) (bandsToCheck fb) then 1 else 0).
Proof.
  unfold contStep, charted. cbv zeta.
  destruct (inherited _); cbn [negb andb]; [lia |].
  match goal with |- context [<[?k := ?v]> m] =>
    pose proof (sumRows_insert cc_confirmed m k v) as H; revert H end.
  cbn [cc_confirmed].
  destruct (m !! _), (existsb _ _); cbn [from_option id cc_confirmed]; lia.
Qed.

Lemma contMap_sums (fb : string) (l : list Entry) (m : gmap string ContCounts) :
  sumRows cc_worked (fold_left (contStep fb) l m)
  = sumRows cc_worked m + length (List.filter charted l)
  /\ sumRows cc_confirmed (fold_left (contStep fb) l m)
     = sumRows cc_confirmed m + confirmedCount fb (List.filter charted l).
Proof.
  revert m. induction l as [| e l IH]; intros m.
  { unfold confirmedCount. cbn. lia. }
  cbn [fold_left]. destruct (IH (contStep fb m e)) as [-> ->].
  rewrite contStep_worked, contStep_confirmed.
  unfold confirmedCount. cbn [List.filter length].
  destruct (charted e); cbn [andb List.filter length]; [| lia].
  destruct (existsb _ _); cbn [length]; lia.
Qed.

Lemma contMap_rows (fb : string) (l : list Entry) (m : gmap string ContCounts) :
  map_Forall (fun row counts => (row ≠ "" /\ inherited row = false) /\ rowOk counts) m ->
  map_Forall (fun row counts => (row ≠ "" /\ inherited row = false) /\ rowOk counts)
    (fold_left (contStep fb) l m).
Proof.
  revert m. induction l as [| e l IH]; intros m Hm; [done |].
  cbn [fold_left]. apply IH. unfold contStep. cbv zeta.
  destruct (inherited (orElse (Some (cont (snd e))) "Unknown")) eqn:Hrow; [done |].
  apply map_Forall_insert_2; [| done].
  split; [split; [unfold orElse; by destruct (cont (snd e)) | done] |].
  unfold rowOk. cbn [cc_worked cc_confirmed].
  destruct (m !! _) as [w |] eqn:E; cbn [from_option id].
  - destruct (Hm _ _ E) as [_ []]. destruct (existsb _ _); lia.
  - cbn. destruct (existsb _ _); lia.
Qed.

(** The two counters of a band row are the numbers of entries displayed as
    Confirmed and as Worked. *)
Lemma bandRow_counts (fc : string) (l : list Entry) (band : string) :
  bandRow fc l band
  = (length (List.filter
               (fun e : Entry =>
                  match getDisplayBandStatus fc (snd e) band with
                  | Some C => true | _ => false end) l),
     length (List.filter
               (fun e : Entry =>
                  match getDisplayBandStatus fc (snd e) band with
                  | Some W => true | _ => false end) l)).
Proof.
  unfold bandRow.
  assert (H : forall c w,
             fold_left
               (fun (acc : nat * nat) (e : Entry) =>
                  let (confirmed, workedOnly) := acc in
                  match getDisplayBandStatus fc (snd e) band with
                  | Some C => (S confirmed, workedOnly)
                  | Some W => (confirmed, S workedOnly)
                  | None => (confirmed, workedOnly)
                  end) l (c, w)
             = (c + length (List.filter
                              (fun e : Entry =>
                                 match getDisplayBandStatus fc (snd e) band with
                  | Some C => true | _ => false end) l),
                w + length (List.filter
                              (fun e : Entry =>
                                 match getDisplayBandStatus fc (snd e) band with
                  | Some W => true | _ => false end) l))).
  { induction l as [| e l IH]; intros c w; cbn [fold_left List.filter length].
    - f_equal; lia.
    - destruct (getDisplayBandStatus fc (snd e) band) as [[] |];
        rewrite IH; cbn; f_equal; lia. }
  apply H.
Qed.

Lemma filter_none_length {A} (p : A -> bool) (l : list A) :
  (forall x, In x l -> p x = false) -> length (List.filter p l) = 0.
Proof.
  induction l as [| x l IH]; intros H; [done |]. cbn [List.filter].
  rewrite (H x) by (by left). apply IH. intros y Hy. apply H. by right.
Qed.

Lemma filter_all_length {A} (p : A -> bool) (l : list A) :
  (forall x, In x l -> p x = true) -> length (List.filter p l) = length l.
Proof.
  induction l as [| x l IH]; intros H; [done |]. cbn [List.filter].
  rewrite (H x) by (by left). cbn [length]. f_equal.
  apply IH. intros y Hy. apply H. by right.
Qed.

Lemma platformCounts_counts (fb : string) (l : list Entry) (platform : string) :
  platform ∈ PLATFORMS ->
  countOf platform (platformCounts fb l)
  = Some (length (List.filter
                    (fun e : Entry => getDisplayConfirmation fb (snd e) platform) l)).
Proof.
  intros Hp. unfold platformCounts.
  assert (H : forall c n,
             countOf platform c = Some n ->
             countOf platform
               (fold_left
                  (fun (c : Counts) (e : Entry) =>
                     if negb (String.eqb fb "all") then
                       {| pq_lotw := bump (bandConfirmedBy (snd e) fb "lotw") (pq_lotw c);
                          pq_eqsl := bump (bandConfirmedBy (snd e) fb "eqsl") (pq_eqsl c);
                          pq_qrz := bump (bandConfirmedBy (snd e) fb "qrz") (pq_qrz c);
                          pq_qsl := bump (bandConfirmedBy (snd e) fb "qsl") (pq_qsl c) |}
                     else
                       {| pq_lotw := bump (lotw (snd e)) (pq_lotw c);
                          pq_eqsl := bump (eqsl (snd e)) (pq_eqsl c);
                          pq_qrz := bump (qrz (snd e)) (pq_qrz c);
                          pq_qsl := bump (qsl (snd e)) (pq_qsl c) |}) l c)
             = Some (n + length (List.filter
                                   (fun e : Entry =>
                                      getDisplayConfirmation fb (snd e) platform) l))).
  { induction l as [| e l IH]; intros c n Hc; cbn [fold_left List.filter length].
    - by rewrite Hc, Nat.add_0_r.
    - erewrite IH; last first.
      { instantiate (1 := bump (getDisplayConfirmation fb (snd e) platform) n).
        unfold getDisplayConfirmation. revert Hc.
        apply list_elem_of_In in Hp. cbn in Hp.
        destruct Hp as [<- | [<- | [<- | [<- | []]]]];
          destruct (negb (String.eqb fb "all")); cbn; by intros [= ->]. }
      destruct (getDisplayConfirmation fb (snd e) platform); cbn [bump length];
        f_equal; lia. }
  rewrite (H noCounts 0); [done |].
  apply list_elem_of_In in Hp. cbn in Hp.
  by destruct Hp as [<- | [<- | [<- | [<- | []]]]].
Qed.

End ChartFacts.

(** What the table filter leaves of an entry's status on the selected
    band. *)
Lemma shown_display (f : Filters) (e : Entry) :
  filterBand f ∈ BANDS -> shown f e = true ->
  getDisplayBandStatus (filterConfirmation f) (snd e) (filterBand f)
  = (if String.eqb (filterConfirmation f) "all"
     then if hasStatus C (snd e) (filterBand f) then Some C else Some W
     else Some C)
  /\ (filterStatus f = "confirmed" -> hasStatus C (snd e) (filterBand f) = true)
  /\ (filterStatus f = "worked" -> hasStatus C (snd e) (filterBand f) = false).
Proof.
  intros Hb%band_not_all [Hbase Hstatus]%andb_true_iff.
  unfold shownBase in Hbase. rewrite Hb in Hbase. cbn [negb orb] in Hbase.
  apply andb_true_iff in Hbase as [[_ Hband]%andb_true_iff Hplat].
  split; [| split].
  - unfold getDisplayBandStatus. unfold hasStatus in *.
    destruct (String.eqb (filterConfirmation f) "all"); cbn [negb orb] in *.
    + by destruct (bands (snd e) !! filterBand f) as [[[] |] |].
    + rewrite Hplat. by destruct (bands (snd e) !! filterBand f) as [[[] |] |].
  - intros Hs. unfold shownStatus, bandsToCheck in Hstatus.
    rewrite Hs, Hb in Hstatus. cbn in Hstatus. by rewrite orb_false_r in Hstatus.
  - intros Hs. unfold shownStatus, bandsToCheck in Hstatus.
    rewrite Hs, Hb in Hstatus. cbn in Hstatus.
    apply andb_true_iff in Hstatus as [H _]. rewrite andb_true_r in H.
    by apply negb_true_iff in H.
Qed.

(** X20. The continent chart accounts for every entry whose row name is
    not the name of an inherited member, and for no other: the worked
    counters of its rows add up to the number of these entries, the
    confirmed counters to the number of them with a Confirmed band; every
    row has a non-empty name that is no such name, at least one worked entry
    and no more confirmed than worked entries.  Without such names among the
    continents, the worked counters add up to the number of entries. *)
Theorem continent_chart_adds_up (filterBand : string) (filteredData : list Entry) :
  sumRows cc_worked (contMap filterBand filteredData)
  = length (List.filter charted filteredData)
  /\ sumRows cc_confirmed (contMap filterBand filteredData)
     = confirmedCount filterBand (List.filter charted filteredData)
  /\ (forall row counts,
        contMap filterBand filteredData !! row = Some counts ->
        row ≠ "" /\ inherited row = false
        /\ 0 < cc_worked counts /\ cc_confirmed counts <= cc_worked counts)
  /\ ((forall e, e ∈ filteredData -> inherited (cont (snd e)) = false) ->
      sumRows cc_worked (contMap filterBand filteredData) = length filteredData).
Proof.
  unfold contMap.
  destruct (contMap_sums filterBand filteredData ∅) as [-> ->].
  unfold sumRows. rewrite !map_fold_empty.
  split; [done |]. split; [done |]. split.
  - intros row counts H.
    pose proof (contMap_rows filterBand filteredData ∅ (map_Forall_empty _)) as Hr.
    by destruct (Hr _ _ H) as [[] []].
  - intros Hall. cbn [Nat.add]. apply filter_all_length.
    intros e He%list_elem_of_In. unfold charted, orElse.
    specialize (Hall e He).
    destruct (cont (snd e)); cbn [truthy]; [done | by rewrite Hall].
Qed.

(** X21. With a band selected, the band chart's row for that band counts
    every entry the table shows, each as Confirmed or as Worked; under a
    platform filter or the status mode Confirmed none is counted as Worked,
    and under the status mode Worked Only without a platform filter none is
    counted as Confirmed. *)
Theorem band_chart_counts_shown_entries (f : Filters) (entries : list Entry) :
  filterBand f ∈ BANDS ->
  let shownEntries := filteredEntries f entries in
  let row := bandRow (filterConfirmation f) shownEntries (filterBand f) in
  fst row + snd row = length shownEntries
  /\ (filterConfirmation f ≠ "all" -> snd row = 0)
  /\ (filterStatus f = "confirmed" -> snd row = 0)
  /\ (filterStatus f = "worked" -> filterConfirmation f = "all" -> fst row = 0).
Proof.
  intros Hb shownEntries row. subst row shownEntries.
  rewrite bandRow_counts, filteredEntries_shown. cbn [fst snd].
  split; [| split; [| split]].
  - rewrite !filter_filter. symmetry. apply filter_split_length.
    intros e He. destruct (shown_display f e Hb He) as (-> & _).
    by destruct (String.eqb (filterConfirmation f) "all"),
         (hasStatus C (snd e) (filterBand f)).
  - intros Hall%String.eqb_neq. apply filter_none_length.
    intros e [_ He]%filter_In. destruct (shown_display f e Hb He) as (-> & _).
    by rewrite Hall.
  - intros Hs. apply filter_none_length.
    intros e [_ He]%filter_In. destruct (shown_display f e Hb He) as (-> & HC & _).
    rewrite (HC Hs). by destruct (String.eqb (filterConfirmation f) "all").
  - intros Hs Hall. apply filter_none_length.
    intros e [_ He]%filter_In. destruct (shown_display f e Hb He) as (-> & _ & HW).
    by rewrite (HW Hs), Hall.
Qed.

Lemma band_chart_counts_shown_entries_witness :
  "20m" ∈ BANDS /\
  fst (bandRow "lotw" (filteredEntries sampleFilters sampleEntries) "20m")
  + snd (bandRow "lotw" (filteredEntries sampleFilters sampleEntries) "20m")
  = length (filteredEntries sampleFilters sampleEntries).
Proof.
  assert (H : filterBand sampleFilters ∈ BANDS)
    by (apply member_spec; vm_compute; reflexivity).
  split; [exact H |].
  exact (proj1 (band_chart_counts_shown_entries sampleFilters sampleEntries H)).
Defined.

(** X22. Under a platform filter the platform chart's bar for that
    platform counts every entry the table shows; and no bar of the chart is
    longer than the list it is drawn from. *)
Theorem platform_chart_counts_shown_entries (f : Filters) (entries : list Entry) :
  filterConfirmation f ∈ PLATFORMS ->
  countOf (filterConfirmation f)
    (platformCounts (filterBand f) (filteredEntries f entries))
  = Some (length (filteredEntries f entries))
  /\ forall filterBand platform filteredData n,
      countOf platform (platformCounts filterBand filteredData) = Some n ->
      n <= length filteredData.
Proof.
  intros Hp. split.
  - rewrite platformCounts_counts by done. f_equal.
    apply filter_all_length. intros e He.
    rewrite filteredEntries_shown in He. apply filter_In in He as [_ He].
    apply andb_true_iff in He as [[_ Hplat]%andb_true_iff _].
    rewrite (platform_not_all _ Hp) in Hplat. by cbn [orb] in Hplat.
  - intros fb platform l n Hn.
    assert (Hin : platform ∈ PLATFORMS).
    { apply member_spec. unfold countOf in Hn. unfold PLATFORMS. cbn.
      repeat (destruct (String.eqb platform _); [done |]). done. }
    rewrite (platformCounts_counts fb l platform Hin) in Hn. injection Hn as <-.
    rewrite <- (filter_true l) at 2. by apply filter_length_le.
Qed.

Lemma platform_chart_counts_shown_entries_witness :
  "lotw" ∈ PLATFORMS /\
  countOf "lotw" (platformCounts "20m" (filteredEntries sampleFilters sampleEntries))
  = Some (length (filteredEntries sampleFilters sampleEntries)).
Proof.
  assert (H : filterConfirmation sampleFilters ∈ PLATFORMS)
    by (apply member_spec; vm_compute; reflexivity).
  split; [exact H |].
  exact (proj1 (platform_chart_counts_shown_entries sampleFilters sampleEntries H)).
Defined.

(** ** The properties on the sample log *)

Lemma platform_flags_accumulate_witness :
  analyzeQSOs sampleLookup sampleLog "all" "all" !! "291" = Some entry291 /\
  "lotw" ∈ PLATFORMS /\
  countOf "lotw" (platformQsos entry291)
  = Some (length (List.filter
                    (fun q => forEntity "291" q && platformTest "lotw" (platformsOf q))
                    (filterQsos sampleLog "all" "all"))).
Proof.
  assert (H1 : analyzeQSOs sampleLookup sampleLog "all" "all" !! "291" = Some entry291)
    by (vm_compute; reflexivity).
  assert (H2 : "lotw" ∈ PLATFORMS) by (apply member_spec; vm_compute; reflexivity).
  split; [exact H1 |]. split; [exact H2 |].
  exact (proj1 (proj2 (platform_flags_accumulate sampleLookup sampleLog "all" "all"
                         "291" "lotw" entry291 H1 H2))).
Defined.

Lemma total_splits_over_bands_witness :
  analyzeQSOs sampleLookup sampleLog "all" "all" !! "291" = Some entry291 /\
  sum_list ((fun band => default 0 (bandQsos entry291 !! band)) <$> BANDS)
  <= total entry291.
Proof.
  assert (H1 : analyzeQSOs sampleLookup sampleLog "all" "all" !! "291" = Some entry291)
    by (vm_compute; reflexivity).
  split; [exact H1 |].
  exact (proj2 (total_splits_over_bands sampleLookup sampleLog "all" "all"
                  "291" entry291 H1)).
Defined.

Lemma display_count_narrows_witness :
  analyzeQSOs sampleLookup sampleLog "all" "all" !! "291" = Some entry291 /\
  "20m" ∈ BANDS /\ "lotw" ∈ PLATFORMS /\
  getDisplayQsos "20m" "lotw" entry291 <= getDisplayQsos "20m" "all" entry291.
Proof.
  assert (H1 : analyzeQSOs sampleLookup sampleLog "all" "all" !! "291" = Some entry291)
    by (vm_compute; reflexivity).
  assert (H2 : "20m" ∈ BANDS) by (apply member_spec; vm_compute; reflexivity).
  assert (H3 : "lotw" ∈ PLATFORMS) by (apply member_spec; vm_compute; reflexivity).
  split; [exact H1 |]. split; [exact H2 |]. split; [exact H3 |].
  exact (proj1 (display_count_narrows sampleLookup sampleLog "all" "all"
                  "291" "20m" "lotw" entry291 H1 H2 H3)).
Defined.

Lemma confirmed_band_names_a_platform_witness :
  analyzeQSOs sampleLookup sampleLog "all" "all" !! "291" = Some entry291 /\
  "20m" ∈ BANDS /\
  (bands entry291 !! "20m" = Some (Some C) <->
   exists platform,
     platform ∈ PLATFORMS /\ bandConfirmedBy entry291 "20m" platform = true).
Proof.
  assert (H1 : analyzeQSOs sampleLookup sampleLog "all" "all" !! "291" = Some entry291)
    by (vm_compute; reflexivity).
  assert (H2 : "20m" ∈ BANDS) by (apply member_spec; vm_compute; reflexivity).
  split; [exact H1 |]. split; [exact H2 |].
  exact (confirmed_band_names_a_platform sampleLookup sampleLog "all" "all"
           "291" "20m" entry291 H1 H2).
Defined.

Lemma checkmark_iff_positive_count_witness :
  analyzeQSOs sampleLookup sampleLog "all" "all" !! "291" = Some entry291 /\
  "20m" ∈ BANDS /\ "lotw" ∈ PLATFORMS /\
  (getDisplayConfirmation "20m" entry291 "lotw" = true <->
   0 < getDisplayQsos "20m" "lotw" entry291).
Proof.
  assert (H1 : analyzeQSOs sampleLookup sampleLog "all" "all" !! "291" = Some entry291)
    by (vm_compute; reflexivity).
  assert (H2 : "20m" ∈ BANDS) by (apply member_spec; vm_compute; reflexivity).
  assert (H3 : "lotw" ∈ PLATFORMS) by (apply member_spec; vm_compute; reflexivity).
  split; [exact H1 |]. split; [exact H2 |]. split; [exact H3 |].
  exact (proj1 (checkmark_iff_positive_count sampleLookup sampleLog "all" "all"
                  "291" "20m" "lotw" entry291 H1 H2 H3)).
Defined.

Lemma display_status_only_lowers_witness :
  analyzeQSOs sampleLookup sampleLog "all" "all" !! "291" = Some entry291 /\
  "20m" ∈ BANDS /\ "lotw" ∈ "all" :: PLATFORMS /\
  (getDisplayBandStatus "lotw" entry291 "20m" = None <->
   bands entry291 !! "20m" = Some None).
Proof.
  assert (H1 : analyzeQSOs sampleLookup sampleLog "all" "all" !! "291" = Some entry291)
    by (vm_compute; reflexivity).
  assert (H2 : "20m" ∈ BANDS) by (apply member_spec; vm_compute; reflexivity).
  assert (H3 : "lotw" ∈ "all" :: PLATFORMS)
    by (apply member_spec; vm_compute; reflexivity).
  split; [exact H1 |]. split; [exact H2 |]. split; [exact H3 |].
  exact (proj1 (display_status_only_lowers sampleLookup sampleLog "all" "all"
                  "291" "20m" "lotw" entry291 H1 H2 H3)).
Defined.

Lemma band_platform_filter_shows_confirmed_witness :
  "20m" ∈ BANDS /\ "lotw" ∈ PLATFORMS /\
  ("291", entry291) ∈ filteredEntries sampleFilters sampleEntries /\
  getDisplayBandStatus "lotw" entry291 "20m" = Some C.
Proof.
  assert (H1 : filterBand sampleFilters ∈ BANDS)
    by (apply member_spec; vm_compute; reflexivity).
  assert (H2 : filterConfirmation sampleFilters ∈ PLATFORMS)
    by (apply member_spec; vm_compute; reflexivity).
  assert (H0 : analyzeQSOs sampleLookup sampleLog "all" "all"
               = Some (default ∅ (analyzeQSOs sampleLookup sampleLog "all" "all")))
    by (vm_compute; reflexivity).
  assert (H3 : ("291", entry291)
               ∈ filteredEntries sampleFilters
                   (map_to_list
                      (default ∅ (analyzeQSOs sampleLookup sampleLog "all" "all"))))
    by (apply list_elem_of_In; vm_compute; left; reflexivity).
  split; [exact H1 |]. split; [exact H2 |]. split; [exact H3 |].
  exact (proj1 (band_platform_filter_shows_confirmed sampleLookup sampleLog "all" "all"
                  sampleFilters ("291", entry291) _ H0 H1 H2 H3)).
Defined.

Lemma confirmed_entity_has_confirmed_contact_witness :
  analyzeQSOs sampleLookup sampleLog "all" "all" !! "291" = Some entry291 /\
  (existsb (hasStatus C entry291) (bandsToCheck "all") = true <->
   exists q band,
     q ∈ filterQsos sampleLog "all" "all" /\ band ∈ BANDS /\
     onBand "291" band q = true /\ isConfirmed q = true).
Proof.
  assert (H1 : analyzeQSOs sampleLookup sampleLog "all" "all" !! "291" = Some entry291)
    by (vm_compute; reflexivity).
  split; [exact H1 |].
  exact (proj1 (confirmed_entity_has_confirmed_contact sampleLookup sampleLog
                  "all" "all" "291" entry291 H1)).
Defined.

Lemma filtered_total_bounded_witness :
  "20m" ∈ "all" :: BANDS /\ "lotw" ∈ "all" :: PLATFORMS /\
  displayTotal "20m" "lotw" (filteredEntries sampleFilters sampleEntries)
  <= totalQSOs (default ∅ (analyzeQSOs sampleLookup sampleLog "all" "all")).
Proof.
  assert (H0 : analyzeQSOs sampleLookup sampleLog "all" "all"
               = Some (default ∅ (analyzeQSOs sampleLookup sampleLog "all" "all")))
    by (vm_compute; reflexivity).
  assert (H1 : filterBand sampleFilters ∈ "all" :: BANDS)
    by (apply member_spec; vm_compute; reflexivity).
  assert (H2 : filterConfirmation sampleFilters ∈ "all" :: PLATFORMS)
    by (apply member_spec; vm_compute; reflexivity).
  split; [exact H1 |]. split; [exact H2 |].
  exact (proj1 (filtered_total_bounded sampleLookup sampleLog "all" "all"
                  sampleFilters _ H0 H1 H2)).
Defined.

Lemma entries_are_the_identifiers_witness :
  size (default ∅ (analyzeQSOs sampleLookup sampleLog "all" "all"))
  = length (List.filter (fun dxccId => negb (inherited dxccId))
              (keysOf (filterQsos sampleLog "all" "all"))).
Proof.
  assert (H0 : analyzeQSOs sampleLookup sampleLog "all" "all"
               = Some (default ∅ (analyzeQSOs sampleLookup sampleLog "all" "all")))
    by (vm_compute; reflexivity).
  exact (proj2 (entries_are_the_identifiers sampleLookup sampleLog "all" "all" _ H0)).
Defined.

Lemma entry_depends_on_own_records_witness :
  exists own,
    analyzeQSOs sampleLookup (List.filter (forEntity "291") sampleLog) "all" "all"
    = Some own
    /\ own !! "291"
       = default ∅ (analyzeQSOs sampleLookup sampleLog "all" "all") !! "291".
Proof.
  assert (H0 : analyzeQSOs sampleLookup sampleLog "all" "all"
               = Some (default ∅ (analyzeQSOs sampleLookup sampleLog "all" "all")))
    by (vm_compute; reflexivity).
  exact (entry_depends_on_own_records sampleLookup sampleLog "all" "all" "291" _ H0).
Defined.
